(** * Connect Resources report pipeline: a shallow embedding

    The Python sources embedded here are
    - [app/pagination_helper.py]   ([fetch_all_paginated]),
    - [app/provider_analyzer.py]   ([categorize_email_provider],
                                    [analyze_provider_breakdown]),
    - [connect_resources_report.py] ([get_week_info], the aggregation and row
      building of [create_master_dashboard], [create_campaigns_tab],
      [create_agents_tab], and the digest metrics of [main]).

    Conventions of the embedding:
    - Python [int] is [Z]; Python [float] is binary64, taken from the
      specification of IEEE arithmetic in [SpecFloat] (precision 53, emax 1024);
    - Python [str] is [string], read as the UTF-8 bytes of the text, so that
      byte-wise comparison agrees with code point comparison; [lower] acts on
      the ASCII letters;
    - a Python [dict] is an insertion-ordered association list ([odict]) where
      iteration order is observable, and a [gmap] for the parameter
      dictionaries living in the object store of the paginated fetcher;
    - a raised exception is the [Raise] branch of [result]. *)

From Stdlib Require Import ZArith String Ascii List Bool Lia.
From Stdlib Require Import Sorting.Sorted Sorting.Permutation.
From Stdlib Require Import Structures.OrderedTypeEx.
From Stdlib Require Import Floats.SpecFloat DecimalString.
From stdpp Require Import base decidable option list gmap strings fin_maps.
Import ListNotations.

Open Scope string_scope.
Open Scope Z_scope.

(** ** Python runtime: exceptions *)

Module Py.

Inductive exc : Type :=
| KeyError
| ValueError
| TypeError
| ZeroDivisionError
| OverflowError
| TransportError (msg : string).

Inductive result (A : Type) : Type :=
| Ok (a : A)
| Raise (e : exc).
Arguments Ok {A} a.
Arguments Raise {A} e.

Definition bind {A B : Type} (r : result A) (k : A -> result B) : result B :=
  match r with
  | Ok a => k a
  | Raise e => Raise e
  end.

Definition is_ok {A : Type} (r : result A) : bool :=
  match r with Ok _ => true | Raise _ => false end.

(** [for x in l: acc = body(acc, x)] where the body may raise. *)
Fixpoint foldM {A S : Type} (body : S -> A -> result S) (l : list A) (s : S)
  : result S :=
  match l with
  | [] => Ok s
  | x :: l' => bind (body s x) (foldM body l')
  end.

(** ** Truthiness *)

(** [if s:] on an optional string: [None] and [''] are falsy. *)
Definition truthy_str (s : option string) : bool :=
  match s with
  | Some (String _ _) => true
  | _ => false
  end.

(** ** Strings *)

(** [sub in s] *)
Fixpoint contains (sub s : string) : bool :=
  String.prefix sub s ||
  match s with
  | EmptyString => false
  | String _ s' => contains sub s'
  end.

(** [s.split(c)] for a one-character separator. *)
Fixpoint split (c : ascii) (s : string) : list string :=
  match s with
  | EmptyString => [EmptyString]
  | String a s' =>
      if Ascii.eqb a c then EmptyString :: split c s'
      else match split c s' with
           | h :: t => String a h :: t
           | [] => [String a EmptyString]
           end
  end.

Definition lower_ascii (a : ascii) : ascii :=
  let n := N_of_ascii a in
  if ((65 <=? n) && (n <=? 90))%N then ascii_of_N (n + 32) else a.

(** [s.lower()] *)
Fixpoint lower (s : string) : string :=
  match s with
  | EmptyString => EmptyString
  | String a s' => String (lower_ascii a) (lower s')
  end.

(** ** Insertion-ordered dictionaries *)

Section ODict.
Context {K V : Type} `{EqDecision K}.

Definition odict := list (K * V).

(** [d.get(k)] *)
Fixpoint od_get (k : K) (d : list (K * V)) : option V :=
  match d with
  | [] => None
  | (k', v) :: d' => if decide (k = k') then Some v else od_get k d'
  end.

(** [d[k] = f(d[k])] on a [defaultdict] whose factory yields [dflt]; also
    [if k not in d: d[k] = dflt] followed by [d[k] = f(d[k])]. A key that
    is present keeps its position, a new key goes last. *)
Fixpoint od_upd (k : K) (f : V -> V) (dflt : V) (d : list (K * V))
  : list (K * V) :=
  match d with
  | [] => [(k, f dflt)]
  | (k', v) :: d' =>
      if decide (k = k') then (k', f v) :: d'
      else (k', v) :: od_upd k f dflt d'
  end.

(** [d[k] = v] *)
Definition od_set (k : K) (v : V) (d : list (K * V)) : list (K * V) :=
  od_upd k (fun _ => v) v d.

Definition od_keys (d : list (K * V)) : list K := map fst d.
Definition od_values (d : list (K * V)) : list V := map snd d.
End ODict.

(** ** [sorted]: a stable sort *)

Section Sorted.
Context {A : Type} (le : A -> A -> bool).

Fixpoint insert_by (x : A) (l : list A) : list A :=
  match l with
  | [] => [x]
  | y :: l' => if le x y then x :: y :: l' else y :: insert_by x l'
  end.

(** Elements are inserted from the right, each one in front of the first
    element it does not exceed: equal elements keep their input order. *)
Definition sorted (l : list A) : list A := fold_right insert_by [] l.
End Sorted.

(** ** Numbers and their formatting *)

Definition f64mul : spec_float -> spec_float -> spec_float := SFmul 53 1024.
Definition f64div : spec_float -> spec_float -> spec_float := SFdiv 53 1024.

(** [float(z)]: the nearest binary64, overflowing past the largest one. *)
Definition float_of_int (z : Z) : result spec_float :=
  match binary_normalize 53 1024 z 0 false with
  | S754_infinity _ => Raise OverflowError
  | f => Ok f
  end.

(** [a / b] on two [int]s: the correctly rounded quotient. The integers enter
    the division with exponent 0, so the quotient is rounded once. *)
Definition truediv (a b : Z) : result spec_float :=
  let neg := xorb (a <? 0) (b <? 0) in
  match a, b with
  | _, Z0 => Raise ZeroDivisionError
  | Z0, _ => Ok (S754_zero neg)
  | _, _ =>
      match f64div (S754_finite (a <? 0) (Z.to_pos (Z.abs a)) 0)
                   (S754_finite (b <? 0) (Z.to_pos (Z.abs b)) 0) with
      | S754_infinity _ => Raise OverflowError
      | f => Ok f
      end
  end.

(** A value that is an [int] on one branch and a [float] on the other. *)
Inductive num : Type :=
| NInt (z : Z)
| NFloat (f : spec_float).

(** [x * 100] for a float [x]. *)
Definition times100 (x : spec_float) : spec_float :=
  f64mul x (binary_normalize 53 1024 100 0 false).

Definition dec (z : Z) : string := NilZero.string_of_int (Z.to_int z).

(** Round-half-even of [n / d] for [d > 0]. *)
Definition div_half_even (n d : Z) : Z :=
  let q := n / d in
  let r := n mod d in
  match 2 * r ?= d with
  | Lt => q
  | Gt => q + 1
  | Eq => if Z.even q then q else q + 1
  end.

(** The integer closest to [m * 2^e * 10^digits], ties to even. *)
Definition scaled (digits : Z) (m : positive) (e : Z) : Z :=
  if 0 <=? e then Z.pos m * 10 ^ digits * 2 ^ e
  else div_half_even (Z.pos m * 10 ^ digits) (2 ^ (- e)).

Definition sign_str (s : bool) : string := if s then "-" else "".

(** [f"{x:.1f}"] on a float: the exact binary value, rounded half-even to one
    decimal. *)
Definition fmt1_float (x : spec_float) : string :=
  match x with
  | S754_zero s => sign_str s +:+ "0.0"
  | S754_infinity s => sign_str s +:+ "inf"
  | S754_nan => "nan"
  | S754_finite s m e =>
      let n := scaled 1 m e in
      sign_str s +:+ dec (n / 10) +:+ "." +:+ dec (n mod 10)
  end.

(** [f"{x:.0f}"] on a float. *)
Definition fmt0_float (x : spec_float) : string :=
  match x with
  | S754_zero s => sign_str s +:+ "0"
  | S754_infinity s => sign_str s +:+ "inf"
  | S754_nan => "nan"
  | S754_finite s m e => sign_str s +:+ dec (scaled 0 m e)
  end.

(** The float presentation types convert an [int] to [float] first. *)
Definition fmt1 (x : num) : result string :=
  match x with
  | NInt z => bind (float_of_int z) (fun f => Ok (fmt1_float f))
  | NFloat f => Ok (fmt1_float f)
  end.

Definition fmt0 (x : num) : result string :=
  match x with
  | NInt z => bind (float_of_int z) (fun f => Ok (fmt0_float f))
  | NFloat f => Ok (fmt0_float f)
  end.

(** [round(x, 1)]: the decimal with one digit nearest to [x] (ties to even on
    the exact value), read back as the nearest float. *)
Definition round1 (x : spec_float) : spec_float :=
  match x with
  | S754_finite s m e =>
      match scaled 1 m e with
      | Zpos n => f64div (S754_finite s n 0) (S754_finite false 10 0)
      | _ => S754_zero s
      end
  | _ => x
  end.

(** Digits in groups of three, from the right. *)
Fixpoint group3 (k : nat) (rev_digits : list ascii) : list ascii :=
  match rev_digits with
  | [] => []
  | c :: l =>
      match k with
      | O => ","%char :: c :: group3 2 l
      | S k' => c :: group3 k' l
      end
  end.

(** [f"{z:,}"] *)
Definition fmt_commas (z : Z) : string :=
  let digits := list_ascii_of_string (dec (Z.abs z)) in
  sign_str (z <? 0) +:+ string_of_list_ascii (rev (group3 3 (rev digits))).

End Py.

(** ** Calendar: the parts of [datetime.date] the report uses *)

Module Cal.
Import Py.

Record date : Type := mkdate { year : Z; month : Z; day : Z }.

#[global] Instance date_eq_dec : EqDecision date.
Proof. solve_decision. Defined.

Definition is_leap (y : Z) : bool :=
  (y mod 4 =? 0) && (negb (y mod 100 =? 0) || (y mod 400 =? 0)).

Definition days_in_month (y m : Z) : Z :=
  if m =? 2 then (if is_leap y then 29 else 28)
  else if (m =? 4) || (m =? 6) || (m =? 9) || (m =? 11) then 30
  else 31.

(** [_DAYS_BEFORE_MONTH[m]] for a common year. *)
Definition days_before_month_common (m : Z) : Z :=
  match m with
  | 1 => 0 | 2 => 31 | 3 => 59 | 4 => 90 | 5 => 120 | 6 => 151
  | 7 => 181 | 8 => 212 | 9 => 243 | 10 => 273 | 11 => 304 | _ => 334
  end.

Definition days_before_month (y m : Z) : Z :=
  days_before_month_common m + (if (2 <? m) && is_leap y then 1 else 0).

Definition days_before_year (y : Z) : Z :=
  let p := y - 1 in
  p * 365 + p / 4 - p / 100 + p / 400.

(** [date.toordinal()]: 1 is January 1st of year 1. *)
Definition toordinal (d : date) : Z :=
  days_before_year (year d) + days_before_month (year d) (month d) + day d.

Definition valid (d : date) : bool :=
  (1 <=? year d) && (year d <=? 9999) &&
  (1 <=? month d) && (month d <=? 12) &&
  (1 <=? day d) && (day d <=? days_in_month (year d) (month d)).

Definition MAXORDINAL : Z := 3652059.

(** [date.fromordinal(n)], following [_ord2ymd]. *)
Definition fromordinal (n : Z) : date :=
  let n := n - 1 in
  let n400 := n / 146097 in
  let n := n mod 146097 in
  let y := n400 * 400 + 1 in
  let n100 := n / 36524 in
  let n := n mod 36524 in
  let n4 := n / 1461 in
  let n := n mod 1461 in
  let n1 := n / 365 in
  let n := n mod 365 in
  let y := y + n100 * 100 + n4 * 4 + n1 in
  if (n1 =? 4) || (n100 =? 4) then mkdate (y - 1) 12 31
  else
    let leapyear := (n1 =? 3) && (negb (n4 =? 24) || (n100 =? 3)) in
    let m := Z.shiftr (n + 50) 5 in
    let preceding :=
      days_before_month_common m + (if (2 <? m) && leapyear then 1 else 0) in
    if n <? preceding then
      let m' := m - 1 in
      let dim :=
        if m' =? 2 then (if leapyear then 29 else 28)
        else if (m' =? 4) || (m' =? 6) || (m' =? 9) || (m' =? 11) then 30
        else 31 in
      mkdate y m' (n - (preceding - dim) + 1)
    else mkdate y m (n - preceding + 1).

(** [d + timedelta(days=k)] *)
Definition add_days (d : date) (k : Z) : result date :=
  let o := toordinal d + k in
  if (0 <? o) && (o <=? MAXORDINAL) then Ok (fromordinal o)
  else Raise OverflowError.

(** [d.weekday()]: Monday is 0. *)
Definition weekday (d : date) : Z := (toordinal d + 6) mod 7.

Definition isoweek1monday (y : Z) : Z :=
  let firstday := toordinal (mkdate y 1 1) in
  let firstweekday := (firstday + 6) mod 7 in
  let week1monday := firstday - firstweekday in
  if 3 <? firstweekday then week1monday + 7 else week1monday.

(** [d.isocalendar()] as (ISO year, ISO week, ISO weekday). *)
Definition isocalendar (d : date) : Z * Z * Z :=
  let y := year d in
  let week1monday := isoweek1monday y in
  let today := toordinal d in
  let week := (today - week1monday) / 7 in
  let wd := (today - week1monday) mod 7 in
  if week <? 0 then
    let y' := y - 1 in
    let w1 := isoweek1monday y' in
    (y', (today - w1) / 7 + 1, (today - w1) mod 7 + 1)
  else if (52 <=? week) && (isoweek1monday (y + 1) <=? today) then
    (y + 1, 1, wd + 1)
  else (y, week + 1, wd + 1).

(** [d1 <= d2] *)
Definition date_leb (a b : date) : bool :=
  (year a <? year b) ||
  ((year a =? year b) &&
   ((month a <? month b) || ((month a =? month b) && (day a <=? day b)))).

(** *** Parsing and printing *)

Definition digit (a : ascii) : option Z :=
  let n := N_of_ascii a in
  if ((48 <=? n) && (n <=? 57))%N then Some (Z.of_N n - 48) else None.

(** The directive [%m] or [%d] of [strptime] on a whole token: one digit
    other than 0, or two digits that do not read as 0; [blank] tells whether
    a space may stand for the leading digit, as [%d] allows. The range of
    the value is left to the caller. *)
Definition two_digit_token (blank : bool) (tok : string) : option Z :=
  match tok with
  | String a EmptyString =>
      match digit a with
      | Some v => if 1 <=? v then Some v else None
      | None => None
      end
  | String a (String b EmptyString) =>
      match digit a, digit b with
      | Some u, Some v => if 1 <=? 10 * u + v then Some (10 * u + v) else None
      | None, Some v =>
          if blank && Ascii.eqb a " "%char && (1 <=? v) then Some v else None
      | _, _ => None
      end
  | _ => None
  end.

Definition four_digits (a b c d : ascii) : option Z :=
  match digit a, digit b, digit c, digit d with
  | Some p, Some q, Some r, Some s => Some (1000 * p + 100 * q + 10 * r + s)
  | _, _, _, _ => None
  end.

(** [datetime.strptime(s, '%Y-%m-%d').date()] on ASCII digits. *)
Definition strptime_ymd (s : string) : result date :=
  match s with
  | String a (String b (String c (String d (String "-" rest)))) =>
      match four_digits a b c d, split "-" rest with
      | Some y, [mtok; dtok] =>
          match two_digit_token false mtok, two_digit_token true dtok with
          | Some m, Some dd =>
              if (m <=? 12) && (dd <=? 31) && valid (mkdate y m dd)
              then Ok (mkdate y m dd) else Raise ValueError
          | _, _ => Raise ValueError
          end
      | _, _ => Raise ValueError
      end
  | _ => Raise ValueError
  end.

(** [datetime.strptime(s, '%Y-%m')]; the day defaults to 1. *)
Definition strptime_ym (s : string) : result date :=
  match s with
  | String a (String b (String c (String d (String "-" mtok)))) =>
      match four_digits a b c d, two_digit_token false mtok with
      | Some y, Some m =>
          if (m <=? 12) && valid (mkdate y m 1)
          then Ok (mkdate y m 1) else Raise ValueError
      | _, _ => Raise ValueError
      end
  | _ => Raise ValueError
  end.

Definition pad2 (z : Z) : string :=
  if z <? 10 then "0" +:+ dec z else dec z.

Definition pad4 (z : Z) : string :=
  if z <? 10 then "000" +:+ dec z
  else if z <? 100 then "00" +:+ dec z
  else if z <? 1000 then "0" +:+ dec z
  else dec z.

(** [d.strftime('%Y-%m')], the year on four digits. *)
Definition strftime_ym (d : date) : string :=
  pad4 (year d) +:+ "-" +:+ pad2 (month d).

(** [%B] *)
Definition month_name (m : Z) : string :=
  match m with
  | 1 => "January" | 2 => "February" | 3 => "March" | 4 => "April"
  | 5 => "May" | 6 => "June" | 7 => "July" | 8 => "August"
  | 9 => "September" | 10 => "October" | 11 => "November" | _ => "December"
  end.

(** [%b] *)
Definition month_abbr (m : Z) : string :=
  match m with
  | 1 => "Jan" | 2 => "Feb" | 3 => "Mar" | 4 => "Apr"
  | 5 => "May" | 6 => "Jun" | 7 => "Jul" | 8 => "Aug"
  | 9 => "Sep" | 10 => "Oct" | 11 => "Nov" | _ => "Dec"
  end.

(** [d.strftime('%b %d')] *)
Definition strftime_bd (d : date) : string :=
  month_abbr (month d) +:+ " " +:+ pad2 (day d).

(** [d.strftime('%b %d, %Y')] *)
Definition strftime_bdY (d : date) : string :=
  strftime_bd d +:+ ", " +:+ pad4 (year d).

End Cal.

(** ** [app/pagination_helper.py] *)

Module Pagination.
Import Py.

(** A response of the list endpoints: [response.get('items', [])] and
    [response.get('next_starting_after')]. *)
Record response (Item : Type) : Type := mkresponse {
  items : list Item;
  next_starting_after : option string
}.
Arguments mkresponse {Item} _ _.
Arguments items {Item} _.
Arguments next_starting_after {Item} _.

(** The object store: each dictionary of query parameters lives at a
    location; the caller's [initial_params] is a location or [None]. *)
Definition loc := positive.

(** [client.request("GET", endpoint, params=params)]: the client reads the
    parameters, answers or raises, and moves to its next state. *)
Record client (Item St : Type) : Type := mkclient {
  request : St -> string -> gmap string string ->
            result (response Item) * St
}.
Arguments mkclient {Item St} _.
Arguments request {Item St} _ _ _ _.

(** One request as seen from outside: the location and content of the
    dictionary that was sent, and what came back. *)
Record call (Item : Type) : Type := mkcall {
  call_loc : loc;
  call_params : gmap string string;
  call_result : result (response Item)
}.
Arguments mkcall {Item} _ _ _.
Arguments call_loc {Item} _.
Arguments call_params {Item} _.
Arguments call_result {Item} _.

(** The state after a run: the store, the client, and the requests made so
    far, oldest first. *)
Record world (Item St : Type) : Type := mkworld {
  heap : gmap loc (gmap string string);
  cstate : St;
  trace : list (call Item)
}.
Arguments mkworld {Item St} _ _ _.
Arguments heap {Item St} _.
Arguments cstate {Item St} _.
Arguments trace {Item St} _.

Section Fetch.
Context {Item St : Type} (c : client Item St).

(** [initial_params.copy() if initial_params else {}]: the content of the
    new dictionary. A location that holds nothing reads as empty. *)
Definition copy_or_empty (h : gmap loc (gmap string string))
    (initial_params : option loc) : gmap string string :=
  match initial_params with
  | Some l =>
      match h !! l with
      | Some d => if decide (d = ∅) then ∅ else d
      | None => ∅
      end
  | None => ∅
  end.

(** [if cursor: params['starting_after'] = cursor] *)
Definition with_cursor (cursor : option string) (p : gmap string string)
  : gmap string string :=
  match cursor with
  | Some s => if truthy_str cursor then <["starting_after" := s]> p else p
  | None => p
  end.

(** The [while page <= max_pages] loop. [fuel] bounds the unfolding of the
    loop; [None] means that it ran out before the loop ended. *)
Fixpoint fetch_loop (fuel : nat) (endpoint : string)
    (initial_params : option loc) (max_pages : Z)
    (all_items : list Item) (cursor : option string) (page : Z)
    (w : world Item St) : option (result (list Item) * world Item St) :=
  if page <=? max_pages then
    match fuel with
    | O => None
    | S fuel' =>
        let l := fresh (dom (heap w)) in
        let h1 := <[l := copy_or_empty (heap w) initial_params]> (heap w) in
        let p := with_cursor cursor (copy_or_empty (heap w) initial_params) in
        let h2 := <[l := p]> h1 in
        let '(r, st') := request c (cstate w) endpoint p in
        let w' := mkworld h2 st' (trace w ++ [mkcall l p r])%list in
        match r with
        | Raise e => Some (Raise e, w')
        | Ok resp =>
            match items resp with
            | [] => Some (Ok all_items, w')
            | _ :: _ =>
                let all_items' := (all_items ++ items resp)%list in
                let cursor' := next_starting_after resp in
                if truthy_str cursor' then
                  fetch_loop fuel' endpoint initial_params max_pages
                             all_items' cursor' (page + 1) w'
                else Some (Ok all_items', w')
            end
        end
    end
  else Some (Ok all_items, w).

Definition fetch_all_paginated_fuel (fuel : nat) (endpoint : string)
    (initial_params : option loc) (max_pages : Z) (w : world Item St)
  : option (result (list Item) * world Item St) :=
  fetch_loop fuel endpoint initial_params max_pages [] None 1 w.

(** [fetch_all_paginated(client, endpoint, initial_params, max_pages)]:
    the loop never needs more than [max_pages] unfoldings. *)
Definition fetch_all_paginated (endpoint : string)
    (initial_params : option loc) (max_pages : Z) (w : world Item St)
  : option (result (list Item) * world Item St) :=
  fetch_all_paginated_fuel (Z.to_nat max_pages) endpoint initial_params
                           max_pages w.
End Fetch.

(** What a page of the trace tells the loop. *)
Definition page_items {Item : Type} (k : call Item) : list Item :=
  match call_result k with
  | Ok resp => items resp
  | Raise _ => []
  end.

Definition page_cursor {Item : Type} (k : call Item) : option string :=
  match call_result k with
  | Ok resp => next_starting_after resp
  | Raise _ => None
  end.

(** The loop goes on after a page exactly when the page answered with at
    least one item and a cursor. *)
Definition continues {Item : Type} (k : call Item) : bool :=
  match call_result k with
  | Ok resp =>
      match items resp with
      | [] => false
      | _ :: _ => truthy_str (next_starting_after resp)
      end
  | Raise _ => false
  end.

(** The pages left when the loop is about to test [page <= max_pages]. *)
Definition remaining (max_pages page : Z) : nat :=
  Z.to_nat (max_pages - page + 1).

(** What [fetch_all_paginated] returns after the requests [calls], starting
    from the accumulated items [acc]: the error of the last request if it
    raised, else every page appended in order. *)
Definition outcome {Item : Type} (acc : list Item) (calls : list (call Item))
  : result (list Item) :=
  match last calls with
  | None => Ok acc
  | Some k =>
      match call_result k with
      | Raise e => Raise e
      | Ok _ => Ok (acc ++ concat (map page_items calls))%list
      end
  end.

(** Each request carries the copied parameters, with ['starting_after'] set
    to the cursor of the response before it. *)
Fixpoint cursor_chain {Item : Type} (copy : gmap string string)
    (cursor : option string) (calls : list (call Item)) : Prop :=
  match calls with
  | [] => True
  | k :: rest =>
      call_params k = with_cursor cursor copy /\
      cursor_chain copy (page_cursor k) rest
  end.

End Pagination.

(** ** [app/provider_analyzer.py] *)

Module Provider.
Import Py.

(** The four bucket names ['Google'], ['Microsoft'], ['Yahoo'], ['Others']. *)
Inductive provider : Type := Google | Microsoft | Yahoo | Others.

#[global] Instance provider_eq_dec : EqDecision provider.
Proof. solve_decision. Defined.

Definition categorize_email_provider (email : string) : provider :=
  let domain := lower (List.last (split "@" email) "") in
  if contains "gmail.com" domain || contains "googlemail.com" domain
  then Google
  else if existsb (fun x => contains x domain)
                  ["outlook."; "hotmail."; "live."; "msn."; "office365."]
  then Microsoft
  else if contains "yahoo." domain || contains "ymail." domain
  then Yahoo
  else Others.

(** A recipient is a bare address, a record whose ['email'] and
    ['placement'] may be absent, or a value of another type. *)
Inductive recipient : Type :=
| RStr (address : string)
| RDict (email placement : option string)
| ROther.

(** The test result: ['recipients'] is absent or holds a list. *)
Record test_results : Type := mktest { recipients : option (list recipient) }.

Record counts : Type := mkcounts {
  total : Z; inbox : Z; spam : Z; other : Z
}.

Definition counts0 : counts := mkcounts 0 0 0 0.

Definition provider_stats0 : list (provider * counts) :=
  [(Google, counts0); (Microsoft, counts0); (Yahoo, counts0); (Others, counts0)].

Definition bump_total (c : counts) : counts :=
  mkcounts (total c + 1) (inbox c) (spam c) (other c).

(** The scored branch: the total, then one of the three placements. *)
Definition bump_placement (placement : string) (c : counts) : counts :=
  if contains "inbox" placement
  then mkcounts (total c + 1) (inbox c + 1) (spam c) (other c)
  else if contains "spam" placement
  then mkcounts (total c + 1) (inbox c) (spam c + 1) (other c)
  else mkcounts (total c + 1) (inbox c) (spam c) (other c + 1).

(** The body of [for recipient in recipients]. *)
Definition count_recipient (stats : list (provider * counts)) (r : recipient)
  : list (provider * counts) :=
  match r with
  | RStr address =>
      od_upd (categorize_email_provider address) bump_total counts0 stats
  | RDict email placement =>
      let email := default "" email in
      let placement := lower (default "other" placement) in
      od_upd (categorize_email_provider email) (bump_placement placement)
             counts0 stats
  | ROther => stats
  end.

Record rates : Type := mkrates {
  r_total : Z;
  inbox_rate : spec_float;
  spam_rate : spec_float;
  other_rate : spec_float;
  inbox_count : Z;
  spam_count : Z;
  other_count : Z
}.

(** [round((n / total) * 100, 1)] *)
Definition rate (n tot : Z) : result spec_float :=
  bind (truediv n tot) (fun q => Ok (round1 (times100 q))).

(** The body of [for provider, stats in provider_stats.items()]. *)
Definition add_breakdown (breakdown : list (provider * rates))
    (entry : provider * counts) : result (list (provider * rates)) :=
  let '(p, stats) := entry in
  if 0 <? total stats then
    bind (rate (inbox stats) (total stats)) (fun ir =>
    bind (rate (spam stats) (total stats)) (fun sr =>
    bind (rate (other stats) (total stats)) (fun or =>
    Ok (od_set p (mkrates (total stats) ir sr or
                          (inbox stats) (spam stats) (other stats))
               breakdown))))
  else Ok breakdown.

Definition provider_stats_of (rs : list recipient) : list (provider * counts) :=
  fold_left count_recipient rs provider_stats0.

(** [None] inside [Ok] is Python's [None]. *)
Definition analyze_provider_breakdown (t : test_results)
  : result (option (list (provider * rates))) :=
  match recipients t with
  | None => Ok None
  | Some rs =>
      bind (foldM add_breakdown (provider_stats_of rs) [])
           (fun b => Ok (Some b))
  end.

(** [if not breakdown] in the two formatting helpers. *)
Definition not_available (b : option (list (provider * rates))) : bool :=
  match b with
  | None => true
  | Some [] => true
  | Some (_ :: _) => false
  end.

End Provider.

(** ** [connect_resources_report.py] *)

Module Report.
Import Py Cal.

(** *** Input data *)

(** One daily record of the campaign analytics; a field is absent or holds
    a value of its type. *)
Record day_record : Type := mkday {
  d_date : option string;
  d_sent : option Z;
  d_new_leads_contacted : option Z;
  d_unique_replies : option Z;
  d_opportunities : option Z
}.

Record campaign : Type := mkcampaign {
  c_id : option string;
  c_name : option string
}.

Record account : Type := mkaccount { a_email : option string }.

Record day_stat : Type := mkday_stat {
  s_email_account : option string;
  s_sent : option Z
}.

(** The dictionary returned by [fetch_all_data]; [account_analytics] is
    [None] when the endpoint did not answer with a list. *)
Record data : Type := mkdata {
  campaigns : list campaign;
  campaign_analytics : list (option string * list day_record);
  accounts : list account;
  account_analytics : option (list day_stat)
}.

(** [data['campaign_analytics'].get(c_id, [])] *)
Definition daily_stats (dt : data) (c : campaign) : list day_record :=
  default [] (od_get (c_id c) (campaign_analytics dt)).

(** *** Aggregates *)

Record agg : Type := mkagg {
  sent : Z; new_leads : Z; replies : Z; opportunities : Z
}.

Definition agg0 : agg := mkagg 0 0 0 0.

Definition agg_add (a b : agg) : agg :=
  mkagg (sent a + sent b) (new_leads a + new_leads b)
        (replies a + replies b) (opportunities a + opportunities b).

(** The counters of one record, with [day.get(field, 0)]. *)
Definition day_agg (d : day_record) : agg :=
  mkagg (default 0 (d_sent d)) (default 0 (d_new_leads_contacted d))
        (default 0 (d_unique_replies d)) (default 0 (d_opportunities d)).

(** The four [+=] on a bucket. *)
Definition add_day (d : day_record) (a : agg) : agg := agg_add a (day_agg d).

Definition agg_sum (l : list agg) : agg := fold_right agg_add agg0 l.

(** *** [get_week_info] *)

Record week_info : Type := mkweek_info {
  wi_year : Z;
  wi_week_num : Z;
  wi_start : date;
  wi_end : date;
  wi_label : string
}.

Definition get_week_info (date_obj : date) : result week_info :=
  let '(iso_year, iso_week, _) := isocalendar date_obj in
  bind (add_days date_obj (- weekday date_obj)) (fun monday =>
  bind (add_days monday 6) (fun sunday =>
  Ok (mkweek_info iso_year iso_week monday sunday
        ("Week " +:+ dec iso_week +:+ " (Monday, " +:+ strftime_bd monday
         +:+ " - Sunday, " +:+ strftime_bdY sunday +:+ ")")))).

(** *** [create_master_dashboard]: aggregation *)

(** The body of [for day in daily_stats]. *)
Definition master_step
    (st : list (Z * list (string * agg)) * agg) (d : day_record)
  : result (list (Z * list (string * agg)) * agg) :=
  let '(year_data, all_time_totals) := st in
  if truthy_str (d_date d) then
    bind (strptime_ymd (default "" (d_date d))) (fun date_obj =>
    let month_key := strftime_ym date_obj in
    Ok (od_upd (year date_obj) (od_upd month_key (add_day d) agg0) [] year_data,
        add_day d all_time_totals))
  else Ok st.

(** [year_data] and [all_time_totals] after the loop over the campaigns. *)
Definition master_aggregate (dt : data)
  : result (list (Z * list (string * agg)) * agg) :=
  foldM (fun st camp => foldM master_step (daily_stats dt camp) st)
        (campaigns dt) ([], agg0).

(** *** [create_master_dashboard]: rows *)

(** [sent / opportunities if opportunities > 0 else 0] *)
Definition emails_per_opp (stats : agg) : result num :=
  if 0 <? opportunities stats
  then bind (truediv (sent stats) (opportunities stats)) (fun q => Ok (NFloat q))
  else Ok (NInt 0).

Definition spacer6 : list string := [""; ""; ""; ""; ""; ""].

(** The row of one month key. *)
Definition month_row (stats_y : list (string * agg)) (m : string)
  : result (list string) :=
  match od_get m stats_y with
  | None => Raise KeyError
  | Some stats =>
      bind (strptime_ym m) (fun d =>
      bind (emails_per_opp stats) (fun epo =>
      bind (fmt1 epo) (fun epo_s =>
      Ok [month_name (month d); fmt_commas (sent stats);
          fmt_commas (new_leads stats); fmt_commas (replies stats);
          fmt_commas (opportunities stats); epo_s])))
  end.

(** [sorted(stats.keys())] *)
Definition sorted_months (stats_y : list (string * agg)) : list string :=
  sorted String.leb (od_keys stats_y).

Fixpoint mapM {A B : Type} (f : A -> result B) (l : list A) : result (list B) :=
  match l with
  | [] => Ok []
  | x :: l' => bind (f x) (fun y => bind (mapM f l') (fun ys => Ok (y :: ys)))
  end.

(** The section of one year; only the section of 2026 ends with a spacer. *)
Definition year_section (y : Z) (title : string) (with_spacer : bool)
    (year_data : list (Z * list (string * agg))) : result (list (list string)) :=
  let stats_y := default [] (od_get y year_data) in
  match stats_y with
  | [] => Ok []
  | _ :: _ =>
      bind (mapM (month_row stats_y) (sorted_months stats_y)) (fun rows =>
      Ok ([[title; ""; ""; ""; ""; ""];
           ["Month"; "Emails Sent"; "New Leads"; "Replies"; "Opportunities";
            "Emails/Opp"]]
          ++ rows ++ (if with_spacer then [spacer6] else []))%list)
  end.

Definition create_master_dashboard_rows (dt : data)
  : result (list (list string)) :=
  bind (master_aggregate dt) (fun '(year_data, all_time_totals) =>
  bind (year_section 2026 "PERFORMANCE BY MONTH 2026" true year_data) (fun s26 =>
  bind (year_section 2025 "PERFORMANCE BY MONTH 2025" false year_data) (fun s25 =>
  Ok ([["MASTER DASHBOARD"; ""; ""; ""; ""; ""];
       ["ALL TIME PERFORMANCE"; ""; ""; ""; ""; ""];
       ["Emails Sent"; "New Leads"; "Replies"; "Opportunities"; ""; ""];
       [fmt_commas (sent all_time_totals); fmt_commas (new_leads all_time_totals);
        fmt_commas (replies all_time_totals);
        fmt_commas (opportunities all_time_totals); ""; ""];
       spacer6] ++ s26 ++ s25)%list))).

(** *** [create_campaigns_tab]: aggregation *)

Definition target_year : Z := 2026.

(** The body of [for day in daily_stats] for the campaign named [name]. *)
Definition weekly_step (name : string)
    (week_camp_data : list (Z * string * string * agg)) (d : day_record)
  : result (list (Z * string * string * agg)) :=
  if truthy_str (d_date d) then
    bind (strptime_ymd (default "" (d_date d))) (fun date_obj =>
    if negb (year date_obj =? target_year) then Ok week_camp_data
    else
      bind (get_week_info date_obj) (fun week_info =>
      Ok (od_upd (wi_week_num week_info, wi_label week_info, name)
                 (add_day d) agg0 week_camp_data)))
  else Ok week_camp_data.

(** [camp.get('name', 'Unnamed')] *)
Definition campaign_name (c : campaign) : string := default "Unnamed" (c_name c).

Definition weekly_aggregate (dt : data)
  : result (list (Z * string * string * agg)) :=
  foldM (fun wk camp => foldM (weekly_step (campaign_name camp))
                              (daily_stats dt camp) wk)
        (campaigns dt) [].

(** *** [create_campaigns_tab]: rows *)

(** The body of [for (week_num, week_label, c_name), stats in ...items()]. *)
Definition group_step (weeks : list (Z * (string * list (string * agg))))
    (entry : Z * string * string * agg)
  : list (Z * (string * list (string * agg))) :=
  let '(week_num, week_label, name, stats) := entry in
  od_upd week_num (fun w => (fst w, od_set name stats (snd w)))
         (week_label, []) weeks.

Definition group_weeks (week_camp_data : list (Z * string * string * agg))
  : list (Z * (string * list (string * agg))) :=
  fold_left group_step week_camp_data [].

(** [(num / den * 100) if den > 0 else 0] *)
Definition pct (numer den : Z) : result num :=
  if 0 <? den
  then bind (truediv numer den) (fun q => Ok (NFloat (times100 q)))
  else Ok (NInt 0).

(** The cells of a row that carries counters and the two percentages. *)
Definition stat_row (col_a col_b : string) (stats : agg)
  : result (list string) :=
  bind (pct (replies stats) (sent stats)) (fun reply_pct =>
  bind (pct (opportunities stats) (sent stats)) (fun opp_pct =>
  bind (fmt1 reply_pct) (fun rs =>
  bind (fmt1 opp_pct) (fun os =>
  Ok [col_a; col_b; fmt_commas (sent stats); fmt_commas (new_leads stats);
      fmt_commas (replies stats); fmt_commas (opportunities stats);
      rs +:+ "%"; os +:+ "%"])))).

(** [stats['sent'] == 0 and stats['replies'] == 0 and
     stats['opportunities'] == 0] *)
Definition suppressed (stats : agg) : bool :=
  (sent stats =? 0) && (replies stats =? 0) && (opportunities stats =? 0).

(** The body of [for c_name in sorted(week['campaigns'].keys())]. *)
Definition campaign_row_step (camps : list (string * agg))
    (st : list (list string) * agg) (name : string)
  : result (list (list string) * agg) :=
  let '(rows, week_totals) := st in
  match od_get name camps with
  | None => Raise KeyError
  | Some stats =>
      if suppressed stats then Ok st
      else
        bind (stat_row "" name stats) (fun row =>
        Ok ((rows ++ [row])%list, agg_add week_totals stats))
  end.

Definition spacer8 : list string := [""; ""; ""; ""; ""; ""; ""; ""].

(** The rows and the totals of one week block, before the subtotal row. *)
Definition week_campaign_rows (camps : list (string * agg))
    (rows : list (list string)) : result (list (list string) * agg) :=
  foldM (campaign_row_step camps) (sorted String.leb (od_keys camps))
        (rows, agg0).

(** The body of [for week_num in sorted(weeks.keys())]. *)
Definition week_step (weeks : list (Z * (string * list (string * agg))))
    (st : list (list string) * agg) (week_num : Z)
  : result (list (list string) * agg) :=
  let '(rows, grand_totals) := st in
  match od_get week_num weeks with
  | None => Raise KeyError
  | Some week =>
      let rows := (rows ++ [[fst week; ""; ""; ""; ""; ""; ""; ""]])%list in
      bind (week_campaign_rows (snd week) rows) (fun '(rows, week_totals) =>
      bind (stat_row "WEEKLY TOTAL" "" week_totals) (fun total_row =>
      Ok ((rows ++ [total_row; spacer8])%list,
          agg_add grand_totals week_totals)))
  end.

Definition header8 : list string :=
  ["Week"; "Campaign Name"; "Emails Sent"; "New Leads"; "Replies";
   "Opportunities"; "Reply %"; "Opp %"].

(** The rows written to the tab, and [grand_totals]. *)
Definition campaigns_rows_of
    (week_camp_data : list (Z * string * string * agg))
  : result (list (list string) * agg) :=
  let weeks := group_weeks week_camp_data in
  bind (foldM (week_step weeks) (sorted Z.leb (od_keys weeks)) ([header8], agg0))
       (fun '(rows, grand_totals) =>
  bind (stat_row "GRAND TOTAL (YTD)" "" grand_totals) (fun grand_row =>
  Ok ((rows ++ [grand_row])%list, grand_totals))).

Definition create_campaigns_tab_rows (dt : data)
  : result (list (list string)) :=
  bind (weekly_aggregate dt) (fun wk =>
  bind (campaigns_rows_of wk) (fun '(rows, _) => Ok rows)).

(** *** [create_agents_tab] *)

Record agent : Type := mkagent { total_sent : Z; active_days : Z }.

Definition agent0 : agent := mkagent 0 0.

(** The body of [for day_stat in data['account_analytics']]. *)
Definition agent_step (agent_data : list (string * agent)) (s : day_stat)
  : list (string * agent) :=
  let sent := default 0 (s_sent s) in
  if truthy_str (s_email_account s) then
    od_upd (default "" (s_email_account s))
           (fun a => mkagent (total_sent a + sent)
                             (if 0 <? sent then active_days a + 1
                              else active_days a))
           agent0 agent_data
  else agent_data.

(** The body of [for account in data['accounts']]. *)
Definition roster_step (agent_data : list (string * agent)) (a : account)
  : list (string * agent) :=
  if truthy_str (a_email a) then
    match od_get (default "" (a_email a)) agent_data with
    | Some _ => agent_data
    | None => od_set (default "" (a_email a)) agent0 agent_data
    end
  else agent_data.

Definition agent_data_of (dt : data) : list (string * agent) :=
  fold_left roster_step (accounts dt)
    (fold_left agent_step (default [] (account_analytics dt)) []).

(** The order of [sorted(..., key=total_sent, reverse=True)]. *)
Definition agent_ge (x y : string * agent) : bool :=
  total_sent (snd y) <=? total_sent (snd x).

Definition sorted_agents (dt : data) : list (string * agent) :=
  sorted agent_ge (agent_data_of dt).

(** [total_sent / active_days if active_days > 0 else 0] *)
Definition avg_per_day (a : agent) : result num :=
  if 0 <? active_days a
  then bind (truediv (total_sent a) (active_days a)) (fun q => Ok (NFloat q))
  else Ok (NInt 0).

Definition agent_status (a : agent) : string :=
  if 0 <? total_sent a then "Active" else "Inactive".

Definition agent_row (e : string * agent) : result (list string) :=
  bind (avg_per_day (snd e)) (fun avg =>
  bind (fmt0 avg) (fun avg_s =>
  Ok [fst e; fmt_commas (total_sent (snd e)); dec (active_days (snd e));
      avg_s; agent_status (snd e)])).

Definition create_agents_tab_rows (dt : data) : result (list (list string)) :=
  let agent_data := agent_data_of dt in
  let ordered := sorted agent_ge agent_data in
  bind (mapM agent_row ordered) (fun rows =>
  let total := fold_left (fun t e => t + total_sent (snd e)) ordered 0 in
  let active_count :=
    fold_left (fun n e => if 0 <? total_sent (snd e) then n + 1 else n)
              ordered 0 in
  Ok ([["Agent Email"; "Total Emails Sent"; "Active Days"; "Avg/Day"; "Status"]]
      ++ rows ++
      [["TOTAL (" +:+ dec (Z.of_nat (length agent_data)) +:+ " agents)";
        fmt_commas total; "-"; "-"; dec active_count +:+ " Active"]])%list).

(** *** [main]: the metrics of the e-mail digest *)

Record digest : Type := mkdigest {
  week_sent : Z; week_replies : Z; week_opps : Z;
  all_time_sent : Z; all_time_replies : Z; all_time_opps : Z
}.

Definition digest0 : digest := mkdigest 0 0 0 0 0 0.

(** The body of [for day in days]; the date is read with [day['date']]. *)
Definition digest_step (week_start week_end : date) (g : digest)
    (d : day_record) : result digest :=
  match d_date d with
  | None => Raise KeyError
  | Some s =>
      bind (strptime_ymd s) (fun dd =>
      let a := day_agg d in
      let g1 := mkdigest (week_sent g) (week_replies g) (week_opps g)
                         (all_time_sent g + sent a)
                         (all_time_replies g + replies a)
                         (all_time_opps g + opportunities a) in
      if date_leb week_start dd && date_leb dd week_end then
        Ok (mkdigest (week_sent g1 + sent a) (week_replies g1 + replies a)
                     (week_opps g1 + opportunities a)
                     (all_time_sent g1) (all_time_replies g1)
                     (all_time_opps g1))
      else Ok g1)
  end.

(** [for c_id, days in data['campaign_analytics'].items()] *)
Definition digest_metrics (today : date) (dt : data) : result digest :=
  bind (add_days today (- weekday today)) (fun week_start =>
  bind (add_days week_start 6) (fun week_end =>
  foldM (fun g entry => foldM (digest_step week_start week_end) (snd entry) g)
        (campaign_analytics dt) digest0)).

(** [f"{(num / den * 100):.1f}%" if den > 0 else "0.0%"] *)
Definition digest_rate (numer den : Z) : result string :=
  if 0 <? den
  then bind (truediv numer den) (fun q =>
       Ok (fmt1_float (times100 q) +:+ "%"))
  else Ok "0.0%".

Record digest_rates : Type := mkdigest_rates {
  week_reply_rate : string; week_opp_rate : string;
  all_time_reply_rate : string; all_time_opp_rate : string
}.

Definition digest_rates_of (g : digest) : result digest_rates :=
  bind (digest_rate (week_replies g) (week_sent g)) (fun a =>
  bind (digest_rate (week_opps g) (week_sent g)) (fun b =>
  bind (digest_rate (all_time_replies g) (all_time_sent g)) (fun c =>
  bind (digest_rate (all_time_opps g) (all_time_sent g)) (fun d =>
  Ok (mkdigest_rates a b c d))))).

End Report.

(** ** Vocabulary of the statements *)

Module Scenario.
Import Py Cal Report.

(** The substrings that [categorize_email_provider] looks for. *)
Definition provider_patterns : list string :=
  ["gmail.com"; "googlemail.com"; "outlook."; "hotmail."; "live."; "msn.";
   "office365."; "yahoo."; "ymail."].



(** The counters of the bucket [p] after the loop over the recipients. *)
Definition bucket (p : Provider.provider) (rs : list Provider.recipient)
  : Provider.counts :=
  default Provider.counts0 (od_get p (Provider.provider_stats_of rs)).

(** The counters of a bucket are consistent. *)
Definition counts_ok (c : Provider.counts) : Prop :=
  0 <= Provider.inbox c /\ 0 <= Provider.spam c /\ 0 <= Provider.other c /\
  Provider.inbox c + Provider.spam c + Provider.other c <= Provider.total c.

(** [provider_stats] keeps its four keys, with consistent counters. *)
Definition stats_ok (st : list (Provider.provider * Provider.counts)) : Prop :=
  od_keys st =
    [Provider.Google; Provider.Microsoft; Provider.Yahoo; Provider.Others] /\
  Forall (fun e => counts_ok (snd e)) st.

(** The stream of daily records that the aggregation loops visit: for each
    campaign in turn, the records filed under its id. *)
Definition records (dt : data) : list day_record :=
  flat_map (daily_stats dt) (campaigns dt).

(** The same stream, each record with the name of its campaign. *)
Definition named_records (dt : data) : list (string * day_record) :=
  flat_map (fun c => map (pair (campaign_name c)) (daily_stats dt c))
           (campaigns dt).

(** The sum of the month buckets of one year. *)
Definition year_total (y : Z) (year_data : list (Z * list (string * agg)))
  : agg :=
  agg_sum (od_values (default [] (od_get y year_data))).


(** A data row of the weekly-detail tab: nothing in column A, a counter in
    column C. Week labels and totals fill column A; a spacer is empty. *)
Definition is_data_row (r : list string) : bool :=
  match r with
  | a :: _ :: c :: _ => String.eqb a "" && negb (String.eqb c "")
  | _ => false
  end.

Fixpoint until_total (rows : list (list string)) : list (list string) :=
  match rows with
  | [] => []
  | r :: rest =>
      if String.eqb (hd "" r) "WEEKLY TOTAL" then [] else r :: until_total rest
  end.

(** The rows between the label row of a week and its WEEKLY TOTAL row. *)
Fixpoint week_block (label : string) (rows : list (list string))
  : list (list string) :=
  match rows with
  | [] => []
  | r :: rest =>
      if String.eqb (hd "" r) label then until_total rest
      else week_block label rest
  end.

Definition data_rows_of_week (label : string) (rows : list (list string))
  : list (list string) :=
  List.filter is_data_row (week_block label rows).

(** Column C of the GRAND TOTAL row. *)
Definition grand_total_sent (rows : list (list string)) : option string :=
  match List.filter (fun r => String.eqb (hd "" r) "GRAND TOTAL (YTD)") rows with
  | [r] => Some (nth 2 r "")
  | _ => None
  end.

(** Two records of one campaign named Acme. *)
Definition acme : data :=
  mkdata [mkcampaign (Some "acme-id") (Some "Acme")]
         [(Some "acme-id",
           [mkday (Some "2026-01-05") (Some 100) None (Some 5) (Some 1);
            mkday (Some "2026-01-12") (Some 50) None (Some 0) (Some 0)])]
         [] None.

Definition week_of_jan_5 : string :=
  "Week 2 (Monday, Jan 05 - Sunday, Jan 11, 2026)".
Definition week_of_jan_12 : string :=
  "Week 3 (Monday, Jan 12 - Sunday, Jan 18, 2026)".

Definition acme_rows : list (list string) :=
  [["Week"; "Campaign Name"; "Emails Sent"; "New Leads"; "Replies";
    "Opportunities"; "Reply %"; "Opp %"];
   [week_of_jan_5; ""; ""; ""; ""; ""; ""; ""];
   [""; "Acme"; "100"; "0"; "5"; "1"; "5.0%"; "1.0%"];
   ["WEEKLY TOTAL"; ""; "100"; "0"; "5"; "1"; "5.0%"; "1.0%"];
   [""; ""; ""; ""; ""; ""; ""; ""];
   [week_of_jan_12; ""; ""; ""; ""; ""; ""; ""];
   [""; "Acme"; "50"; "0"; "0"; "0"; "0.0%"; "0.0%"];
   ["WEEKLY TOTAL"; ""; "50"; "0"; "0"; "0"; "0.0%"; "0.0%"];
   [""; ""; ""; ""; ""; ""; ""; ""];
   ["GRAND TOTAL (YTD)"; ""; "150"; "0"; "5"; "1"; "3.3%"; "0.7%"]].

(** The scenario as the specification words it: one data row in all, in the
    week of Jan 5 with 5.0% and 1.0%; none in the week of Jan 12; 150 sent
    in the grand total. *)
Definition acme_as_specified (rows : list (list string)) : Prop :=
  (exists r, List.filter is_data_row rows = [r] /\
             data_rows_of_week week_of_jan_5 rows = [r] /\
             nth 6 r "" = "5.0%" /\ nth 7 r "" = "1.0%") /\
  data_rows_of_week week_of_jan_12 rows = [] /\
  grand_total_sent rows = Some "150".

(** One week block of the weekly-detail tab as it is laid out: the label
    row, the campaign rows, the WEEKLY TOTAL row and a spacer. *)
Record week_view : Type := mkweek_view {
  wv_num : Z;
  wv_label : string;
  wv_rows : list (list string);
  wv_total : list string
}.

Definition render_week (v : week_view) : list (list string) :=
  ([wv_label v; ""; ""; ""; ""; ""; ""; ""] :: wv_rows v
   ++ [wv_total v; spacer8])%list.

(** Column B of the campaign rows of a block. *)
Definition campaign_names (v : week_view) : list string :=
  map (fun r => nth 1 r "") (wv_rows v).

(** The campaigns of a week that get a row: those not suppressed. *)
Definition has_row (camps : list (string * agg)) (name : string) : bool :=
  match od_get name camps with
  | Some stats => negb (suppressed stats)
  | None => false
  end.

(** Every dictionary of the week grouping has distinct keys. *)
Definition weeks_ok (weeks : list (Z * (string * list (string * agg)))) : Prop :=
  NoDup (od_keys weeks) /\
  Forall (fun e => NoDup (od_keys (snd (snd e)))) weeks.

(** What a block shows of its week. *)
Definition view_of (weeks : list (Z * (string * list (string * agg))))
    (v : week_view) : Prop :=
  exists week,
    od_get (wv_num v) weeks = Some week /\
    wv_label v = fst week /\
    campaign_names v =
      List.filter (has_row (snd week)) (sorted String.leb (od_keys (snd week))) /\
    Forall (fun r => hd "" r = "") (wv_rows v) /\
    hd "" (wv_total v) = "WEEKLY TOTAL".

(** The key of month [m] of year [y] in [year_data[y]]. *)
Definition month_key (y m : Z) : string := strftime_ym (mkdate y m 1).

(** The rows of the section of one year, for the months listed. *)
Definition section_layout (title : string) (with_spacer : bool)
    (month_rows : list (list string)) : list (list string) :=
  match month_rows with
  | [] => []
  | _ :: _ =>
      ([[title; ""; ""; ""; ""; ""];
        ["Month"; "Emails Sent"; "New Leads"; "Replies"; "Opportunities";
         "Emails/Opp"]]
       ++ month_rows ++ (if with_spacer then [spacer6] else []))%list
  end.

(** The keys of every year of [year_data] are distinct month keys of that
    year. *)
Definition months_ok (year_data : list (Z * list (string * agg))) : Prop :=
  forall y stats,
    od_get y year_data = Some stats ->
    NoDup (od_keys stats) /\
    Forall (fun k => exists m, 1 <= m <= 12 /\ k = month_key y m) (od_keys stats).

(** The first five rows of the Master Dashboard. *)
Definition dashboard_head (all_time_totals : agg) : list (list string) :=
  [["MASTER DASHBOARD"; ""; ""; ""; ""; ""];
   ["ALL TIME PERFORMANCE"; ""; ""; ""; ""; ""];
   ["Emails Sent"; "New Leads"; "Replies"; "Opportunities"; ""; ""];
   [fmt_commas (sent all_time_totals); fmt_commas (new_leads all_time_totals);
    fmt_commas (replies all_time_totals);
    fmt_commas (opportunities all_time_totals); ""; ""];
   spacer6].

(** The rows of a year section show the months listed, in that order. *)
Definition shows_months (month_rows : list (list string)) (months : list Z)
  : Prop :=
  map (hd "") month_rows = map month_name months /\
  Forall (fun m => 1 <= m <= 12) months.

(** Descending order of [total_sent]. *)
Definition sent_ge (x y : string * agent) : Prop :=
  total_sent (snd y) <= total_sent (snd x).

(** The agents whose [total_sent] is [v]. *)
Definition with_total (v : Z) (x : string * agent) : bool :=
  total_sent (snd x) =? v.

(** A paginated endpoint with two pages, and a caller whose parameter
    dictionary lives at location 1. *)
Definition two_pages : Pagination.client Z nat :=
  Pagination.mkclient (fun st _ p =>
    match p !! "starting_after" with
    | None => (Ok (Pagination.mkresponse [1; 2] (Some "after-2")), S st)
    | Some _ => (Ok (Pagination.mkresponse [3] None), S st)
    end).

Definition caller_params : gmap string string := {[ "limit" := "100" ]}.

Definition caller_world : Pagination.world Z nat :=
  Pagination.mkworld {[ 1%positive := caller_params ]} 0%nat [].

(** A week in which one campaign contacted three new leads without a send,
    a reply or an opportunity, next to a campaign with activity. *)
Definition quiet_leads : data :=
  mkdata [mkcampaign (Some "a") (Some "Acme"); mkcampaign (Some "b") (Some "Beta")]
         [(Some "a", [mkday (Some "2026-01-05") (Some 0) (Some 3) (Some 0) (Some 0)]);
          (Some "b", [mkday (Some "2026-01-06") (Some 10) (Some 10) (Some 1) (Some 0)])]
         [] None.

(** One record without the ['date'] field. *)
Definition undated : data :=
  mkdata [mkcampaign (Some "a") (Some "Acme")]
         [(Some "a", [mkday None (Some 5) None None None])]
         [] None.

End Scenario.

(** ** Vocabulary of the further statements *)

Module Terms.
Import Py Cal Report Scenario.

(** What a loop over daily records does with the date of a record: skip
    ([None]), use the parsed date, or raise. *)
Definition record_date (d : day_record) : result (option date) :=
  if truthy_str (d_date d)
  then bind (strptime_ymd (default "" (d_date d))) (fun dd => Ok (Some dd))
  else Ok None.

(** The record is one that the tab aggregations can read. *)
Definition date_readable (d : day_record) : bool := is_ok (record_date d).

(** The counters of a record if its date is present and satisfies [P],
    zero otherwise. *)
Definition counted (P : date -> bool) (d : day_record) : agg :=
  match record_date d with
  | Ok (Some dd) => if P dd then day_agg d else agg0
  | _ => agg0
  end.

(** The direct sum over the records whose date is present and satisfies
    [P]. *)
Definition sum_where (P : date -> bool) (l : list day_record) : agg :=
  agg_sum (map (counted P) l).

Definition in_year (y : Z) (dd : date) : bool := year dd =? y.

(** The sum of all month buckets of all years. *)
Definition all_years_total (year_data : list (Z * list (string * agg))) : agg :=
  agg_sum (map (fun e => agg_sum (od_values (snd e))) year_data).

(** The Monday that opens ISO week 1 of 2026 is 2025-12-29. *)
Definition week1_monday_2026 : Z := 739614.

(** The Monday of ISO week [n] of 2026, as an ordinal. *)
Definition monday_of_week_2026 (n : Z) : Z := week1_monday_2026 + 7 * (n - 1).

(** The label of ISO week [n] of 2026. *)
Definition week_label_2026 (n : Z) : string :=
  "Week " +:+ dec n +:+ " (Monday, "
  +:+ strftime_bd (fromordinal (monday_of_week_2026 n))
  +:+ " - Sunday, "
  +:+ strftime_bdY (fromordinal (monday_of_week_2026 n + 6)) +:+ ")".

(** Everything [get_week_info] should say about a date, as a test. *)
Definition week_info_check (d : date) : bool :=
  match get_week_info d with
  | Raise _ => false
  | Ok w =>
      (wi_year w =? 2026) && (1 <=? wi_week_num w) && (wi_week_num w <=? 53)
      && bool_decide (wi_start w = fromordinal (monday_of_week_2026 (wi_week_num w)))
      && bool_decide (wi_end w = fromordinal (monday_of_week_2026 (wi_week_num w) + 6))
      && (toordinal (wi_start w) =? monday_of_week_2026 (wi_week_num w))
      && (toordinal (wi_end w) =? monday_of_week_2026 (wi_week_num w) + 6)
      && (weekday (wi_start w) =? 0) && (weekday (wi_end w) =? 6)
      && date_leb (wi_start w) d && date_leb d (wi_end w)
      && String.eqb (wi_label w) (week_label_2026 (wi_week_num w))
  end.

(** The test on every day of 2026. *)
Definition every_day_of_2026 (check : date -> bool) : bool :=
  forallb (fun m =>
    forallb (fun dd =>
      if valid (mkdate 2026 m dd) then check (mkdate 2026 m dd) else true)
      (seqZ 1 31))
    (seqZ 1 12).

(** Distinct weeks of 2026 have distinct labels. *)
Definition labels_distinct_2026 : bool :=
  forallb (fun a =>
    forallb (fun b =>
      (a =? b) || negb (String.eqb (week_label_2026 a) (week_label_2026 b)))
      (seqZ 1 53))
    (seqZ 1 53).

(** What a bucket adds to the totals of the weekly-detail tab: nothing
    when it is suppressed. *)
Definition unsuppressed (stats : agg) : agg :=
  if suppressed stats then agg0 else stats.

(** The sum of the buckets that are not suppressed. *)
Definition shown_total (l : list agg) : agg := agg_sum (map unsuppressed l).

(** The sum of a measure of the buckets over all weeks of the grouping. *)
Definition weeks_total (mu : agg -> agg)
    (weeks : list (Z * (string * list (string * agg)))) : agg :=
  agg_sum (map (fun e => agg_sum (map (fun c => mu (snd c)) (snd (snd e)))) weeks).

(** Every campaign filed under a week of the grouping comes from a key
    already processed. *)
Definition grouped_from (done : list (Z * string * string))
    (weeks : list (Z * (string * list (string * agg)))) : Prop :=
  forall n w c,
    od_get n weeks = Some w -> In c (od_keys (snd w)) ->
    exists l, In (n, l, c) done.

(** The label of a key is decided by its week number. *)
Definition labels_by_number (keys : list (Z * string * string)) : Prop :=
  forall n l l' c c', In (n, l, c) keys -> In (n, l', c') keys -> l = l'.

(** The keys of the weekly aggregation: distinct, each with the label of
    its week number. *)
Definition weekly_keys_ok (wk : list (Z * string * string * agg)) : Prop :=
  NoDup (od_keys wk) /\
  Forall (fun k => snd (fst k) = week_label_2026 (fst (fst k))) (od_keys wk).

End Terms.

(** ** Vocabulary of the Agents tab *)

Module Roster.
Import Py Report.

(** [data['account_analytics']] when it is a list, no record otherwise. *)
Definition analytics (dt : data) : list day_stat :=
  default [] (account_analytics dt).

(** The record is filed under the account [email]. *)
Definition stat_for (email : string) (s : day_stat) : bool :=
  bool_decide (s_email_account s = Some email).

Definition zsum (l : list Z) : Z := fold_right Z.add 0 l.

(** The e-mails sent by [email] over all its records. *)
Definition sent_of (email : string) (l : list day_stat) : Z :=
  zsum (map (fun s => default 0 (s_sent s)) (List.filter (stat_for email) l)).

(** The records of [email] with at least one e-mail sent. *)
Definition active_of (email : string) (l : list day_stat) : Z :=
  Z.of_nat (length (List.filter
    (fun s => stat_for email s && (0 <? default 0 (s_sent s))) l)).

Definition in_analytics (email : string) (l : list day_stat) : bool :=
  existsb (stat_for email) l.

Definition in_roster (email : string) (accs : list account) : bool :=
  existsb (fun a => bool_decide (a_email a = Some email)) accs.

(** The e-mails sent over all records that name an account. *)
Definition sent_by_accounts (l : list day_stat) : Z :=
  zsum (map (fun s => default 0 (s_sent s))
            (List.filter (fun s => truthy_str (s_email_account s)) l)).

(** The agents with at least one e-mail sent. *)
Definition active_agents (agent_data : list (string * agent)) : Z :=
  Z.of_nat (length (List.filter (fun e => 0 <? total_sent (snd e)) agent_data)).

(** The keys of [agent_data] are distinct and never empty. *)
Definition keys_ok (ad : list (string * agent)) : Prop :=
  NoDup (od_keys ad) /\ ~ In "" (od_keys ad).

End Roster.

(** ** Vocabulary of the e-mail digest *)

Module DigestTerms.
Import Py Cal Report.

(** Every record of [data['campaign_analytics']], in the order in which the
    digest loop meets them. *)
Definition analytics_records (dt : data) : list day_record :=
  flat_map snd (campaign_analytics dt).

(** [datetime.datetime.strptime(day['date'], '%Y-%m-%d').date()] *)
Definition digest_date (d : day_record) : result date :=
  match d_date d with
  | None => Raise KeyError
  | Some s => strptime_ymd s
  end.

(** [week_start <= d <= week_end] for the date of a record. *)
Definition in_week (week_start week_end : date) (d : day_record) : bool :=
  match digest_date d with
  | Ok dd => date_leb week_start dd && date_leb dd week_end
  | Raise _ => false
  end.


(** The direct sum of the counters of a list of records. *)
Definition total_of (l : list day_record) : agg := agg_sum (map day_agg l).

(** The ids under which [campaign_analytics] files records name each one
    campaign, as they do when each listed campaign has an id of its own. *)
Definition ids_match (dt : data) : Prop :=
  NoDup (map c_id (campaigns dt)) /\
  NoDup (od_keys (campaign_analytics dt)) /\
  forall k, In k (od_keys (campaign_analytics dt)) ->
            In k (map c_id (campaigns dt)).

End DigestTerms.

(** ** Vocabulary of the placement counters *)

Module Placement.
Import Py Provider Scenario.

(** A scored recipient of the bucket [p] whose lower-cased placement
    satisfies [f]; an absent placement reads as ['other']. *)
Definition scored (p : provider) (f : string -> bool) (r : recipient) : bool :=
  match r with
  | RDict email placement =>
      bool_decide (categorize_email_provider (default "" email) = p)
      && f (lower (default "other" placement))
  | _ => false
  end.

(** A bare address of the bucket [p]. *)
Definition pending (p : provider) (r : recipient) : bool :=
  match r with
  | RStr address => bool_decide (categorize_email_provider address = p)
  | _ => false
  end.

(** A recipient that is a string or a record. *)
Definition is_counted (r : recipient) : bool :=
  match r with
  | ROther => false
  | _ => true
  end.

Definition count_where (P : recipient -> bool) (rs : list recipient) : Z :=
  Z.of_nat (length (List.filter P rs)).

Definition says_inbox (placement : string) : bool := contains "inbox" placement.

Definition says_spam_only (placement : string) : bool :=
  negb (contains "inbox" placement) && contains "spam" placement.

Definition says_neither (placement : string) : bool :=
  negb (contains "inbox" placement) && negb (contains "spam" placement).

End Placement.

(** ** The formatting loops *)

Module Styling.
Import Py Cal Report Scenario Terms.

(** The three styles that the formatting loop of the weekly-detail tab
    gives out. *)
Inductive row_style : Type := WeekHeader | WeeklyTotal | GrandTotal.

(** The branch that the loop takes on a row, from the text of column A; the
    outer [None] is the [IndexError] of [row[0]] on an empty row. *)
Definition campaigns_row_style (row : list string)
  : option (option row_style) :=
  match row with
  | [] => None
  | a :: _ =>
      Some (if truthy_str (Some a) && negb (contains "WEEKLY TOTAL" a)
               && negb (contains "GRAND TOTAL" a)
            then Some WeekHeader
            else if contains "WEEKLY TOTAL" a then Some WeeklyTotal
            else if contains "GRAND TOTAL" a then Some GrandTotal
            else None)
  end.

(** [for i, row in enumerate(rows, start=i)]: the requests appended, each
    with the index of its row. *)
Fixpoint style_loop (i : Z) (rows : list (list string))
    (requests : list (Z * row_style)) : option (list (Z * row_style)) :=
  match rows with
  | [] => Some requests
  | row :: rest =>
      match campaigns_row_style row with
      | None => None
      | Some None => style_loop (i + 1) rest requests
      | Some (Some s) => style_loop (i + 1) rest (requests ++ [(i, s)])%list
      end
  end.

(** [enumerate(rows[1:], start=1)] *)
Definition campaigns_style_requests (rows : list (list string))
  : option (list (Z * row_style)) :=
  style_loop 1 (tl rows) [].

(** The styles that a week block calls for, row by row: the label row, the
    campaign rows, the subtotal row, the spacer. *)
Definition block_styles (v : week_view) : list (option row_style) :=
  (Some WeekHeader :: map (fun _ => None) (wv_rows v)
   ++ [Some WeeklyTotal; None])%list.

(** The styles of the rows below the header of the tab. *)
Definition tab_styles (views : list week_view) : list (option row_style) :=
  (flat_map block_styles views ++ [Some GrandTotal])%list.

(** The styled rows of a list of styles that starts at row [i]. *)
Fixpoint indexed (i : Z) (styles : list (option row_style))
  : list (Z * row_style) :=
  match styles with
  | [] => []
  | None :: rest => indexed (i + 1) rest
  | Some s :: rest => (i, s) :: indexed (i + 1) rest
  end.

(** A text of column A that the loop takes for a week label. *)
Definition label_plain (a : string) : bool :=
  truthy_str (Some a) && negb (contains "WEEKLY TOTAL" a)
  && negb (contains "GRAND TOTAL" a).

(** The labels of the weeks of 2026 are taken for week labels. *)
Definition labels_plain_2026 : bool :=
  forallb (fun n => label_plain (week_label_2026 n)) (seqZ 1 53).

(** [row[0] == 'PERFORMANCE BY MONTH 2026'], or the same test for 2025, in
    the loop that looks for the monthly tables of the Master Dashboard;
    [None] is the [IndexError] of [row[0]] on an empty row. *)
Definition is_section_title (row : list string) : option bool :=
  match row with
  | [] => None
  | a :: _ =>
      Some (String.eqb a "PERFORMANCE BY MONTH 2026"
            || String.eqb a "PERFORMANCE BY MONTH 2025")
  end.

(** [for i, row in enumerate(rows)]: the indices handed to
    [format_headers_req], which styles row [i] as a title and row [i + 1]
    as column headers. *)
Fixpoint header_loop (i : Z) (rows : list (list string)) (found : list Z)
  : option (list Z) :=
  match rows with
  | [] => Some found
  | row :: rest =>
      match is_section_title row with
      | None => None
      | Some true => header_loop (i + 1) rest (found ++ [i])%list
      | Some false => header_loop (i + 1) rest found
      end
  end.

Definition master_header_requests (rows : list (list string))
  : option (list Z) :=
  header_loop 0 rows [].

(** The index of the first row of a section, when the section is there. *)
Definition section_start (i : Z) (section : list (list string)) : list Z :=
  match section with
  | [] => []
  | _ :: _ => [i]
  end.

(** A text made of digits, commas and minus signs. *)
Definition numeric (s : string) : bool :=
  forallb (fun c => (Ascii.eqb c "," || Ascii.eqb c "-"
                     || ((48 <=? N_of_ascii c) && (N_of_ascii c <=? 57))%N))
          (list_ascii_of_string s).

End Styling.

(** ** [fetch_all_data] *)

Module Fetch.
Import Py Cal Report.

(** What an endpoint answers: a JSON object, a JSON array, or something
    else (a text, a number, null). The ['items'] of an object, when
    present and not null, is an array. *)
Inductive reply (Item : Type) : Type :=
| Object (items : option (list Item)) (next_starting_after : option string)
| Array (elements : list Item)
| Scalar.
Arguments Object {Item} _ _.
Arguments Array {Item} _.
Arguments Scalar {Item}.

(** [resp.get('items', []) if isinstance(resp, dict) else resp if
    isinstance(resp, list) else []]; a null ['items'] is as falsy as an
    empty one. *)
Definition items_of {Item : Type} (resp : reply Item) : list Item :=
  match resp with
  | Object (Some l) _ => l
  | Object None _ => []
  | Array l => l
  | Scalar => []
  end.

(** [isinstance(resp, dict) and resp.get('next_starting_after')], as the
    cursor to go on with. *)
Definition cursor_of {Item : Type} (resp : reply Item) : option string :=
  match resp with
  | Object _ (Some s) => if truthy_str (Some s) then Some s else None
  | _ => None
  end.

(** [client.request("GET", path, params=...)] on the four paths that
    [fetch_all_data] asks for, with the parameters that vary: [skip] for
    ['/campaigns'], the campaign id and the two dates for
    ['/campaigns/analytics/daily'], the cursor (absent or present) for
    ['/accounts'], the two dates for ['/accounts/analytics/daily']. The
    client answers or raises, and moves to its next state. *)
Record client (St : Type) : Type := mkclient {
  get_campaigns : St -> Z -> result (reply campaign) * St;
  get_campaign_daily :
    St -> option string -> string -> string -> result (reply day_record) * St;
  get_accounts : St -> option string -> result (reply account) * St;
  get_account_daily : St -> string -> string -> result (reply day_stat) * St
}.
Arguments mkclient {St} _ _ _ _.
Arguments get_campaigns {St} _ _ _.
Arguments get_campaign_daily {St} _ _ _ _ _.
Arguments get_accounts {St} _ _ _.
Arguments get_account_daily {St} _ _ _ _.

(** One request as seen from outside, with what came back. *)
Inductive call : Type :=
| CampaignsPage (skip : Z) (answer : result (reply campaign))
| CampaignDaily (campaign_id : option string) (start_date end_date : string)
                (answer : result (reply day_record))
| AccountsPage (starting_after : option string)
               (answer : result (reply account))
| AccountDaily (start_date end_date : string)
               (answer : result (reply day_stat)).

(** The client and the requests made so far, oldest first. *)
Record world (St : Type) : Type := mkworld {
  cstate : St;
  trace : list call
}.
Arguments mkworld {St} _ _.
Arguments cstate {St} _.
Arguments trace {St} _.

(** [d.strftime('%Y-%m-%d')] *)
Definition strftime_ymd (d : date) : string :=
  pad4 (year d) +:+ "-" +:+ pad2 (month d) +:+ "-" +:+ pad2 (day d).

Section Run.
Context {St : Type} (c : client St).

(** The first [while True]: pages of 100 campaigns by [skip]. [fuel] bounds
    the unfolding of the loop; [None] means that it ran out before the loop
    ended. *)
Fixpoint campaigns_loop (fuel : nat) (skip : Z) (campaigns : list campaign)
    (w : world St) : option (result (list campaign) * world St) :=
  match fuel with
  | O => None
  | S fuel' =>
      let '(r, st') := get_campaigns c (cstate w) skip in
      let w' := mkworld st' (trace w ++ [CampaignsPage skip r])%list in
      match r with
      | Raise e => Some (Raise e, w')
      | Ok resp =>
          match items_of resp with
          | [] => Some (Ok campaigns, w')
          | _ :: _ =>
              let campaigns' := (campaigns ++ items_of resp)%list in
              if Z.of_nat (length (items_of resp)) <? 100
              then Some (Ok campaigns', w')
              else campaigns_loop fuel' (skip + 100) campaigns' w'
          end
      end
  end.

(** [for camp in campaigns]: one request for each campaign; an answer that
    is a non-empty array is filed under the id of the campaign. *)
Fixpoint analytics_loop (start_str end_str : string) (camps : list campaign)
    (campaign_analytics : list (option string * list day_record))
    (w : world St)
  : result (list (option string * list day_record)) * world St :=
  match camps with
  | [] => (Ok campaign_analytics, w)
  | camp :: rest =>
      let '(r, st') :=
        get_campaign_daily c (cstate w) (c_id camp) start_str end_str in
      let w' := mkworld st'
        (trace w ++ [CampaignDaily (c_id camp) start_str end_str r])%list in
      match r with
      | Raise e => (Raise e, w')
      | Ok (Array (d :: l)) =>
          analytics_loop start_str end_str rest
            (od_set (c_id camp) (d :: l) campaign_analytics) w'
      | Ok _ => analytics_loop start_str end_str rest campaign_analytics w'
      end
  end.

(** The second [while True]: pages of accounts by cursor. *)
Fixpoint accounts_loop (fuel : nat) (starting_after : option string)
    (accounts : list account) (w : world St)
  : option (result (list account) * world St) :=
  match fuel with
  | O => None
  | S fuel' =>
      let cursor := if truthy_str starting_after then starting_after else None in
      let '(r, st') := get_accounts c (cstate w) cursor in
      let w' := mkworld st' (trace w ++ [AccountsPage cursor r])%list in
      match r with
      | Raise e => Some (Raise e, w')
      | Ok resp =>
          match items_of resp with
          | [] => Some (Ok accounts, w')
          | _ :: _ =>
              let accounts' := (accounts ++ items_of resp)%list in
              match cursor_of resp with
              | Some s => accounts_loop fuel' (Some s) accounts' w'
              | None => Some (Ok accounts', w')
              end
          end
      end
  end.

(** [fetch_all_data(client)] on the day [today]; [fuel] bounds each of the
    two unbounded loops. *)
Definition fetch_all_data (fuel : nat) (today : date) (w : world St)
  : option (result data * world St) :=
  let start_str := strftime_ymd (mkdate 2024 1 1) in
  let end_str := strftime_ymd today in
  match campaigns_loop fuel 0 [] w with
  | None => None
  | Some (Raise e, w1) => Some (Raise e, w1)
  | Some (Ok campaigns, w1) =>
      match analytics_loop start_str end_str campaigns [] w1 with
      | (Raise e, w2) => Some (Raise e, w2)
      | (Ok campaign_analytics, w2) =>
          match accounts_loop fuel None [] w2 with
          | None => None
          | Some (Raise e, w3) => Some (Raise e, w3)
          | Some (Ok accounts, w3) =>
              let '(r, st') :=
                get_account_daily c (cstate w3) start_str end_str in
              let w4 := mkworld st'
                (trace w3 ++ [AccountDaily start_str end_str r])%list in
              match r with
              | Raise e => Some (Raise e, w4)
              | Ok resp =>
                  Some (Ok (mkdata campaigns campaign_analytics accounts
                              (match resp with
                               | Array l => Some l
                               | _ => None
                               end)), w4)
              end
          end
      end
  end.
End Run.

(** The page that a server holding the campaigns [all] answers to
    [limit=100] and [skip]. *)
Definition slice (all : list campaign) (skip : Z) : reply campaign :=
  Object (Some (firstn 100 (skipn (Z.to_nat skip) all))) None.

(** A client that serves the campaigns [all] by [skip]. *)
Definition serves {St : Type} (c : client St) (all : list campaign) : Prop :=
  forall st skip, get_campaigns c st skip = (Ok (slice all skip), st).

(** A client whose every page of campaigns is full. *)
Definition always_full {St : Type} (c : client St) : Prop :=
  forall st skip, exists resp st',
    get_campaigns c st skip = (Ok resp, st') /\
    (100 <= length (items_of resp))%nat.

(** A client whose every page of accounts holds items and a cursor. *)
Definition always_more {St : Type} (c : client St) : Prop :=
  forall st cursor, exists resp st' s,
    get_accounts c st cursor = (Ok resp, st') /\
    items_of resp <> [] /\ cursor_of resp = Some s.

(** The requests for the pages at [skip], [skip + 100], ... *)
Fixpoint slice_calls (all : list campaign) (skip : Z) (n : nat) : list call :=
  match n with
  | O => []
  | S n' => CampaignsPage skip (Ok (slice all skip))
            :: slice_calls all (skip + 100) n'
  end.

(** A client with 250 campaigns, and one that repeats a full page. *)
Definition numbered (i : nat) : campaign :=
  mkcampaign (Some (dec (Z.of_nat i))) None.

Definition stock : list campaign := map numbered (seq 0 250).

Definition quiet {Item : Type} : result (reply Item) := Ok Scalar.

Definition shop : client unit :=
  mkclient (fun st skip => (Ok (slice stock skip), st))
           (fun st _ _ _ => (quiet, st))
           (fun st _ => (quiet, st))
           (fun st _ _ => (quiet, st)).

Definition echo : client unit :=
  mkclient (fun st _ => (Ok (Array (firstn 100 stock)), st))
           (fun st _ _ _ => (quiet, st))
           (fun st _ =>
              (Ok (Object (Some [mkaccount (Some "a@x.com")]) (Some "again")),
               st))
           (fun st _ _ => (quiet, st)).

(** The campaign id of a request for daily campaign analytics. *)
Definition daily_id (k : call) : option (option string) :=
  match k with
  | CampaignDaily campaign_id _ _ _ => Some campaign_id
  | _ => None
  end.

(** What the second loop does after a page: stop with an error, stop with
    the items gathered, or go on with a cursor. *)
Definition page_end (answer : result (reply account)) : option string :=
  match answer with
  | Raise _ => None
  | Ok resp =>
      match items_of resp with
      | [] => None
      | _ :: _ => cursor_of resp
      end
  end.

(** The requests of the second loop from the cursor [cursor] on: each
    carries the cursor of the page before, and only the last page ends the
    loop. *)
Fixpoint cursor_run (cursor : option string) (calls : list call) : Prop :=
  match calls with
  | [] => False
  | k :: rest =>
      exists answer,
        k = AccountsPage cursor answer /\
        match rest with
        | [] => page_end answer = None
        | _ :: _ =>
            exists s, page_end answer = Some s /\ cursor_run (Some s) rest
        end
  end.

(** The items of a page of accounts. *)
Definition account_items (k : call) : list account :=
  match k with
  | AccountsPage _ (Ok resp) => items_of resp
  | _ => []
  end.

(** What the second loop returns after the requests [calls]. *)
Definition accounts_outcome (accounts : list account) (calls : list call)
  : result (list account) :=
  match last calls with
  | Some (AccountsPage _ (Raise e)) => Raise e
  | _ => Ok (accounts ++ concat (map account_items calls))%list
  end.

(** A client whose two campaigns share an id. *)
Definition depot : client unit :=
  mkclient
    (fun st skip =>
       (Ok (Array (if skip =? 0
                   then [mkcampaign (Some "a") (Some "Acme");
                         mkcampaign (Some "a") (Some "Acme again")]
                   else [])), st))
    (fun st _ _ _ =>
       (Ok (Array [mkday (Some "2026-01-05") (Some 100) None (Some 5) (Some 1)]),
        st))
    (fun st cursor =>
       (Ok (match cursor with
            | None => Object (Some [mkaccount (Some "a@x.com")]) (Some "a@x.com")
            | Some _ => Array [mkaccount (Some "b@x.com")]
            end), st))
    (fun st _ _ => (Ok (Array []), st)).

End Fetch.

(** ** Vocabulary of the size of the counters *)

Module Bounds.
Import Py Cal Report Scenario Roster.

(** Below this bound an integer is a binary64 float. *)
Definition limit : Z := 2 ^ 53.

(** The three counters that enter a division. *)
Definition nonneg (a : agg) : Prop :=
  0 <= sent a /\ 0 <= replies a /\ 0 <= opportunities a.

Definition le3 (a b : agg) : Prop :=
  sent a <= sent b /\ replies a <= replies b /\
  opportunities a <= opportunities b.

Definition below (a : agg) : Prop :=
  sent a < limit /\ replies a < limit /\ opportunities a < limit.

(** The sum of the counters of all visited records. *)
Definition visited_total (dt : data) : agg := agg_sum (map day_agg (records dt)).

(** The sum of the sent counts of all account records. *)
Definition accounts_total (dt : data) : Z :=
  zsum (map (fun s => default 0 (s_sent s)) (analytics dt)).

(** No counter is negative, and the totals stay below the bound. *)
Definition modest (dt : data) : Prop :=
  Forall (fun d => nonneg (day_agg d)) (records dt) /\
  below (visited_total dt) /\
  Forall (fun s => 0 <= default 0 (s_sent s)) (analytics dt) /\
  accounts_total dt < limit.

(** Every bucket of [year_data] holds counters between zero and those of
    [T]. *)
Definition buckets_within (T : agg)
    (year_data : list (Z * list (string * agg))) : Prop :=
  Forall (fun e => Forall (fun b => nonneg (snd b) /\ le3 (snd b) T) (snd e))
         year_data.

(** The same for the records that the digest reads. *)
Definition digest_modest (dt : data) : Prop :=
  Forall (fun d => nonneg (day_agg d)) (DigestTerms.analytics_records dt) /\
  below (DigestTerms.total_of (DigestTerms.analytics_records dt)).

End Bounds.

(** * Properties *)

(** ** The model on small inputs *)

Example fmt_commas_millions : Py.fmt_commas 1234567 = "1,234,567". Proof. reflexivity. Qed.
Example fmt_commas_negative : Py.fmt_commas (-1000) = "-1,000". Proof. reflexivity. Qed.
Example fmt_commas_small : Py.fmt_commas 150 = "150". Proof. reflexivity. Qed.
Example five_percent : Py.bind (Py.truediv 5 100) (fun f => Py.fmt1 (Py.NFloat (Py.times100 f))) = Py.Ok "5.0".
Proof. vm_compute. reflexivity. Qed.
Example zero_as_float : Py.fmt1 (Py.NInt 0) = Py.Ok "0.0". Proof. vm_compute. reflexivity. Qed.
Example quarter_percent_half_even : Py.bind (Py.truediv 1 400) (fun f => Py.fmt1 (Py.NFloat (Py.times100 f))) = Py.Ok "0.2".
Proof. vm_compute. reflexivity. Qed.
Example split_at : Py.split "@" "a@b@c" = ["a"; "b"; "c"]. Proof. reflexivity. Qed.
Example lower_mixed : Py.lower "GMAIL.Com" = "gmail.com". Proof. reflexivity. Qed.
Example sorted_small : Py.sorted Z.leb [3; 1; 2] = [1; 2; 3]. Proof. reflexivity. Qed.
Example ordinal_jan_5 : Cal.toordinal (Cal.mkdate 2026 1 5) = 739621. Proof. reflexivity. Qed.
Example fromordinal_jan_5 : Cal.fromordinal 739621 = Cal.mkdate 2026 1 5. Proof. reflexivity. Qed.
Example iso_jan_5 : Cal.isocalendar (Cal.mkdate 2026 1 5) = (2026, 2, 1). Proof. reflexivity. Qed.
Example iso_jan_1 : Cal.isocalendar (Cal.mkdate 2026 1 1) = (2026, 1, 4). Proof. reflexivity. Qed.
Example iso_dec_31 : Cal.isocalendar (Cal.mkdate 2026 12 31) = (2026, 53, 4). Proof. reflexivity. Qed.
Example iso_dec_29_2025 : Cal.isocalendar (Cal.mkdate 2025 12 29) = (2026, 1, 1). Proof. reflexivity. Qed.
Example iso_jan_1_2027 : Cal.isocalendar (Cal.mkdate 2027 1 1) = (2026, 53, 5). Proof. reflexivity. Qed.
Example strptime_padded : Cal.strptime_ymd "2026-01-05" = Py.Ok (Cal.mkdate 2026 1 5). Proof. reflexivity. Qed.
Example strptime_unpadded : Cal.strptime_ymd "2026-1-5" = Py.Ok (Cal.mkdate 2026 1 5). Proof. reflexivity. Qed.
Example strptime_feb_30 : Cal.strptime_ymd "2026-02-30" = Py.Raise Py.ValueError. Proof. reflexivity. Qed.
Example strptime_trailing : Cal.strptime_ymd "2026-01-05T00" = Py.Raise Py.ValueError. Proof. reflexivity. Qed.
Example roundtrip_leap_day : Cal.fromordinal (Cal.toordinal (Cal.mkdate 2024 2 29)) = Cal.mkdate 2024 2 29. Proof. reflexivity. Qed.
Example roundtrip_year_end : Cal.fromordinal (Cal.toordinal (Cal.mkdate 2024 12 31)) = Cal.mkdate 2024 12 31. Proof. reflexivity. Qed.
Example roundtrip_march : Cal.fromordinal (Cal.toordinal (Cal.mkdate 2026 3 1)) = Cal.mkdate 2026 3 1. Proof. reflexivity. Qed.
Example strftime_march : Cal.strftime_ym (Cal.mkdate 2026 3 1) = "2026-03". Proof. reflexivity. Qed.

Example half_rounds_to_even :
  Py.bind (Py.truediv 15 2) (fun f => Py.fmt0 (Py.NFloat f)) = Py.Ok "8" /\
  Py.bind (Py.truediv 5 2) (fun f => Py.fmt0 (Py.NFloat f)) = Py.Ok "2".
Proof. split; vm_compute; reflexivity. Qed.

Example seven_percent_is_inexact :
  Py.bind (Py.truediv 7 100) (fun f => Py.Ok (Py.times100 f))
  = Py.Ok (S754_finite false 7881299347898369 (-50)).
Proof. vm_compute. reflexivity. Qed.

Example round1_two_thirds :
  Py.bind (Py.truediv 2 3) (fun f => Py.Ok (Py.fmt1_float (Py.round1 (Py.times100 f))))
  = Py.Ok "66.7".
Proof. vm_compute. reflexivity. Qed.

Example truediv_by_zero : Py.truediv 5 0 = Py.Raise Py.ZeroDivisionError.
Proof. reflexivity. Qed.

Example week_label_jan_5 :
  Py.bind (Report.get_week_info (Cal.mkdate 2026 1 5))
          (fun w => Py.Ok (Report.wi_week_num w, Report.wi_label w))
  = Py.Ok (2, "Week 2 (Monday, Jan 05 - Sunday, Jan 11, 2026)").
Proof. vm_compute. reflexivity. Qed.

Example week_label_new_year :
  Py.bind (Report.get_week_info (Cal.mkdate 2026 1 1))
          (fun w => Py.Ok (Report.wi_week_num w, Report.wi_label w))
  = Py.Ok (1, "Week 1 (Monday, Dec 29 - Sunday, Jan 04, 2026)").
Proof. vm_compute. reflexivity. Qed.

Example agents_roster_only :
  Report.create_agents_tab_rows
    (Report.mkdata [] [] [Report.mkaccount (Some "a@x.com")] (Some []))
  = Py.Ok [["Agent Email"; "Total Emails Sent"; "Active Days"; "Avg/Day"; "Status"];
           ["a@x.com"; "0"; "0"; "0"; "Inactive"];
           ["TOTAL (1 agents)"; "0"; "-"; "-"; "0 Active"]].
Proof. vm_compute. reflexivity. Qed.

Example agents_ties_keep_order :
  Py.bind
    (Report.create_agents_tab_rows
       (Report.mkdata [] [] [Report.mkaccount (Some "a@x.com")]
          (Some [Report.mkday_stat (Some "c@x.com") (Some 7);
                 Report.mkday_stat (Some "b@x.com") (Some 7);
                 Report.mkday_stat (Some "d@x.com") (Some 20)])))
    (fun rows => Py.Ok (map (hd "") rows))
  = Py.Ok ["Agent Email"; "d@x.com"; "c@x.com"; "b@x.com"; "a@x.com";
           "TOTAL (4 agents)"].
Proof. vm_compute. reflexivity. Qed.

(** ** Runtime lemmas *)

Lemma bind_ok_inv {A B : Type} (r : Py.result A) (k : A -> Py.result B) (b : B) :
  Py.bind r k = Py.Ok b -> exists a, r = Py.Ok a /\ k a = Py.Ok b.
Proof. destruct r as [a|e]; simpl; intros H; [eauto | discriminate]. Qed.

Section ResultFacts.
Import Py.
Context {A S : Type}.

Lemma foldM_app (body : S -> A -> result S) (l1 l2 : list A) (s : S) :
  foldM body (l1 ++ l2) s = bind (foldM body l1 s) (foldM body l2).
Proof.
  revert s. induction l1 as [|x l1 IH]; intros s; simpl; [reflexivity|].
  destruct (body s x) as [s'|e]; simpl; [apply IH | reflexivity].
Qed.

(** A nested loop is one loop over the flattened stream. *)
Lemma foldM_flat_map {C : Type} (body : S -> A -> result S)
    (f : C -> list A) (l : list C) (s : S) :
  foldM (fun st c => foldM body (f c) st) l s = foldM body (flat_map f l) s.
Proof.
  revert s. induction l as [|c l IH]; intros s; simpl; [reflexivity|].
  rewrite foldM_app. destruct (foldM body (f c) s); simpl; [apply IH | reflexivity].
Qed.

(** An invariant kept by every step that succeeds holds at the end. *)
Lemma foldM_invariant (P : S -> Prop) (body : S -> A -> result S)
    (l : list A) (s s' : S) :
  (forall st x st', In x l -> P st -> body st x = Ok st' -> P st') ->
  P s -> foldM body l s = Ok s' -> P s'.
Proof.
  revert s. induction l as [|x l IH]; intros s Hstep Hs H; simpl in H.
  - congruence.
  - apply bind_ok_inv in H as (s1 & H1 & H2).
    apply (IH s1); [| |exact H2].
    + intros st y st' Hy. apply Hstep. now right.
    + apply (Hstep s x s1); [now left | exact Hs | exact H1].
Qed.
End ResultFacts.

Section ODictFacts.
Import Py.
Context {K V : Type} `{EqDecision K}.

Lemma od_get_upd_eq (k : K) (f : V -> V) (dflt : V) (d : list (K * V)) :
  od_get k (od_upd k f dflt d) = Some (f (default dflt (od_get k d))).
Proof.
  induction d as [|[k' v] d IH]; simpl.
  - destruct (decide (k = k)); [reflexivity | congruence].
  - destruct (decide (k = k')) as [->|Hne]; simpl.
    + destruct (decide (k' = k')); [reflexivity | congruence].
    + destruct (decide (k = k')); [congruence | exact IH].
Qed.

Lemma od_get_upd_ne (k j : K) (f : V -> V) (dflt : V) (d : list (K * V)) :
  j <> k -> od_get j (od_upd k f dflt d) = od_get j d.
Proof.
  intros Hne. induction d as [|[k' v] d IH]; simpl.
  - destruct (decide (j = k)); [congruence | reflexivity].
  - destruct (decide (k = k')) as [->|Hkk']; simpl.
    + destruct (decide (j = k')); [congruence | reflexivity].
    + destruct (decide (j = k')); [reflexivity | exact IH].
Qed.

(** The keys after an update: unchanged for a known key, one more at the
    end for a new one. *)
Lemma od_keys_upd (k : K) (f : V -> V) (dflt : V) (d : list (K * V)) :
  od_keys (od_upd k f dflt d) =
  match od_get k d with
  | Some _ => od_keys d
  | None => (od_keys d ++ [k])%list
  end.
Proof.
  induction d as [|[k' v] d IH]; simpl; [reflexivity|].
  destruct (decide (k = k')) as [->|Hne]; simpl; [reflexivity|].
  unfold od_keys in *. rewrite IH. destruct (od_get k d); reflexivity.
Qed.

Lemma od_get_None_keys (k : K) (d : list (K * V)) :
  od_get k d = None <-> ~ In k (od_keys d).
Proof.
  induction d as [|[k' v] d IH]; simpl; [tauto|].
  destruct (decide (k = k')) as [->|Hne].
  - split; [discriminate | intros Hn; exfalso; apply Hn; now left].
  - rewrite IH. split; intros Hn; [intros [Heq|Hin]; [congruence | tauto] | tauto].
Qed.

Lemma od_get_Some_In (k : K) (v : V) (d : list (K * V)) :
  od_get k d = Some v -> In (k, v) d.
Proof.
  induction d as [|[k' v'] d IH]; simpl; [discriminate|].
  destruct (decide (k = k')) as [->|Hne]; intros Hg.
  - left. congruence.
  - right. auto.
Qed.

Lemma od_keys_upd_NoDup (k : K) (f : V -> V) (dflt : V) (d : list (K * V)) :
  NoDup (od_keys d) -> NoDup (od_keys (od_upd k f dflt d)).
Proof.
  intros Hnd. rewrite od_keys_upd. destruct (od_get k d) eqn:Hg; [exact Hnd|].
  apply od_get_None_keys in Hg.
  apply NoDup_app; repeat split; auto.
  - intros x Hx Hk. rewrite list_elem_of_In in Hx, Hk.
    destruct Hk as [<-|[]]. tauto.
  - constructor; [intros Hin; inversion Hin | constructor].
Qed.
End ODictFacts.

(** ** [sorted] is a stable sort *)

Section SortedFacts.
Import Py.
Context {A : Type} (le : A -> A -> bool).

Lemma insert_by_perm (x : A) (l : list A) :
  Permutation (insert_by le x l) (x :: l).
Proof.
  induction l as [|y l IH]; simpl; [reflexivity|].
  destruct (le x y); [reflexivity|].
  rewrite IH. apply perm_swap.
Qed.

Lemma sorted_perm (l : list A) : Permutation (sorted le l) l.
Proof.
  induction l as [|x l IH]; simpl; [reflexivity|].
  rewrite insert_by_perm. now constructor.
Qed.

Lemma sorted_In (x : A) (l : list A) : In x (sorted le l) <-> In x l.
Proof.
  split; apply Permutation_in; [|symmetry]; apply sorted_perm.
Qed.

Lemma sorted_NoDup (l : list A) : NoDup l -> NoDup (sorted le l).
Proof.
  intros Hnd. now rewrite sorted_perm.
Qed.

Lemma sorted_length (l : list A) : length (sorted le l) = length l.
Proof. apply Permutation_length, sorted_perm. Qed.

(** Stability: a class of elements that the order does not separate keeps
    its input order. *)
Lemma insert_by_filter (P : A -> bool) (x : A) (l : list A) :
  (forall y, In y l -> P x = true -> P y = true -> le x y = true) ->
  List.filter P (insert_by le x l) = List.filter P (x :: l).
Proof.
  induction l as [|y l IH]; intros Hcls; simpl; [reflexivity|].
  destruct (le x y) eqn:Hle; simpl; [reflexivity|].
  rewrite IH by (intros z Hz; apply Hcls; now right).
  simpl. destruct (P x) eqn:Hx, (P y) eqn:Hy; try reflexivity.
  rewrite (Hcls y) in Hle; [discriminate | now left | reflexivity | exact Hy].
Qed.

Lemma sorted_stable (P : A -> bool) (l : list A) :
  (forall x y, P x = true -> P y = true -> le x y = true) ->
  List.filter P (sorted le l) = List.filter P l.
Proof.
  intros Hcls. induction l as [|x l IH]; simpl; [reflexivity|].
  rewrite insert_by_filter by (intros; now apply Hcls).
  simpl. now rewrite IH.
Qed.

Hypothesis le_total : forall x y, le x y = false -> le y x = true.
Hypothesis le_trans : forall x y z, le x y = true -> le y z = true -> le x z = true.

Lemma insert_by_sorted (x : A) (l : list A) :
  StronglySorted (fun a b => le a b = true) l ->
  StronglySorted (fun a b => le a b = true) (insert_by le x l).
Proof.
  induction 1 as [|y l Hl IH Hy]; simpl.
  - repeat constructor.
  - destruct (le x y) eqn:Hle.
    + constructor; [now constructor|].
      constructor; [exact Hle|].
      apply List.Forall_forall. intros z Hz. rewrite List.Forall_forall in Hy.
      apply (le_trans x y z); [exact Hle | now apply Hy].
    + constructor; [exact IH|].
      apply List.Forall_forall. intros z Hz.
      apply (Permutation_in _ (insert_by_perm x l)) in Hz.
      destruct Hz as [<-|Hz]; [now apply le_total|].
      rewrite List.Forall_forall in Hy. now apply Hy.
Qed.

Lemma sorted_sorted (l : list A) :
  StronglySorted (fun a b => le a b = true) (sorted le l).
Proof.
  induction l as [|x l IH]; simpl; [constructor | now apply insert_by_sorted].
Qed.
End SortedFacts.

Lemma StronglySorted_strict {A : Type} (R S : A -> A -> Prop) (l : list A) :
  (forall x y, R x y -> x <> y -> S x y) ->
  NoDup l -> StronglySorted R l -> StronglySorted S l.
Proof.
  intros HRS Hnd Hs. induction Hs as [|x l Hl IH Hx]; [constructor|].
  inversion Hnd as [|? ? Hnin Hnd']; subst.
  constructor; [now apply IH|].
  apply List.Forall_forall. intros y Hy. rewrite List.Forall_forall in Hx.
  apply HRS; [now apply Hx|]. intros ->. apply Hnin, list_elem_of_In, Hy.
Qed.

Lemma StronglySorted_impl {A : Type} (R S : A -> A -> Prop) (l : list A) :
  (forall x y, R x y -> S x y) -> StronglySorted R l -> StronglySorted S l.
Proof.
  intros HRS Hs. induction Hs as [|x l Hl IH Hx]; constructor; [exact IH|].
  apply List.Forall_forall. intros y Hy. rewrite List.Forall_forall in Hx.
  apply HRS. now apply Hx.
Qed.

Lemma StronglySorted_map_inv {A B : Type} (f : A -> B) (R : B -> B -> Prop)
    (l : list A) :
  StronglySorted R (map f l) -> StronglySorted (fun a b => R (f a) (f b)) l.
Proof.
  induction l as [|x l IH]; simpl; intros Hs; [constructor|].
  inversion Hs as [|? ? Hl Hx]; subst. constructor; [now apply IH|].
  apply List.Forall_forall. intros y Hy. rewrite List.Forall_forall in Hx.
  apply Hx. now apply in_map.
Qed.

Lemma string_leb_total (x y : string) :
  String.leb x y = false -> String.leb y x = true.
Proof.
  intros H. destruct (String.leb_total x y) as [H'|H']; congruence.
Qed.

Lemma string_leb_trans (x y z : string) :
  String.leb x y = true -> String.leb y z = true -> String.leb x z = true.
Proof.
  unfold String.leb. intros Hxy Hyz.
  destruct (String.compare x y) eqn:Exy; try discriminate;
    destruct (String.compare y z) eqn:Eyz; try discriminate.
  - pose proof (String.compare_eq_iff _ _ Exy). subst. now rewrite Eyz.
  - pose proof (String.compare_eq_iff _ _ Exy). subst. now rewrite Eyz.
  - pose proof (String.compare_eq_iff _ _ Eyz). subst. now rewrite Exy.
  - apply String_as_OT.cmp_lt in Exy, Eyz.
    assert (Hlt : String_as_OT.lt x z) by (eapply String_as_OT.lt_trans; eauto).
    apply String_as_OT.cmp_lt in Hlt. unfold String_as_OT.cmp in Hlt.
    now rewrite Hlt.
Qed.

Lemma string_leb_ne_ltb (x y : string) :
  String.leb x y = true -> x <> y -> String.ltb x y = true.
Proof.
  unfold String.leb, String.ltb. intros Hle Hne.
  destruct (String.compare x y) eqn:E; try discriminate; [|reflexivity].
  apply String.compare_eq_iff in E. contradiction.
Qed.

Lemma Z_leb_total (x y : Z) : (x <=? y) = false -> (y <=? x) = true.
Proof. lia. Qed.

Lemma Z_leb_trans (x y z : Z) :
  (x <=? y) = true -> (y <=? z) = true -> (x <=? z) = true.
Proof. lia. Qed.

(** ** The provider categorizer *)

Section CategorizerFacts.
Import Py Provider Scenario.

Lemma split_without_sep (c : ascii) (s : string) :
  contains (String c EmptyString) s = false -> split c s = [s].
Proof.
  induction s as [|a s IH]; simpl; [reflexivity|].
  destruct (ascii_dec c a) as [->|Hne].
  - destruct s; simpl; discriminate.
  - simpl. intros Hc. rewrite IH by exact Hc.
    destruct (Ascii.eqb a c) eqn:E; [|reflexivity].
    apply Ascii.eqb_eq in E. congruence.
Qed.

(** C8, as stated, fails: an address without ['@'] is classified on its
    whole text, and ["gmail.com"] is a Google address. *)
Lemma categorize_without_at_counterexample :
  ~ (forall email : string,
       contains "@" email = false -> categorize_email_provider email = Others).
Proof.
  intros H. specialize (H "gmail.com" eq_refl). discriminate H.
Qed.

(** C8, amended: an input string without ['@'] whose lower-cased text
    contains none of the Google, Microsoft or Yahoo substrings falls into
    [Others]. *)
Theorem categorize_without_at (email : string) :
  contains "@" email = false ->
  (forall p, In p provider_patterns -> contains p (lower email) = false) ->
  categorize_email_provider email = Others.
Proof.
  intros Hat Hpat. unfold categorize_email_provider.
  rewrite (split_without_sep "@" email Hat). simpl List.last.
  unfold existsb.
  rewrite !Hpat by (unfold provider_patterns; simpl; tauto).
  reflexivity.
Qed.

Lemma categorize_without_at_witness :
  categorize_email_provider "Sales.Example.ORG" = Others.
Proof.
  apply categorize_without_at.
  - reflexivity.
  - intros p Hp. unfold provider_patterns in Hp. simpl in Hp.
    repeat (destruct Hp as [<-|Hp]; [reflexivity|]). destruct Hp.
Defined.
End CategorizerFacts.

(** ** Derived rates *)

Section RateFacts.
Import Py Report.

Lemma truediv_nonzero (a b : Z) :
  b <> 0 -> truediv a b <> Raise ZeroDivisionError.
Proof.
  intros Hb. unfold truediv.
  destruct a, b; try congruence;
    match goal with
    | |- context [f64div ?x ?y] => destruct (f64div x y); congruence
    end.
Qed.

Lemma pct_no_zero_division (n d : Z) : pct n d <> Raise ZeroDivisionError.
Proof.
  unfold pct. destruct (0 <? d) eqn:Hd; [|congruence].
  assert (Hnz : d <> 0) by lia.
  pose proof (truediv_nonzero n d Hnz).
  destruct (truediv n d); simpl; congruence.
Qed.

(** C4: with a zero denominator every derived rate is the integer 0,
    rendered [0.0%] (or [0.0], or [0]), and no rate ever raises
    [ZeroDivisionError]: the reply and opportunity rates of a row, the
    e-mails per opportunity, the average per day, and the digest rates. *)
Theorem zero_denominator_yields_zero :
  (forall n, pct n 0 = Ok (NInt 0)) /\
  (forall a b nl r o,
      stat_row a b (mkagg 0 nl r o) =
      Ok [a; b; "0"; fmt_commas nl; fmt_commas r; fmt_commas o; "0.0%"; "0.0%"]) /\
  (forall s nl r, emails_per_opp (mkagg s nl r 0) = Ok (NInt 0)) /\
  (forall t, avg_per_day (mkagent t 0) = Ok (NInt 0)) /\
  fmt1 (NInt 0) = Ok "0.0" /\ fmt0 (NInt 0) = Ok "0" /\
  (forall n, digest_rate n 0 = Ok "0.0%") /\
  (forall wr wo ar ao,
      digest_rates_of (mkdigest 0 wr wo 0 ar ao) =
      Ok (mkdigest_rates "0.0%" "0.0%" "0.0%" "0.0%")) /\
  (forall n d, pct n d <> Raise ZeroDivisionError) /\
  (forall st, emails_per_opp st <> Raise ZeroDivisionError) /\
  (forall a, avg_per_day a <> Raise ZeroDivisionError) /\
  (forall n d, digest_rate n d <> Raise ZeroDivisionError).
Proof.
  repeat split; try reflexivity.
  - apply pct_no_zero_division.
  - intros st. unfold emails_per_opp.
    destruct (0 <? opportunities st) eqn:Hd; [|congruence].
    assert (Hnz : opportunities st <> 0) by lia.
    pose proof (truediv_nonzero (sent st) _ Hnz).
    destruct (truediv (sent st) (opportunities st)); simpl; congruence.
  - intros a. unfold avg_per_day.
    destruct (0 <? active_days a) eqn:Hd; [|congruence].
    assert (Hnz : active_days a <> 0) by lia.
    pose proof (truediv_nonzero (total_sent a) _ Hnz).
    destruct (truediv (total_sent a) (active_days a)); simpl; congruence.
  - intros n d. unfold digest_rate.
    destruct (0 <? d) eqn:Hd; [|congruence].
    assert (Hnz : d <> 0) by lia.
    pose proof (truediv_nonzero n d Hnz).
    destruct (truediv n d); simpl; congruence.
Qed.
End RateFacts.

(** ** Scenarios of the weekly-detail tab and of the digest *)

Section ScenarioFacts.
Import Py Cal Report Scenario.

(** C3, as stated, fails: the record of Jan 12 has 50 e-mails sent, so its
    bucket is not suppressed and the week of Jan 12 has a data row. *)
Lemma acme_scenario_counterexample :
  create_campaigns_tab_rows acme = Ok acme_rows /\
  ~ acme_as_specified acme_rows.
Proof.
  split; [vm_compute; reflexivity|].
  intros (_ & Hweek & _). vm_compute in Hweek. discriminate Hweek.
Qed.

(** C3, amended: on the two records of Acme the weekly-detail report has
    two data rows, one in the week of Jan 5 with 5.0% and 1.0%, and one in
    the week of Jan 12 with 50 sent and 0.0% twice; the GRAND TOTAL row
    reports 150 sent. *)
Theorem acme_scenario :
  create_campaigns_tab_rows acme = Ok acme_rows /\
  List.filter is_data_row acme_rows =
    [[""; "Acme"; "100"; "0"; "5"; "1"; "5.0%"; "1.0%"];
     [""; "Acme"; "50"; "0"; "0"; "0"; "0.0%"; "0.0%"]] /\
  data_rows_of_week week_of_jan_5 acme_rows =
    [[""; "Acme"; "100"; "0"; "5"; "1"; "5.0%"; "1.0%"]] /\
  data_rows_of_week week_of_jan_12 acme_rows =
    [[""; "Acme"; "50"; "0"; "0"; "0"; "0.0%"; "0.0%"]] /\
  grand_total_sent acme_rows = Some "150".
Proof. repeat split; vm_compute; reflexivity. Qed.

(** C2 at its failing input: the suppressed bucket of Acme holds three new
    leads; the weekly aggregates and the all-time totals count 13 new
    leads, the WEEKLY TOTAL and GRAND TOTAL rows show 10. *)
Theorem suppressed_bucket_drops_new_leads :
  (exists wk, weekly_aggregate quiet_leads = Ok wk /\
              agg_sum (od_values wk) = mkagg 10 13 1 0 /\
              campaigns_rows_of wk =
              Ok ([header8;
                   [week_of_jan_5; ""; ""; ""; ""; ""; ""; ""];
                   [""; "Beta"; "10"; "10"; "1"; "0"; "10.0%"; "0.0%"];
                   ["WEEKLY TOTAL"; ""; "10"; "10"; "1"; "0"; "10.0%"; "0.0%"];
                   spacer8;
                   ["GRAND TOTAL (YTD)"; ""; "10"; "10"; "1"; "0"; "10.0%"; "0.0%"]],
                  mkagg 10 10 1 0)) /\
  (exists yd, master_aggregate quiet_leads = Ok (yd, mkagg 10 13 1 0)).
Proof.
  split.
  - eexists. split; [vm_compute; reflexivity|].
    split; vm_compute; reflexivity.
  - eexists. vm_compute. reflexivity.
Qed.

(** C7 at its failing input: a record without a date is skipped by the
    monthly and the weekly aggregation, and makes the digest loop raise
    [KeyError], whatever the day of the run. *)
Theorem undated_record_breaks_digest :
  master_aggregate undated = Ok ([], agg0) /\
  weekly_aggregate undated = Ok [] /\
  digest_metrics (mkdate 2026 1 7) undated = Raise KeyError.
Proof. repeat split; vm_compute; reflexivity. Qed.

(** A suppressed bucket leaves the rows and the running totals as they are,
    whatever its [new_leads]. *)
Lemma suppressed_bucket_is_skipped (camps : list (string * agg))
    (rows : list (list string)) (totals : agg) (name : string) (stats : agg) :
  od_get name camps = Some stats -> suppressed stats = true ->
  campaign_row_step camps (rows, totals) name = Ok (rows, totals).
Proof. intros Hget Hs. unfold campaign_row_step. now rewrite Hget, Hs. Qed.

(** A record without a date: skipped by the two tab aggregations, fatal in
    the digest loop. *)
Lemma undated_record_steps (s n r o : option Z) :
  (forall st, master_step st (mkday None s n r o) = Ok st) /\
  (forall name wk, weekly_step name wk (mkday None s n r o) = Ok wk) /\
  (forall ws we g, digest_step ws we g (mkday None s n r o) = Raise KeyError).
Proof.
  repeat split; try reflexivity. intros [yd tot]. reflexivity.
Qed.
End ScenarioFacts.

(** ** Calendar facts for the target year *)

Section CalendarFacts.
Import Py Cal.

Lemma strptime_ymd_valid (s : string) (d : date) :
  strptime_ymd s = Ok d -> valid d = true.
Proof.
  unfold strptime_ymd. intros H.
  repeat match type of H with
         | context [match ?x with _ => _ end] =>
             destruct x eqn:?; try discriminate H
         | context [if ?x then _ else _] =>
             destruct x eqn:?; try discriminate H
         end.
  inversion H; subst.
  repeat match goal with
         | E : (_ && _) = true |- _ => apply andb_prop in E; destruct E
         end.
  assumption.
Qed.

Lemma strptime_ymd_truthy (s : string) (d : date) :
  strptime_ymd s = Ok d -> truthy_str (Some s) = true.
Proof. destruct s; [discriminate | reflexivity]. Qed.

Lemma month_cases (m : Z) :
  1 <= m <= 12 ->
  m = 1 \/ m = 2 \/ m = 3 \/ m = 4 \/ m = 5 \/ m = 6 \/
  m = 7 \/ m = 8 \/ m = 9 \/ m = 10 \/ m = 11 \/ m = 12.
Proof. lia. Qed.

Lemma toordinal_2026 (d : date) :
  valid d = true -> year d = 2026 -> 739617 <= toordinal d <= 739981.
Proof.
  destruct d as [y m dd]. unfold valid, toordinal. simpl. intros Hv ->.
  repeat (apply andb_prop in Hv; destruct Hv as [Hv ?]).
  assert (Hm : 1 <= m <= 12) by lia.
  change (days_before_year 2026) with 739616.
  destruct (month_cases m Hm) as [->|[->|[->|[->|[->|[->|[->|[->|[->|[->|[->| ->]]]]]]]]]]];
    (change (days_in_month 2026 _) with 31 in * ||
     change (days_in_month 2026 _) with 30 in * ||
     change (days_in_month 2026 _) with 28 in * );
    vm_compute days_before_month; lia.
Qed.

Lemma fromordinal_roundtrip_2026 (x : Z) :
  739611 <= x <= 739981 -> toordinal (fromordinal x) = x.
Proof.
  intros Hx.
  assert (Hall : forallb (fun k => toordinal (fromordinal (739611 + Z.of_nat k))
                                    =? 739611 + Z.of_nat k)
                         (seq 0 371) = true) by (vm_compute; reflexivity).
  rewrite forallb_forall in Hall.
  specialize (Hall (Z.to_nat (x - 739611))).
  rewrite Z2Nat.id in Hall by lia.
  replace (739611 + (x - 739611)) with x in Hall by lia.
  apply Z.eqb_eq, Hall. apply in_seq. lia.
Qed.
End CalendarFacts.

(** ** Reconciliation of the aggregates *)

Section AggregateFacts.
Import Py Cal Report Scenario.

Lemma agg_add_comm (a b : agg) : agg_add a b = agg_add b a.
Proof. destruct a, b. unfold agg_add. simpl. f_equal; lia. Qed.

Lemma agg_add_assoc (a b c : agg) :
  agg_add a (agg_add b c) = agg_add (agg_add a b) c.
Proof. destruct a, b, c. unfold agg_add. simpl. f_equal; lia. Qed.

Lemma agg_add_0_l (a : agg) : agg_add agg0 a = a.
Proof. destruct a. reflexivity. Qed.

Lemma agg_add_0_r (a : agg) : agg_add a agg0 = a.
Proof. rewrite agg_add_comm. apply agg_add_0_l. Qed.

Lemma agg_sum_app (l1 l2 : list agg) :
  agg_sum (l1 ++ l2) = agg_add (agg_sum l1) (agg_sum l2).
Proof.
  induction l1 as [|a l1 IH]; simpl.
  - now rewrite agg_add_0_l.
  - unfold agg_sum in *. simpl. rewrite IH. apply agg_add_assoc.
Qed.

Lemma agg_sum_nil : agg_sum [] = agg0.
Proof. reflexivity. Qed.

Lemma agg_sum_cons (a : agg) (l : list agg) :
  agg_sum (a :: l) = agg_add a (agg_sum l).
Proof. reflexivity. Qed.

(** Adding a record to one bucket adds it to the sum of all buckets. *)
Lemma agg_sum_upd {K : Type} `{EqDecision K} (k : K) (d : day_record)
    (m : list (K * agg)) :
  agg_sum (od_values (od_upd k (add_day d) agg0 m)) =
  agg_add (agg_sum (od_values m)) (day_agg d).
Proof.
  unfold od_values.
  induction m as [|[k' v] m IH]; cbn [od_upd map snd].
  - unfold add_day. rewrite agg_sum_cons. change (agg_sum []) with agg0.
    now rewrite agg_add_0_r, agg_add_0_l.
  - destruct (decide (k = k')); cbn [map snd]; rewrite !agg_sum_cons.
    + unfold add_day. rewrite <- !agg_add_assoc. f_equal. apply agg_add_comm.
    + rewrite IH. apply agg_add_assoc.
Qed.

Lemma year_total_upd (y : Z) (key : string) (d : day_record)
    (year_data : list (Z * list (string * agg))) :
  year_total y (od_upd y (od_upd key (add_day d) agg0) [] year_data) =
  agg_add (year_total y year_data) (day_agg d).
Proof.
  unfold year_total. rewrite od_get_upd_eq. simpl. apply agg_sum_upd.
Qed.

Lemma add_days_ok (d : date) (k : Z) :
  0 < toordinal d + k <= MAXORDINAL ->
  add_days d k = Ok (fromordinal (toordinal d + k)).
Proof.
  intros Hr. unfold add_days.
  destruct ((0 <? toordinal d + k) && (toordinal d + k <=? MAXORDINAL)) eqn:E;
    [reflexivity|].
  apply andb_false_iff in E. destruct E; lia.
Qed.

Lemma get_week_info_ok (d : date) :
  valid d = true -> year d = target_year ->
  exists w, get_week_info d = Ok w.
Proof.
  intros Hv Hy. pose proof (toordinal_2026 d Hv Hy) as Hord.
  assert (Hwd : 0 <= weekday d < 7) by (apply Z.mod_pos_bound; lia).
  unfold get_week_info. destruct (isocalendar d) as [[iy iw] iwd].
  rewrite add_days_ok by (unfold MAXORDINAL; lia). cbn [bind].
  rewrite add_days_ok.
  - cbn [bind]. eauto.
  - rewrite fromordinal_roundtrip_2026 by lia. unfold MAXORDINAL. lia.
Qed.







End AggregateFacts.

(** ** The paginated fetcher *)

Section PaginationFacts.
Import Py Pagination.
Context {Item St : Type} (c : client Item St).

Lemma outcome_continue (acc : list Item) (k : call Item)
    (calls : list (call Item)) :
  continues k = true ->
  outcome (acc ++ page_items k) calls = outcome acc (k :: calls).
Proof.
  intros Hk.
  assert (Hr : exists resp, call_result k = Ok resp).
  { unfold continues in Hk. destruct (call_result k); [eauto | discriminate]. }
  destruct Hr as [resp Hr]. unfold outcome.
  destruct calls as [|k' calls].
  - cbn [last map concat]. rewrite Hr. now rewrite !app_nil_r.
  - change (last (k :: k' :: calls)) with (last (k' :: calls)).
    destruct (last (k' :: calls)) as [kl|] eqn:E;
      [|apply last_None in E; discriminate E].
    destruct (call_result kl); [|reflexivity].
    cbn [map concat]. now rewrite <- !app_assoc.
Qed.

Lemma remaining_step (max_pages page : Z) :
  page <= max_pages -> remaining max_pages page = S (remaining max_pages (page + 1)).
Proof. unfold remaining. intros H. lia. Qed.

(** The loop, from any state it can be in. *)
Lemma fetch_loop_spec (fuel : nat) (endpoint : string)
    (initial_params : option loc) (max_pages : Z) :
  forall (acc : list Item) (cursor : option string) (page : Z)
         (w : world Item St),
  (remaining max_pages page <= fuel)%nat ->
  exists res w' calls,
    fetch_loop c fuel endpoint initial_params max_pages acc cursor page w
      = Some (res, w') /\
    trace w' = (trace w ++ calls)%list /\
    (length calls <= remaining max_pages page)%nat /\
    Forall (fun k => continues k = true) (removelast calls) /\
    (length calls = remaining max_pages page \/
     exists k, last calls = Some k /\ continues k = false) /\
    res = outcome acc calls /\
    (forall l, l ∈ dom (heap w) -> heap w' !! l = heap w !! l) /\
    Forall (fun k => call_loc k ∉ dom (heap w)) calls /\
    ((forall l, initial_params = Some l -> l ∈ dom (heap w)) ->
     cursor_chain (copy_or_empty (heap w) initial_params) cursor calls).
Proof.
  induction fuel as [|fuel IH]; intros acc cursor page w Hfuel;
    cbn [fetch_loop];
    (destruct (page <=? max_pages) eqn:Hpage;
     [|exists (Ok acc), w, []; rewrite app_nil_r;
       assert (remaining max_pages page = 0%nat) by (unfold remaining; lia);
       repeat split; simpl; auto; lia]).
  - rewrite remaining_step in Hfuel by lia. lia.
  - set (l := fresh (dom (heap w))).
    set (copy := copy_or_empty (heap w) initial_params).
    set (p := with_cursor cursor copy).
    assert (Hl : l ∉ dom (heap w)) by apply is_fresh.
    destruct (request c (cstate w) endpoint p) as [r st'] eqn:Hreq.
    set (k := mkcall l p r).
    set (w1 := mkworld (<[l:=p]> (<[l:=copy]> (heap w))) st' (trace w ++ [k])).
    assert (Hframe : forall l', l' ∈ dom (heap w) -> heap w1 !! l' = heap w !! l').
    { intros l' Hl'. simpl. rewrite !lookup_insert_ne; [reflexivity| |];
        intros ->; contradiction. }
    assert (Hstop : continues k = false ->
              exists res,
                (res = outcome acc [k]) /\
                (length [k] <= remaining max_pages page)%nat /\
                Forall (fun k => continues k = true) (removelast [k]) /\
                (length [k] = remaining max_pages page \/
                 exists k0, last [k] = Some k0 /\ continues k0 = false) /\
                Forall (fun k => call_loc k ∉ dom (heap w)) [k] /\
                ((forall l, initial_params = Some l -> l ∈ dom (heap w)) ->
                 cursor_chain copy cursor [k])).
    { intros Hk. eexists. split; [reflexivity|].
      rewrite (remaining_step max_pages page) by lia.
      repeat split; simpl; auto; try lia.
      right. exists k. auto. }
    destruct r as [resp|e].
    + destruct (items resp) as [|i its] eqn:Hitems.
      * destruct Hstop as (res & Hres & H1 & H2 & H3 & H4 & H5).
        { unfold continues. simpl. now rewrite Hitems. }
        exists (Ok acc), w1, [k]. repeat split; auto.
        unfold outcome, page_items. simpl. rewrite Hitems. simpl. now rewrite app_nil_r.
      * destruct (truthy_str (next_starting_after resp)) eqn:Hcur.
        -- assert (Hk : continues k = true).
           { unfold continues. simpl. now rewrite Hitems. }
           destruct (IH (acc ++ i :: its)%list (next_starting_after resp)
                        (page + 1) w1) as
             (res & w' & calls & Hrun & Htr & Hlen & Hcont & Hlast & Hres
              & Hfr & Hfresh & Hchain).
           { rewrite remaining_step in Hfuel by lia. lia. }
           exists res, w', (k :: calls).
           rewrite (remaining_step max_pages page) by lia.
           split; [exact Hrun|]. split.
           { rewrite Htr. simpl. now rewrite <- app_assoc. }
           split; [simpl; lia|]. split.
           { destruct calls as [|k' calls]; [constructor|].
             change (removelast (k :: k' :: calls))
               with (k :: removelast (k' :: calls)).
             constructor; assumption. }
           split.
           { destruct Hlast as [Hlast|(k0 & Hk0 & Hc0)].
             - left. simpl. lia.
             - right. exists k0. split; [|exact Hc0].
               now rewrite last_cons, Hk0. }
           split.
           { rewrite Hres. rewrite <- outcome_continue by exact Hk.
             unfold page_items. simpl. now rewrite Hitems. }
           assert (Hdom : dom (heap w) ⊆ dom (heap w1)).
           { intros x Hx. apply elem_of_dom. rewrite Hframe by exact Hx.
             now apply elem_of_dom. }
           split.
           { intros l' Hl'. rewrite Hfr by (apply Hdom, Hl'). now apply Hframe. }
           split.
           { constructor; [exact Hl|].
             eapply Forall_impl; [exact Hfresh|].
             intros k' Hk' Hin. apply Hk', Hdom, Hin. }
           intros Hip. simpl. split; [reflexivity|].
           assert (Hcopy : copy_or_empty (heap w1) initial_params = copy).
           { unfold copy, copy_or_empty. destruct initial_params as [l0|]; [|reflexivity].
             rewrite Hframe by (now apply Hip). reflexivity. }
           rewrite <- Hcopy. apply Hchain.
           intros l0 Hl0. apply Hdom, Hip, Hl0.
        -- destruct Hstop as (res & Hres & H1 & H2 & H3 & H4 & H5).
           { unfold continues. simpl. now rewrite Hitems. }
           exists (Ok (acc ++ i :: its)%list), w1, [k]. repeat split; auto.
           unfold outcome, page_items. simpl. rewrite Hitems.
           now rewrite app_nil_r.
    + destruct Hstop as (res & Hres & H1 & H2 & H3 & H4 & H5);
        [reflexivity|].
      exists (Raise e), w1, [k]. repeat split; auto.
Qed.

Lemma removelast_all_but_last {A : Type} (P : A -> Prop)
    (pre post : list A) (k : A) :
  Forall P (removelast (pre ++ k :: post)) -> ~ P k -> post = [].
Proof.
  intros Hall Hk. destruct post as [|k' post]; [reflexivity|].
  exfalso. apply Hk.
  rewrite removelast_app in Hall by discriminate.
  apply Forall_app in Hall as [_ Hall].
  change (removelast (k :: k' :: post)) with (k :: removelast (k' :: post)) in Hall.
  now inversion Hall.
Qed.

(** C5: a call of [fetch_all_paginated] returns; it makes at most
    [max_pages] requests; every page but the last had items and a cursor,
    and the last page had none of the two unless [max_pages] pages were
    read; the result is the items of the pages in the order of the
    requests; after a page without items nothing more is requested and
    the items gathered before it are returned. *)
Theorem fetch_all_paginated_spec (endpoint : string)
    (initial_params : option loc) (max_pages : Z) (w : world Item St) :
  exists res w' calls,
    fetch_all_paginated c endpoint initial_params max_pages w = Some (res, w') /\
    trace w' = (trace w ++ calls)%list /\
    (length calls <= Z.to_nat max_pages)%nat /\
    Forall (fun k => continues k = true) (removelast calls) /\
    (length calls = Z.to_nat max_pages \/
     exists k, last calls = Some k /\ continues k = false) /\
    res = outcome [] calls /\
    (forall pre k post resp,
        calls = (pre ++ k :: post)%list ->
        call_result k = Ok resp -> items resp = [] ->
        post = [] /\ res = Ok (concat (map page_items pre))).
Proof.
  unfold fetch_all_paginated, fetch_all_paginated_fuel.
  destruct (fetch_loop_spec (Z.to_nat max_pages) endpoint initial_params
              max_pages [] None 1 w) as
    (res & w' & calls & Hrun & Htr & Hlen & Hcont & Hlast & Hres & _).
  { unfold remaining. lia. }
  assert (Hrem : remaining max_pages 1 = Z.to_nat max_pages)
    by (unfold remaining; lia).
  rewrite Hrem in *.
  exists res, w', calls. repeat split; auto.
  - assert (post = []) as ->; [|reflexivity].
    subst calls.
    apply (removelast_all_but_last _ pre post k Hcont).
    unfold continues. rewrite H0, H1. discriminate.
  - assert (post = []) as ->.
    { subst calls.
      apply (removelast_all_but_last _ pre post k Hcont).
      unfold continues. rewrite H0, H1. discriminate. }
    subst calls res. unfold outcome. rewrite last_snoc, H0.
    rewrite map_app, concat_app. simpl. unfold page_items at 2.
    rewrite H0, H1. simpl. now rewrite app_nil_r.
Qed.

(** C10: when the caller's [initial_params] is a dictionary of the store,
    it holds the same content after the call; every request was sent from
    a dictionary allocated during the call, holding the copy of the
    caller's parameters with the cursor of the page before. *)
Theorem initial_params_unchanged (endpoint : string) (l0 : loc)
    (d : gmap string string) (max_pages : Z) (w : world Item St) :
  heap w !! l0 = Some d ->
  exists res w' calls,
    fetch_all_paginated c endpoint (Some l0) max_pages w = Some (res, w') /\
    heap w' !! l0 = Some d /\
    trace w' = (trace w ++ calls)%list /\
    Forall (fun k => call_loc k <> l0 /\ call_loc k ∉ dom (heap w)) calls /\
    cursor_chain (if decide (d = ∅) then ∅ else d) None calls.
Proof.
  intros Hd.
  assert (Hdom : l0 ∈ dom (heap w)) by (apply elem_of_dom; eauto).
  unfold fetch_all_paginated, fetch_all_paginated_fuel.
  destruct (fetch_loop_spec (Z.to_nat max_pages) endpoint (Some l0)
              max_pages [] None 1 w) as
    (res & w' & calls & Hrun & Htr & _ & _ & _ & _ & Hfr & Hfresh & Hchain).
  { unfold remaining. lia. }
  exists res, w', calls. split; [exact Hrun|].
  split; [rewrite Hfr by exact Hdom; exact Hd|].
  split; [exact Htr|]. split.
  - eapply Forall_impl; [exact Hfresh|].
    intros k Hk. split; [|exact Hk]. intros Heq. apply Hk. now rewrite Heq.
  - specialize (Hchain ltac:(intros l [= <-]; exact Hdom)).
    unfold copy_or_empty in Hchain. now rewrite Hd in Hchain.
Qed.
End PaginationFacts.

Lemma initial_params_unchanged_witness :
  Pagination.heap Scenario.caller_world !! 1%positive = Some Scenario.caller_params /\
  exists res w' calls,
    Pagination.fetch_all_paginated Scenario.two_pages "/campaigns"
      (Some 1%positive) 20 Scenario.caller_world = Some (res, w') /\
    Pagination.heap w' !! 1%positive = Some Scenario.caller_params /\
    Pagination.trace w' = (Pagination.trace Scenario.caller_world ++ calls)%list /\
    Forall (fun k => Pagination.call_loc k <> 1%positive /\
                     Pagination.call_loc k ∉ dom (Pagination.heap Scenario.caller_world))
           calls /\
    Pagination.cursor_chain
      (if decide (Scenario.caller_params = ∅) then ∅ else Scenario.caller_params)
      None calls.
Proof.
  split; [reflexivity|].
  apply (initial_params_unchanged Scenario.two_pages "/campaigns" 1%positive
           Scenario.caller_params 20 Scenario.caller_world).
  reflexivity.
Defined.

Example two_pages_fetched :
  fst <$> Pagination.fetch_all_paginated Scenario.two_pages "/campaigns"
            (Some 1%positive) 20 Scenario.caller_world
  = Some (Py.Ok [1; 2; 3]).
Proof. vm_compute. reflexivity. Qed.

Example two_pages_capped :
  fst <$> Pagination.fetch_all_paginated Scenario.two_pages "/campaigns"
            None 1 Scenario.caller_world
  = Some (Py.Ok [1; 2]).
Proof. vm_compute. reflexivity. Qed.

Example two_pages_requests :
  (fun r => map Pagination.call_params (Pagination.trace (snd r)))
    <$> Pagination.fetch_all_paginated Scenario.two_pages "/campaigns"
          (Some 1%positive) 20 Scenario.caller_world
  = Some [Scenario.caller_params;
          <["starting_after" := "after-2"]> Scenario.caller_params].
Proof. vm_compute. reflexivity. Qed.

(** ** Binary64 division of a small quotient *)

Section FloatFacts.

Lemma digits2_pos_size (p : positive) : digits2_pos p = Pos.size p.
Proof. induction p; simpl; congruence. Qed.

Lemma Zdigits2_log2 (m : Z) : 0 < m -> Zdigits2 m = Z.log2 m + 1.
Proof.
  destruct m as [|p|p]; try lia. intros _. simpl. rewrite digits2_pos_size.
  destruct p; simpl; lia.
Qed.

Lemma Zdigits2_bound (m k : Z) : 0 <= k -> 0 <= m <= 2 ^ k -> Zdigits2 m <= k + 1.
Proof.
  intros Hk [H0 Hm]. destruct (Z.eq_dec m 0) as [->|Hne]; [simpl; lia|].
  rewrite Zdigits2_log2 by lia.
  assert (Z.log2 m <= Z.log2 (2 ^ k)) by (apply Z.log2_le_mono; lia).
  rewrite Z.log2_pow2 in H by lia. lia.
Qed.

Lemma Zdigits2_mono (a b : Z) : 0 <= a <= b -> Zdigits2 a <= Zdigits2 b.
Proof.
  intros [H0 Hab]. destruct (Z.eq_dec a 0) as [->|Hne].
  - destruct b; simpl; lia.
  - rewrite !Zdigits2_log2 by lia.
    assert (Z.log2 a <= Z.log2 b) by (apply Z.log2_le_mono; lia). lia.
Qed.

Lemma Zdigits2_succ (a : Z) : 0 <= a -> Zdigits2 (a + 1) <= Zdigits2 a + 1.
Proof.
  intros H0. destruct (Z.eq_dec a 0) as [->|Hne]; [simpl; lia|].
  rewrite !Zdigits2_log2 by lia.
  assert (Z.log2 (a + 1) <= Z.log2 (2 * a)) by (apply Z.log2_le_mono; lia).
  rewrite Z.log2_double in H by lia. lia.
Qed.

Lemma shr_1_bound (r : shr_record) :
  0 <= shr_m r -> 0 <= shr_m (shr_1 r) <= shr_m r.
Proof.
  destruct r as [m rb sb]. simpl. intros Hm.
  destruct m as [|p|p]; try lia; simpl; [lia|].
  destruct p; simpl; lia.
Qed.

Lemma iter_shr_1_bound (p : positive) (r : shr_record) :
  0 <= shr_m r -> 0 <= shr_m (SpecFloat.iter_pos shr_1 p r) <= shr_m r.
Proof.
  revert r. induction p as [p IH|p IH|]; intros r Hr; simpl.
  - pose proof (shr_1_bound r Hr) as H1.
    pose proof (IH (shr_1 r) ltac:(lia)) as H2.
    pose proof (IH (SpecFloat.iter_pos shr_1 p (shr_1 r)) ltac:(lia)) as H3. lia.
  - pose proof (IH r Hr) as H2.
    pose proof (IH (SpecFloat.iter_pos shr_1 p r) ltac:(lia)) as H3. lia.
  - now apply shr_1_bound.
Qed.

Lemma shr_record_of_loc_m (m : Z) (l : location) :
  shr_m (shr_record_of_loc m l) = m.
Proof. destruct l as [|[]]; reflexivity. Qed.

(** The exponent and the mantissa after [shr_fexp]. *)
Lemma shr_fexp_spec (prec emax m e : Z) (l : location) :
  0 <= m ->
  snd (shr_fexp prec emax m e l) = Z.max e (fexp prec emax (Zdigits2 m + e)) /\
  0 <= shr_m (fst (shr_fexp prec emax m e l)) <= m.
Proof.
  intros Hm. unfold shr_fexp, shr.
  destruct (fexp prec emax (Zdigits2 m + e) - e) as [|p|p] eqn:E; simpl.
  - rewrite shr_record_of_loc_m. lia.
  - pose proof (iter_shr_1_bound p (shr_record_of_loc m l)) as H.
    rewrite shr_record_of_loc_m in H. specialize (H Hm). lia.
  - rewrite shr_record_of_loc_m. lia.
Qed.

Lemma round_nearest_even_bound (m : Z) (l : location) :
  m <= round_nearest_even m l <= m + 1.
Proof.
  unfold round_nearest_even. destruct l as [|[]]; try lia.
  destruct (Z.even m); lia.
Qed.


End FloatFacts.

(** ** The placement aggregator *)

Section ProviderFacts.
Import Py Provider Scenario.



Lemma od_upd_present {K V : Type} `{EqDecision K} (P : V -> Prop) (k : K)
    (f : V -> V) (dflt : V) (d : list (K * V)) :
  In k (od_keys d) -> (forall v, P v -> P (f v)) ->
  Forall (fun e => P (snd e)) d ->
  od_keys (od_upd k f dflt d) = od_keys d /\
  Forall (fun e => P (snd e)) (od_upd k f dflt d).
Proof.
  intros Hin Hf Hall. induction Hall as [|[k' v] d Hv Hd IH]; simpl in *.
  - contradiction.
  - destruct (decide (k = k')) as [->|Hne]; simpl.
    + split; [reflexivity|]. constructor; [now apply Hf | exact Hd].
    + destruct IH as [IHk IHf]; [destruct Hin; [congruence | assumption]|].
      unfold od_keys in *. split; [now rewrite IHk|].
      constructor; assumption.
Qed.

Lemma all_providers (p : provider) : In p [Google; Microsoft; Yahoo; Others].
Proof. destruct p; simpl; tauto. Qed.

Lemma count_recipient_ok (st : list (provider * counts)) (r : recipient) :
  stats_ok st -> stats_ok (count_recipient st r).
Proof.
  intros [Hk Hall]. destruct r as [a|e pl|]; simpl; [| |now split].
  - destruct (od_upd_present counts_ok (categorize_email_provider a)
                bump_total counts0 st) as [Hk' Hall']; auto.
    + rewrite Hk. apply all_providers.
    + intros [t i s o] (? & ? & ? & ?). unfold counts_ok in *. simpl in *. lia.
    + split; congruence.
  - destruct (od_upd_present counts_ok
                (categorize_email_provider (default "" e))
                (bump_placement (lower (default "other" pl))) counts0 st)
      as [Hk' Hall']; auto.
    + rewrite Hk. apply all_providers.
    + intros [t i s o] (? & ? & ? & ?). unfold counts_ok, bump_placement in *.
      destruct (contains "inbox" _); [|destruct (contains "spam" _)];
        simpl in *; lia.
    + split; congruence.
Qed.





End ProviderFacts.

Section BreakdownFacts.
Import Py Provider Scenario.




(** Both formatting helpers answer with the placeholder on [None] and on
    the empty mapping alike. *)
Lemma placeholder_on_none_and_empty :
  not_available None = true /\ not_available (Some []) = true.
Proof. split; reflexivity. Qed.
End BreakdownFacts.

(** ** Ordering of the reports *)

Section OrderFacts.
Import Py Cal Report Scenario.

Lemma StronglySorted_filter {A : Type} (R : A -> A -> Prop) (f : A -> bool)
    (l : list A) :
  StronglySorted R l -> StronglySorted R (List.filter f l).
Proof.
  induction 1 as [|x l Hl IH Hx]; simpl; [constructor|].
  destruct (f x); [|exact IH].
  constructor; [exact IH|].
  apply List.Forall_forall. intros y Hy. apply filter_In in Hy as [Hy _].
  rewrite List.Forall_forall in Hx. now apply Hx.
Qed.

Lemma StronglySorted_strict_in {A : Type} (R S : A -> A -> Prop) (l : list A) :
  (forall x y, In x l -> In y l -> R x y -> x <> y -> S x y) ->
  NoDup l -> StronglySorted R l -> StronglySorted S l.
Proof.
  intros HRS Hnd Hs. induction Hs as [|x l Hl IH Hx]; [constructor|].
  apply NoDup_cons in Hnd as [Hnin Hnd].
  constructor.
  - apply IH; [|exact Hnd]. intros a b Ha Hb. apply HRS; now right.
  - apply List.Forall_forall. intros y Hy. rewrite List.Forall_forall in Hx.
    apply HRS; [now left | now right | now apply Hx |].
    intros ->. apply Hnin, list_elem_of_In, Hy.
Qed.

Lemma od_upd_Forall {K V : Type} `{EqDecision K} (P : V -> Prop) (k : K)
    (f : V -> V) (dflt : V) (d : list (K * V)) :
  (forall v, P v -> P (f v)) -> P (f dflt) ->
  Forall (fun e => P (snd e)) d ->
  Forall (fun e => P (snd e)) (od_upd k f dflt d).
Proof.
  intros Hf Hd Hall. induction Hall as [|[k' v] d Hv Hall IH]; simpl.
  - repeat constructor. exact Hd.
  - destruct (decide (k = k')); constructor; simpl in *; auto.
Qed.

Lemma group_weeks_ok (wk : list (Z * string * string * agg)) :
  weeks_ok (group_weeks wk).
Proof.
  unfold group_weeks.
  assert (H0 : weeks_ok []) by (split; constructor).
  revert H0. generalize (@nil (Z * (string * list (string * agg)))).
  induction wk as [|[[[n lbl] name] st] wk IH]; intros weeks Hw; simpl; [exact Hw|].
  apply IH. destruct Hw as [Hk Hall]. split.
  - now apply od_keys_upd_NoDup.
  - apply (od_upd_Forall (fun w => NoDup (od_keys (snd w)))).
    + intros w Hwd. simpl. now apply od_keys_upd_NoDup.
    + simpl. repeat constructor. intros Hin. inversion Hin.
    + exact Hall.
Qed.

Lemma stat_row_shape (a b : string) (stats : agg) (r : list string) :
  stat_row a b stats = Ok r -> hd "" r = a /\ nth 1 r "" = b.
Proof.
  unfold stat_row. intros H.
  apply bind_ok_inv in H as (x1 & _ & H).
  apply bind_ok_inv in H as (x2 & _ & H).
  apply bind_ok_inv in H as (x3 & _ & H).
  apply bind_ok_inv in H as (x4 & _ & H).
  injection H as <-. split; reflexivity.
Qed.

(** The campaign rows of a block: one row for each name that is not
    suppressed, in the order of the names. *)
Lemma campaign_rows_spec (camps : list (string * agg)) (names : list string) :
  forall rows0 t0 rows1 t1,
  foldM (campaign_row_step camps) names (rows0, t0) = Ok (rows1, t1) ->
  exists crows,
    rows1 = (rows0 ++ crows)%list /\
    map (fun r => nth 1 r "") crows = List.filter (has_row camps) names /\
    Forall (fun r => hd "" r = "") crows.
Proof.
  induction names as [|name names IH]; intros rows0 t0 rows1 t1 H;
    cbn [foldM] in H.
  - injection H as <- <-. exists []. rewrite app_nil_r. repeat split. constructor.
  - apply bind_ok_inv in H as ([rows' t'] & Hstep & Hrest).
    apply IH in Hrest as (crows & -> & Hnames & Hhd).
    unfold campaign_row_step in Hstep. cbn [List.filter]. unfold has_row at 1.
    destruct (od_get name camps) as [stats|]; [|discriminate].
    destruct (suppressed stats); cbn [negb].
    + injection Hstep as <- <-. exists crows. auto.
    + apply bind_ok_inv in Hstep as (row & Hrow & Hst).
      injection Hst as <- <-.
      apply stat_row_shape in Hrow as [Ha Hb].
      exists (row :: crows). rewrite <- app_assoc. repeat split.
      * cbn [map]. now rewrite Hb, Hnames.
      * constructor; assumption.
Qed.

Lemma week_blocks_spec (weeks : list (Z * (string * list (string * agg))))
    (nums : list Z) :
  forall rows0 g0 rows1 g1,
  foldM (week_step weeks) nums (rows0, g0) = Ok (rows1, g1) ->
  exists views,
    rows1 = (rows0 ++ flat_map render_week views)%list /\
    map wv_num views = nums /\
    Forall (view_of weeks) views.
Proof.
  induction nums as [|n nums IH]; intros rows0 g0 rows1 g1 H; cbn [foldM] in H.
  - injection H as <- <-. exists []. simpl. rewrite app_nil_r. repeat split.
    constructor.
  - apply bind_ok_inv in H as ([rows' g'] & Hstep & Hrest).
    apply IH in Hrest as (views & -> & Hnums & Hviews).
    unfold week_step in Hstep.
    destruct (od_get n weeks) as [week|] eqn:Hweek; [|discriminate].
    apply bind_ok_inv in Hstep as ([crows_all wt] & Hc & Hstep).
    apply bind_ok_inv in Hstep as (total_row & Htot & Hstep).
    injection Hstep as <- <-.
    unfold week_campaign_rows in Hc.
    apply campaign_rows_spec in Hc as (crows & -> & Hnames & Hhd).
    apply stat_row_shape in Htot as [Htot _].
    exists (mkweek_view n (fst week) crows total_row :: views).
    repeat split.
    + cbn [flat_map]. unfold render_week. cbn [wv_label wv_rows wv_total].
      rewrite <- !app_assoc. cbn [app]. rewrite <- ?app_assoc. reflexivity.
    + cbn [map wv_num]. now rewrite Hnums.
    + constructor; [|exact Hviews].
      exists week. cbn [wv_num wv_label wv_rows wv_total]. auto.
Qed.
End OrderFacts.

Section TabOrderFacts.
Import Py Cal Report Scenario.

(** The weekly-detail tab: header, the week blocks by ascending week
    number, each with its campaign rows by ascending name, and the grand
    total. *)
Lemma campaigns_rows_order (wk : list (Z * string * string * agg))
    (rows : list (list string)) (g : agg) :
  campaigns_rows_of wk = Ok (rows, g) ->
  exists views grand_row,
    rows = (header8 :: flat_map render_week views ++ [grand_row])%list /\
    hd "" grand_row = "GRAND TOTAL (YTD)" /\
    StronglySorted Z.lt (map wv_num views) /\
    Forall (view_of (group_weeks wk)) views /\
    Forall (fun v => StronglySorted (fun a b => String.ltb a b = true)
                                    (campaign_names v)) views.
Proof.
  unfold campaigns_rows_of. intros H.
  apply bind_ok_inv in H as ([rows1 g1] & Hloop & H).
  apply bind_ok_inv in H as (grand_row & Hgrand & H).
  injection H as <- <-.
  apply week_blocks_spec in Hloop as (views & -> & Hnums & Hviews).
  apply stat_row_shape in Hgrand as [Hgrand _].
  destruct (group_weeks_ok wk) as [Hnd Hcamps].
  exists views, grand_row. repeat split; auto.
  - rewrite Hnums.
    apply (StronglySorted_strict (fun a b => (a <=? b) = true)).
    + intros x y Hle Hne. lia.
    + now apply sorted_NoDup.
    + apply sorted_sorted; [apply Z_leb_total | apply Z_leb_trans].
  - apply List.Forall_forall. intros v Hv.
    rewrite List.Forall_forall in Hviews.
    destruct (Hviews v Hv) as (week & Hget & _ & Hnames & _).
    rewrite Hnames. apply StronglySorted_filter.
    apply (StronglySorted_strict (fun a b => String.leb a b = true)).
    + intros x y. apply string_leb_ne_ltb.
    + apply sorted_NoDup.
      apply od_get_Some_In in Hget. rewrite List.Forall_forall in Hcamps.
      apply (Hcamps _ Hget).
    + apply sorted_sorted; [apply string_leb_total | apply string_leb_trans].
Qed.

Lemma mapM_Forall2 {A B : Type} (f : A -> result B) (l : list A) (rs : list B) :
  mapM f l = Ok rs -> Forall2 (fun x r => f x = Ok r) l rs.
Proof.
  revert rs. induction l as [|x l IH]; intros rs H; cbn [mapM] in H.
  - injection H as <-. constructor.
  - apply bind_ok_inv in H as (y & Hy & H).
    apply bind_ok_inv in H as (ys & Hys & H).
    injection H as <-. constructor; auto.
Qed.

Lemma agent_ge_total (x y : string * agent) :
  agent_ge x y = false -> agent_ge y x = true.
Proof. unfold agent_ge. lia. Qed.

Lemma agent_ge_trans (x y z : string * agent) :
  agent_ge x y = true -> agent_ge y z = true -> agent_ge x z = true.
Proof. unfold agent_ge. lia. Qed.

(** The Agents tab: one row for each agent, by descending [total_sent],
    agents with the same [total_sent] in the order of [agent_data]. *)
Lemma agents_rows_order (dt : data) (rows : list (list string)) :
  create_agents_tab_rows dt = Ok rows ->
  exists agent_rows total_row,
    rows = (["Agent Email"; "Total Emails Sent"; "Active Days"; "Avg/Day";
             "Status"] :: agent_rows ++ [total_row])%list /\
    Forall2 (fun e r => agent_row e = Ok r /\ hd "" r = fst e)
            (sorted_agents dt) agent_rows /\
    StronglySorted sent_ge (sorted_agents dt) /\
    Permutation (sorted_agents dt) (agent_data_of dt) /\
    (forall v, List.filter (with_total v) (sorted_agents dt) =
               List.filter (with_total v) (agent_data_of dt)).
Proof.
  unfold create_agents_tab_rows. intros H.
  apply bind_ok_inv in H as (arows & Hrows & H).
  injection H as <-.
  eexists arows, _. split; [reflexivity|]. repeat split.
  - apply mapM_Forall2 in Hrows. fold (sorted_agents dt) in Hrows.
    eapply Forall2_impl; [exact Hrows|].
    intros e r Hr. split; [exact Hr|].
    unfold agent_row in Hr.
    apply bind_ok_inv in Hr as (a1 & _ & Hr).
    apply bind_ok_inv in Hr as (a2 & _ & Hr).
    now injection Hr as <-.
  - pose proof (sorted_sorted agent_ge agent_ge_total agent_ge_trans
                  (agent_data_of dt)) as Hs.
    eapply StronglySorted_impl; [|exact Hs].
    intros x y Hxy. unfold agent_ge in Hxy. unfold sent_ge. lia.
  - apply sorted_perm.
  - intros v. apply sorted_stable. intros x y Hx Hy.
    unfold with_total, agent_ge in *. lia.
Qed.
End TabOrderFacts.

Section MonthOrderFacts.
Import Py Cal Report Scenario.

Lemma compare_append_prefix (p a b : string) :
  String.compare (p +:+ a) (p +:+ b) = String.compare a b.
Proof.
  induction p as [|c p IH]; simpl; [reflexivity|].
  unfold Ascii.compare. now rewrite N.compare_refl.
Qed.

Lemma month_key_leb (y m1 m2 : Z) :
  1 <= m1 <= 12 -> 1 <= m2 <= 12 ->
  String.leb (month_key y m1) (month_key y m2) = true -> m1 <= m2.
Proof.
  intros H1 H2. unfold month_key, strftime_ym, String.leb. cbn [year month].
  rewrite !compare_append_prefix.
  destruct (month_cases m1 H1) as [->|[->|[->|[->|[->|[->|[->|[->|[->|[->|[->| ->]]]]]]]]]]];
    destruct (month_cases m2 H2) as [->|[->|[->|[->|[->|[->|[->|[->|[->|[->|[->| ->]]]]]]]]]]];
    vm_compute; intros H; congruence.
Qed.

Lemma strptime_month_key (y m : Z) :
  y = 2026 \/ y = 2025 -> 1 <= m <= 12 ->
  strptime_ym (month_key y m) = Ok (mkdate y m 1).
Proof.
  intros Hy Hm.
  destruct (month_cases m Hm) as [->|[->|[->|[->|[->|[->|[->|[->|[->|[->|[->| ->]]]]]]]]]]];
    destruct Hy as [-> | ->]; reflexivity.
Qed.

Lemma strftime_ym_month_key (d : date) :
  strftime_ym d = month_key (year d) (month d).
Proof. reflexivity. Qed.

Lemma valid_month (d : date) : valid d = true -> 1 <= month d <= 12.
Proof.
  unfold valid. intros Hv.
  repeat (apply andb_prop in Hv; destruct Hv as [Hv ?]). lia.
Qed.

Lemma master_step_months (st st' : list (Z * list (string * agg)) * agg)
    (d : day_record) :
  months_ok (fst st) -> master_step st d = Ok st' -> months_ok (fst st').
Proof.
  destruct st as [yd tot]. unfold master_step. cbn [fst]. intros Hok H.
  destruct (truthy_str (d_date d)); [|injection H as <-; exact Hok].
  apply bind_ok_inv in H as (dd & Hp & H). injection H as <-. cbn [fst].
  apply strptime_ymd_valid in Hp. apply valid_month in Hp.
  intros y stats Hget.
  destruct (decide (y = year dd)) as [->|Hne].
  2:{ rewrite od_get_upd_ne in Hget by exact Hne. now apply Hok. }
  rewrite od_get_upd_eq in Hget. injection Hget as <-.
  assert (Hold : NoDup (od_keys (default [] (od_get (year dd) yd))) /\
                 Forall (fun k => exists m, 1 <= m <= 12 /\ k = month_key (year dd) m)
                        (od_keys (default [] (od_get (year dd) yd)))).
  { destruct (od_get (year dd) yd) as [old|] eqn:E; [now apply Hok|].
    split; constructor. }
  destruct Hold as [Hnd Hall]. split; [now apply od_keys_upd_NoDup|].
  rewrite od_keys_upd.
  destruct (od_get (strftime_ym dd) (default [] (od_get (year dd) yd)));
    [exact Hall|].
  apply Forall_app. split; [exact Hall|].
  constructor; [|constructor]. exists (month dd). split; [exact Hp|].
  apply strftime_ym_month_key.
Qed.

Lemma master_aggregate_months (dt : data)
    (yd : list (Z * list (string * agg))) (tot : agg) :
  master_aggregate dt = Ok (yd, tot) -> months_ok yd.
Proof.
  unfold master_aggregate. rewrite foldM_flat_map. intros H.
  apply (foldM_invariant (fun st => months_ok (fst st)) master_step _ _ _) in H;
    [exact H | |].
  - intros st x st' _. apply master_step_months.
  - intros y stats Hget. discriminate Hget.
Qed.

Lemma keys_months (y : Z) (ks : list string) :
  Forall (fun k => exists m, 1 <= m <= 12 /\ k = month_key y m) ks ->
  exists months, ks = map (month_key y) months /\
                 Forall (fun m => 1 <= m <= 12) months.
Proof.
  induction 1 as [|k ks (m & Hm & ->) _ (months & -> & Hms)].
  - exists []. split; [reflexivity | constructor].
  - exists (m :: months). split; [reflexivity | now constructor].
Qed.

Lemma NoDup_map_inv_nodup {A B : Type} (f : A -> B) (l : list A) :
  NoDup (map f l) -> NoDup l.
Proof.
  induction l as [|x l IH]; simpl; intros H; [constructor|].
  apply NoDup_cons in H as [Hnin Hnd]. apply NoDup_cons. split; [|now apply IH].
  intros Hin. apply Hnin. apply list_elem_of_In, in_map, list_elem_of_In, Hin.
Qed.

Lemma month_row_name (y m : Z) (stats : list (string * agg)) (r : list string) :
  y = 2026 \/ y = 2025 -> 1 <= m <= 12 ->
  month_row stats (month_key y m) = Ok r -> hd "" r = month_name m.
Proof.
  intros Hy Hm. unfold month_row.
  destruct (od_get (month_key y m) stats); [|discriminate].
  rewrite (strptime_month_key y m Hy Hm). cbn [bind]. intros H.
  apply bind_ok_inv in H as (e & _ & H).
  apply bind_ok_inv in H as (es & _ & H).
  now injection H as <-.
Qed.

(** The section of a year: its month rows follow the calendar. *)
Lemma year_section_order (y : Z) (title : string) (with_spacer : bool)
    (year_data : list (Z * list (string * agg))) (rows : list (list string)) :
  y = 2026 \/ y = 2025 -> months_ok year_data ->
  year_section y title with_spacer year_data = Ok rows ->
  exists months month_rows,
    rows = section_layout title with_spacer month_rows /\
    shows_months month_rows months /\
    StronglySorted Z.lt months.
Proof.
  intros Hy Hok. unfold year_section.
  destruct (od_get y year_data) as [stats|] eqn:Hget; cbn [default]; unfold id.
  2:{ intros H. injection H as <-. exists [], []. repeat split; constructor. }
  destruct (Hok y stats Hget) as [Hnd Hkeys]. intros H.
  assert (Hcases :
    (rows = []) \/
    (stats <> [] /\
     bind (mapM (month_row stats) (sorted_months stats))
          (fun rows => Ok ([[title; ""; ""; ""; ""; ""];
                            ["Month"; "Emails Sent"; "New Leads"; "Replies";
                             "Opportunities"; "Emails/Opp"]]
                           ++ rows
                           ++ (if with_spacer then [spacer6] else []))%list)
     = Ok rows)).
  { destruct stats; [left; congruence | right; split; [discriminate | exact H]]. }
  clear H. destruct Hcases as [->|[Hne H]].
  { exists [], []. repeat split; constructor. }
  apply bind_ok_inv in H as (mrows & Hrows & H). injection H as <-.
  assert (Hskeys : Forall (fun k => exists m, 1 <= m <= 12 /\ k = month_key y m)
                          (sorted_months stats)).
  { apply List.Forall_forall. intros k Hk. apply sorted_In in Hk.
    rewrite List.Forall_forall in Hkeys. now apply Hkeys. }
  destruct (keys_months y _ Hskeys) as (months & Hmonths & Hrange).
  exists months, mrows. split; [|split; [split|]].
  - apply mapM_Forall2 in Hrows. unfold section_layout.
    destruct mrows as [|r mrows]; [|reflexivity].
    inversion Hrows as [Hnil|]; subst.
    apply (f_equal (@length string)) in Hnil. unfold sorted_months in Hnil.
    rewrite sorted_length in Hnil. unfold od_keys in Hnil.
    destruct stats; [congruence | discriminate Hnil].
  - apply mapM_Forall2 in Hrows. rewrite Hmonths in Hrows.
    clear Hmonths Hskeys. revert mrows Hrows.
    induction Hrange as [|m months Hm Hms IH]; intros mrows Hrows;
      inversion Hrows as [|? r ? rs Hr Hrs]; subst; [reflexivity|].
    cbn [map]. rewrite (IH rs Hrs). f_equal.
    now apply (month_row_name y m stats r Hy Hm).
  - exact Hrange.
  - pose proof (sorted_sorted String.leb string_leb_total string_leb_trans
                  (od_keys stats)) as Hs.
    fold (sorted_months stats) in Hs.
    assert (Hnds : NoDup (sorted_months stats)) by now apply sorted_NoDup.
    rewrite Hmonths in Hs, Hnds.
    apply StronglySorted_map_inv in Hs. apply NoDup_map_inv_nodup in Hnds.
    eapply StronglySorted_strict_in; [|exact Hnds|exact Hs].
    intros a b Ha Hb Hle Hab. rewrite List.Forall_forall in Hrange.
    pose proof (month_key_leb y a b (Hrange a Ha) (Hrange b Hb) Hle). lia.
Qed.

(** C6: in every report that is built, the months of each year section of
    the Master Dashboard follow the calendar, the week blocks of the
    weekly-detail tab follow the ISO week number, the campaign rows of a
    block follow the byte order of the campaign names, and the rows of the
    Agents tab follow [total_sent] downwards, agents with equal
    [total_sent] staying in the order in which [agent_data] met them. *)
Theorem reports_are_ordered (dt : data) :
  (forall rows, create_master_dashboard_rows dt = Ok rows ->
     exists tot m26 rows26 m25 rows25,
       rows = (dashboard_head tot
               ++ section_layout "PERFORMANCE BY MONTH 2026" true rows26
               ++ section_layout "PERFORMANCE BY MONTH 2025" false rows25)%list /\
       shows_months rows26 m26 /\ StronglySorted Z.lt m26 /\
       shows_months rows25 m25 /\ StronglySorted Z.lt m25) /\
  (forall rows, create_campaigns_tab_rows dt = Ok rows ->
     exists wk views grand_row,
       weekly_aggregate dt = Ok wk /\
       rows = (header8 :: flat_map render_week views ++ [grand_row])%list /\
       hd "" grand_row = "GRAND TOTAL (YTD)" /\
       StronglySorted Z.lt (map wv_num views) /\
       Forall (view_of (group_weeks wk)) views /\
       Forall (fun v => StronglySorted (fun a b => String.ltb a b = true)
                                       (campaign_names v)) views) /\
  (forall rows, create_agents_tab_rows dt = Ok rows ->
     exists agent_rows total_row,
       rows = (["Agent Email"; "Total Emails Sent"; "Active Days"; "Avg/Day";
                "Status"] :: agent_rows ++ [total_row])%list /\
       Forall2 (fun e r => agent_row e = Ok r /\ hd "" r = fst e)
               (sorted_agents dt) agent_rows /\
       StronglySorted sent_ge (sorted_agents dt) /\
       Permutation (sorted_agents dt) (agent_data_of dt) /\
       (forall v, List.filter (with_total v) (sorted_agents dt) =
                  List.filter (with_total v) (agent_data_of dt))).
Proof.
  split; [|split].
  - intros rows H. unfold create_master_dashboard_rows in H.
    apply bind_ok_inv in H as ([yd tot] & Hagg & H).
    apply bind_ok_inv in H as (s26 & H26 & H).
    apply bind_ok_inv in H as (s25 & H25 & H).
    injection H as <-.
    pose proof (master_aggregate_months dt yd tot Hagg) as Hok.
    apply year_section_order in H26 as (m26 & r26 & -> & Hm26 & Hs26);
      [|now left|exact Hok].
    apply year_section_order in H25 as (m25 & r25 & -> & Hm25 & Hs25);
      [|now right|exact Hok].
    exists tot, m26, r26, m25, r25. repeat split; auto; apply Hm26 || apply Hm25.
  - intros rows H. unfold create_campaigns_tab_rows in H.
    apply bind_ok_inv in H as (wk & Hwk & H).
    apply bind_ok_inv in H as ([rows' g] & Hrows & H).
    injection H as <-.
    apply campaigns_rows_order in Hrows
      as (views & grand_row & -> & Hg & Hsw & Hv & Hsn).
    exists wk, views, grand_row. auto 10.
  - apply agents_rows_order.
Qed.
End MonthOrderFacts.

Lemma reports_are_ordered_witness :
  Report.create_campaigns_tab_rows Scenario.acme = Py.Ok Scenario.acme_rows /\
  exists wk views grand_row,
    Report.weekly_aggregate Scenario.acme = Py.Ok wk /\
    Scenario.acme_rows =
      (Report.header8 :: flat_map Scenario.render_week views ++ [grand_row])%list /\
    hd "" grand_row = "GRAND TOTAL (YTD)" /\
    StronglySorted Z.lt (map Scenario.wv_num views) /\
    Forall (Scenario.view_of (Report.group_weeks wk)) views /\
    Forall (fun v => StronglySorted (fun a b => String.ltb a b = true)
                                    (Scenario.campaign_names v)) views.
Proof.
  split; [vm_compute; reflexivity|].
  apply (proj1 (proj2 (reports_are_ordered Scenario.acme))).
  vm_compute. reflexivity.
Defined.


Example breakdown_two_google :
  Py.bind
    (Provider.analyze_provider_breakdown
       (Provider.mktest (Some [Provider.RStr "ann@gmail.com";
                               Provider.RDict (Some "bob@GMAIL.com") (Some "Inbox")])))
    (fun b => Py.Ok (option_map
       (map (fun e => (fst e, Provider.r_total (snd e),
                       Py.fmt1_float (Provider.inbox_rate (snd e))))) b))
  = Py.Ok (Some [(Provider.Google, 2, "50.0")]).
Proof. vm_compute. reflexivity. Qed.

(** * Further properties *)

(** ** The aggregations on arbitrary data *)

Section LedgerFacts.
Import Py Cal Report Scenario Terms.

Lemma agg_sum_perm (l1 l2 : list agg) :
  Permutation l1 l2 -> agg_sum l1 = agg_sum l2.
Proof.
  induction 1 as [|x l1 l2 _ IH|x y l|l1 l2 l3 _ IH1 _ IH2].
  - reflexivity.
  - now rewrite !agg_sum_cons, IH.
  - rewrite !agg_sum_cons, !agg_add_assoc. f_equal. apply agg_add_comm.
  - congruence.
Qed.

(** An update that adds [x] to the measure of one entry adds [x] to the
    sum of the measures. *)
Lemma measure_upd {K V : Type} `{EqDecision K} (mu : V -> agg) (k : K)
    (f : V -> V) (dflt : V) (x : agg) (m : list (K * V)) :
  (forall v, mu (f v) = agg_add (mu v) x) -> mu dflt = agg0 ->
  agg_sum (map (fun e => mu (snd e)) (od_upd k f dflt m)) =
  agg_add (agg_sum (map (fun e => mu (snd e)) m)) x.
Proof.
  intros Hf Hd. induction m as [|[k' v] m IH]; cbn [od_upd map snd].
  - rewrite agg_sum_cons, agg_sum_nil, Hf, Hd. cbn [snd].
    now rewrite agg_add_0_r, agg_add_0_l.
  - destruct (decide (k = k')); cbn [map snd]; rewrite !agg_sum_cons.
    + rewrite Hf, <- !agg_add_assoc. f_equal. apply agg_add_comm.
    + rewrite IH. apply agg_add_assoc.
Qed.

Lemma strptime_ymd_error (s : string) (e : exc) :
  strptime_ymd s = Raise e -> e = ValueError.
Proof.
  unfold strptime_ymd. intros H.
  repeat match type of H with
         | context [match ?x with _ => _ end] =>
             destruct x eqn:?; try discriminate H
         | context [if ?x then _ else _] =>
             destruct x eqn:?; try discriminate H
         end; congruence.
Qed.

Lemma record_date_cases (d : day_record) :
  (record_date d = Ok None /\ truthy_str (d_date d) = false) \/
  (exists dd, record_date d = Ok (Some dd) /\ truthy_str (d_date d) = true /\
              strptime_ymd (default "" (d_date d)) = Ok dd /\ valid dd = true) \/
  (record_date d = Raise ValueError /\ truthy_str (d_date d) = true /\
   strptime_ymd (default "" (d_date d)) = Raise ValueError).
Proof.
  unfold record_date. destruct (truthy_str (d_date d)); [|now left].
  right. destruct (strptime_ymd (default "" (d_date d))) as [dd|e] eqn:E.
  - left. exists dd. repeat split; auto. eapply strptime_ymd_valid, E.
  - right. apply strptime_ymd_error in E as Hv. subst. auto.
Qed.

(** One turn of the monthly loop. *)
Lemma master_step_ledger (st : list (Z * list (string * agg)) * agg)
    (d : day_record) :
  match record_date d with
  | Raise e => master_step st d = Raise e
  | Ok _ =>
      exists st', master_step st d = Ok st' /\
        snd st' = agg_add (snd st) (counted (fun _ => true) d) /\
        all_years_total (fst st') =
          agg_add (all_years_total (fst st)) (counted (fun _ => true) d) /\
        forall y, year_total y (fst st') =
                  agg_add (year_total y (fst st)) (counted (in_year y) d)
  end.
Proof.
  destruct st as [yd tot]. unfold master_step, counted.
  destruct (record_date_cases d) as [[Hr Ht]|[(dd & Hr & Ht & Hp & Hv)|(Hr & Ht & Hp)]];
    rewrite Hr, Ht.
  - exists (yd, tot). cbn [fst snd]. rewrite !agg_add_0_r.
    repeat split; auto. intros y. now rewrite agg_add_0_r.
  - rewrite Hp. cbn [bind]. eexists. split; [reflexivity|]. cbn [fst snd].
    split; [reflexivity|]. split.
    + unfold all_years_total.
      apply (measure_upd (fun v => agg_sum (od_values v))).
      * intros v. apply agg_sum_upd.
      * reflexivity.
    + intros y. unfold in_year.
      destruct (year dd =? y) eqn:Ey.
      * apply Z.eqb_eq in Ey. subst y. apply year_total_upd.
      * apply Z.eqb_neq in Ey. unfold year_total.
        rewrite od_get_upd_ne by congruence. now rewrite agg_add_0_r.
  - now rewrite Hp.
Qed.

(** One turn of the weekly loop. *)
Lemma weekly_step_ledger (name : string)
    (wk : list (Z * string * string * agg)) (d : day_record) :
  match record_date d with
  | Raise e => weekly_step name wk d = Raise e
  | Ok _ =>
      exists wk', weekly_step name wk d = Ok wk' /\
        agg_sum (od_values wk') =
          agg_add (agg_sum (od_values wk)) (counted (in_year target_year) d)
  end.
Proof.
  unfold weekly_step, counted.
  destruct (record_date_cases d) as [[Hr Ht]|[(dd & Hr & Ht & Hp & Hv)|(Hr & Ht & Hp)]];
    rewrite Hr, Ht.
  - exists wk. now rewrite agg_add_0_r.
  - rewrite Hp. cbn [bind]. unfold in_year.
    destruct (year dd =? target_year) eqn:Ey; cbn [negb].
    + apply Z.eqb_eq in Ey.
      destruct (get_week_info_ok dd Hv Ey) as [w ->]. cbn [bind].
      eexists. split; [reflexivity|]. apply agg_sum_upd.
    + exists wk. now rewrite agg_add_0_r.
  - now rewrite Hp.
Qed.

Lemma master_loop_ledger (l : list day_record)
    (st : list (Z * list (string * agg)) * agg) :
  if forallb date_readable l then
    exists st', foldM master_step l st = Ok st' /\
      snd st' = agg_add (snd st) (sum_where (fun _ => true) l) /\
      all_years_total (fst st') =
        agg_add (all_years_total (fst st)) (sum_where (fun _ => true) l) /\
      forall y, year_total y (fst st') =
                agg_add (year_total y (fst st)) (sum_where (in_year y) l)
  else foldM master_step l st = Raise ValueError.
Proof.
  revert st. induction l as [|d l IH]; intros st; cbn [forallb foldM].
  - exists st. unfold sum_where. cbn [map]. rewrite agg_sum_nil, !agg_add_0_r.
    repeat split; auto. intros y. now rewrite agg_add_0_r.
  - pose proof (master_step_ledger st d) as Hstep. unfold date_readable at 1.
    destruct (record_date_cases d) as [[Hr _]|[(dd & Hr & _)|(Hr & _)]];
      rewrite Hr in *; cbn [is_ok andb].
    1,2: destruct Hstep as (st1 & -> & Ht & Ha & Hy); cbn [bind];
         specialize (IH st1); destruct (forallb date_readable l); [|exact IH];
         destruct IH as (st' & -> & Ht' & Ha' & Hy'); exists st';
         unfold sum_where in *; cbn [map]; rewrite agg_sum_cons;
         (split; [reflexivity|]);
         (split; [now rewrite Ht', Ht, agg_add_assoc|]);
         (split; [now rewrite Ha', Ha, agg_add_assoc|]);
         intros y; rewrite agg_sum_cons; now rewrite Hy', Hy, agg_add_assoc.
    now rewrite Hstep.
Qed.

Lemma weekly_inner_ledger (name : string) (l : list day_record)
    (wk : list (Z * string * string * agg)) :
  if forallb date_readable l then
    exists wk', foldM (weekly_step name) l wk = Ok wk' /\
      agg_sum (od_values wk') =
        agg_add (agg_sum (od_values wk)) (sum_where (in_year target_year) l)
  else foldM (weekly_step name) l wk = Raise ValueError.
Proof.
  revert wk. induction l as [|d l IH]; intros wk; cbn [forallb foldM].
  - exists wk. unfold sum_where. cbn [map]. now rewrite agg_sum_nil, agg_add_0_r.
  - pose proof (weekly_step_ledger name wk d) as Hstep. unfold date_readable at 1.
    destruct (record_date_cases d) as [[Hr _]|[(dd & Hr & _)|(Hr & _)]];
      rewrite Hr in *; cbn [is_ok andb].
    1,2: destruct Hstep as (wk1 & -> & Hs); cbn [bind];
         specialize (IH wk1); destruct (forallb date_readable l); [|exact IH];
         destruct IH as (wk' & -> & Hs'); exists wk';
         unfold sum_where in *; cbn [map]; rewrite agg_sum_cons;
         (split; [reflexivity|]); now rewrite Hs', Hs, agg_add_assoc.
    now rewrite Hstep.
Qed.

Lemma sum_where_app (P : date -> bool) (l1 l2 : list day_record) :
  sum_where P (l1 ++ l2) = agg_add (sum_where P l1) (sum_where P l2).
Proof. unfold sum_where. now rewrite map_app, agg_sum_app. Qed.

Lemma weekly_outer_ledger (dt : data) (cs : list campaign)
    (wk : list (Z * string * string * agg)) :
  if forallb date_readable (flat_map (daily_stats dt) cs) then
    exists wk',
      foldM (fun wk camp => foldM (weekly_step (campaign_name camp))
                                  (daily_stats dt camp) wk) cs wk = Ok wk' /\
      agg_sum (od_values wk') =
        agg_add (agg_sum (od_values wk))
                (sum_where (in_year target_year) (flat_map (daily_stats dt) cs))
  else
    foldM (fun wk camp => foldM (weekly_step (campaign_name camp))
                                (daily_stats dt camp) wk) cs wk
    = Raise ValueError.
Proof.
  revert wk. induction cs as [|c cs IH]; intros wk; cbn [flat_map foldM].
  - exists wk. unfold sum_where. cbn [map forallb].
    now rewrite agg_sum_nil, agg_add_0_r.
  - rewrite forallb_app.
    pose proof (weekly_inner_ledger (campaign_name c) (daily_stats dt c) wk) as Hin.
    destruct (forallb date_readable (daily_stats dt c)); cbn [andb].
    + destruct Hin as (wk1 & -> & Hs). cbn [bind]. specialize (IH wk1).
      destruct (forallb date_readable (flat_map (daily_stats dt) cs)); [|exact IH].
      destruct IH as (wk' & -> & Hs'). exists wk'. split; [reflexivity|].
      now rewrite Hs', Hs, sum_where_app, agg_add_assoc.
    + now rewrite Hin.
Qed.


(** X2: whenever the monthly aggregation succeeds, the all-time totals are
    the sum of the month buckets of all years and the direct sum over the
    dated records, and the month buckets of any year [y] sum to the dated
    records of that year. *)
Theorem all_time_totals_ledger (dt : data)
    (year_data : list (Z * list (string * agg))) (all_time_totals : agg) :
  master_aggregate dt = Ok (year_data, all_time_totals) ->
  all_time_totals = sum_where (fun _ => true) (records dt) /\
  all_years_total year_data = all_time_totals /\
  forall y, year_total y year_data = sum_where (in_year y) (records dt).
Proof.
  unfold master_aggregate. rewrite foldM_flat_map. fold (records dt).
  pose proof (master_loop_ledger (records dt) ([], agg0)) as Hm.
  destruct (forallb date_readable (records dt)).
  - destruct Hm as (st & -> & Ht & Ha & Hy). intros [= ->].
    cbn [fst snd] in *. rewrite agg_add_0_l in Ht.
    change (all_years_total []) with agg0 in Ha. rewrite agg_add_0_l in Ha.
    repeat split; [exact Ht | congruence |].
    intros y. rewrite Hy. apply agg_add_0_l.
  - rewrite Hm. discriminate.
Qed.

Lemma all_time_totals_ledger_witness :
  master_aggregate quiet_leads =
    Ok ([(2026, [("2026-01", mkagg 10 13 1 0)])], mkagg 10 13 1 0) /\
  mkagg 10 13 1 0 = sum_where (fun _ => true) (records quiet_leads).
Proof.
  split; [vm_compute; reflexivity|].
  apply (all_time_totals_ledger quiet_leads
           [(2026, [("2026-01", mkagg 10 13 1 0)])] (mkagg 10 13 1 0)).
  vm_compute. reflexivity.
Defined.

(** X3: whenever the weekly aggregation succeeds, its buckets sum to the
    dated records of 2026, whatever other years the data holds; so they sum
    to the month buckets of 2026 of the monthly aggregation. *)
Theorem weekly_buckets_ledger (dt : data)
    (wk : list (Z * string * string * agg)) :
  weekly_aggregate dt = Ok wk ->
  agg_sum (od_values wk) = sum_where (in_year 2026) (records dt) /\
  exists year_data all_time_totals,
    master_aggregate dt = Ok (year_data, all_time_totals) /\
    agg_sum (od_values wk) = year_total 2026 year_data.
Proof.
  intros Hwk.
  pose proof (weekly_outer_ledger dt (campaigns dt) []) as Hw.
  pose proof (master_loop_ledger (records dt) ([], agg0)) as Hm.
  fold (records dt) in Hw. unfold weekly_aggregate in Hwk.
  destruct (forallb date_readable (records dt)).
  - destruct Hw as (wk' & Hwk' & Hs). rewrite Hwk' in Hwk. injection Hwk as ->.
    change (agg_sum (od_values [])) with agg0 in Hs. rewrite agg_add_0_l in Hs.
    split; [exact Hs|].
    destruct Hm as ([yd tot] & Hm & _ & _ & Hy). exists yd, tot.
    unfold master_aggregate. rewrite foldM_flat_map. fold (records dt).
    split; [exact Hm|]. cbn [fst] in Hy. rewrite Hs, Hy.
    symmetry. apply agg_add_0_l.
  - rewrite Hw in Hwk. discriminate.
Qed.

Lemma weekly_buckets_ledger_witness :
  weekly_aggregate quiet_leads =
    Ok [(2, week_of_jan_5, "Acme", mkagg 0 3 0 0);
        (2, week_of_jan_5, "Beta", mkagg 10 10 1 0)] /\
  agg_sum [mkagg 0 3 0 0; mkagg 10 10 1 0] =
    sum_where (in_year 2026) (records quiet_leads).
Proof.
  split; [vm_compute; reflexivity|].
  apply (weekly_buckets_ledger quiet_leads
           [(2, week_of_jan_5, "Acme", mkagg 0 3 0 0);
            (2, week_of_jan_5, "Beta", mkagg 10 10 1 0)]).
  vm_compute. reflexivity.
Defined.
End LedgerFacts.

(** ** The weeks of 2026 *)

Section WeekFacts.
Import Py Cal Report Scenario Terms.

Lemma forallb_seqZ (f : Z -> bool) (lo len x : Z) :
  forallb f (seqZ lo len) = true -> lo <= x < lo + len -> f x = true.
Proof.
  intros Hall Hx. rewrite forallb_forall in Hall. apply Hall.
  apply list_elem_of_In, elem_of_seqZ. lia.
Qed.

Lemma every_day_of_2026_spec (check : date -> bool) (d : date) :
  every_day_of_2026 check = true ->
  valid d = true -> year d = 2026 -> check d = true.
Proof.
  intros Hall Hv Hy. destruct d as [y m dd]. cbn [year] in Hy. subst y.
  assert (Hr : 1 <= m <= 12 /\ 1 <= dd <= 31).
  { unfold valid in Hv. cbn [year month day] in Hv.
    repeat (apply andb_prop in Hv; destruct Hv as [Hv ?]).
    assert (days_in_month 2026 m <= 31).
    { unfold days_in_month.
      destruct (m =? 2); [destruct (is_leap 2026); lia|].
      destruct ((m =? 4) || (m =? 6) || (m =? 9) || (m =? 11)); lia. }
    lia. }
  unfold every_day_of_2026 in Hall.
  apply (forallb_seqZ _ 1 12 m) in Hall; [|lia]. cbv beta in Hall.
  apply (forallb_seqZ _ 1 31 dd) in Hall; [|lia]. cbv beta in Hall.
  now rewrite Hv in Hall.
Qed.

Lemma week_info_check_2026 : every_day_of_2026 week_info_check = true.
Proof. vm_compute. reflexivity. Qed.

(** X4: for every date of 2026 [get_week_info] succeeds; the week runs
    from a Monday to the Sunday six days later and contains the date; its
    ISO year is 2026 and its number lies between 1 and 53; its Monday is
    the [n-1]-th Monday after 2025-12-29 and its label is the label of
    week [n]. *)
Theorem week_info_of_2026 (d : date) :
  valid d = true -> year d = 2026 ->
  exists w,
    get_week_info d = Ok w /\
    wi_year w = 2026 /\ 1 <= wi_week_num w <= 53 /\
    weekday (wi_start w) = 0 /\ weekday (wi_end w) = 6 /\
    toordinal (wi_end w) = toordinal (wi_start w) + 6 /\
    date_leb (wi_start w) d = true /\ date_leb d (wi_end w) = true /\
    wi_start w = fromordinal (monday_of_week_2026 (wi_week_num w)) /\
    wi_end w = fromordinal (monday_of_week_2026 (wi_week_num w) + 6) /\
    wi_label w = week_label_2026 (wi_week_num w).
Proof.
  intros Hv Hy.
  pose proof (every_day_of_2026_spec _ d week_info_check_2026 Hv Hy) as Hc.
  unfold week_info_check in Hc.
  destruct (get_week_info d) as [w|e]; [|discriminate].
  exists w. split; [reflexivity|].
  repeat (apply andb_prop in Hc; destruct Hc as [Hc ?]).
  repeat match goal with
         | H : bool_decide _ = true |- _ => apply bool_decide_eq_true in H
         | H : (_ =? _)%string = true |- _ => apply String.eqb_eq in H
         end.
  repeat split; try assumption; lia.
Qed.

Lemma week_info_of_2026_witness :
  exists w,
    get_week_info (mkdate 2026 12 31) = Ok w /\
    wi_year w = 2026 /\ 1 <= wi_week_num w <= 53 /\
    weekday (wi_start w) = 0 /\ weekday (wi_end w) = 6 /\
    toordinal (wi_end w) = toordinal (wi_start w) + 6 /\
    date_leb (wi_start w) (mkdate 2026 12 31) = true /\
    date_leb (mkdate 2026 12 31) (wi_end w) = true /\
    wi_start w = fromordinal (monday_of_week_2026 (wi_week_num w)) /\
    wi_end w = fromordinal (monday_of_week_2026 (wi_week_num w) + 6) /\
    wi_label w = week_label_2026 (wi_week_num w).
Proof. apply week_info_of_2026; reflexivity. Defined.

Lemma labels_distinct_2026_holds : labels_distinct_2026 = true.
Proof. vm_compute. reflexivity. Qed.

(** The label of a week of 2026 is the label of its number. *)
Lemma week_label_of_number (d : date) (w : week_info) :
  valid d = true -> year d = 2026 -> get_week_info d = Ok w ->
  1 <= wi_week_num w <= 53 /\ wi_label w = week_label_2026 (wi_week_num w) /\
  wi_start w = fromordinal (monday_of_week_2026 (wi_week_num w)) /\
  wi_end w = fromordinal (monday_of_week_2026 (wi_week_num w) + 6).
Proof.
  intros Hv Hy Hw.
  pose proof (every_day_of_2026_spec _ d week_info_check_2026 Hv Hy) as Hc.
  unfold week_info_check in Hc. rewrite Hw in Hc.
  repeat (apply andb_prop in Hc; destruct Hc as [Hc ?]).
  repeat match goal with
         | H : bool_decide _ = true |- _ => apply bool_decide_eq_true in H
         | H : (_ =? _)%string = true |- _ => apply String.eqb_eq in H
         end.
  repeat split; try assumption; lia.
Qed.

(** X5: among the dates of 2026 the week number decides the week: two
    dates have the same week number exactly when they have the same
    label, and then the same Monday and Sunday. *)
Theorem week_number_decides_week (d1 d2 : date) (w1 w2 : week_info) :
  valid d1 = true -> year d1 = 2026 -> get_week_info d1 = Ok w1 ->
  valid d2 = true -> year d2 = 2026 -> get_week_info d2 = Ok w2 ->
  (wi_week_num w1 = wi_week_num w2 <-> wi_label w1 = wi_label w2) /\
  (wi_week_num w1 = wi_week_num w2 ->
   wi_start w1 = wi_start w2 /\ wi_end w1 = wi_end w2).
Proof.
  intros Hv1 Hy1 Hw1 Hv2 Hy2 Hw2.
  destruct (week_label_of_number d1 w1 Hv1 Hy1 Hw1) as (Hn1 & Hl1 & Hs1 & He1).
  destruct (week_label_of_number d2 w2 Hv2 Hy2 Hw2) as (Hn2 & Hl2 & Hs2 & He2).
  split; [split|].
  - intros Heq. now rewrite Hl1, Hl2, Heq.
  - intros Heq. rewrite Hl1, Hl2 in Heq.
    pose proof labels_distinct_2026_holds as Hd. unfold labels_distinct_2026 in Hd.
    apply (forallb_seqZ _ 1 53 (wi_week_num w1)) in Hd; [|lia]. cbv beta in Hd.
    apply (forallb_seqZ _ 1 53 (wi_week_num w2)) in Hd; [|lia]. cbv beta in Hd.
    apply orb_prop in Hd as [Hd|Hd]; [lia|].
    rewrite Heq, String.eqb_refl in Hd. discriminate.
  - intros Heq. now rewrite Hs1, Hs2, He1, He2, Heq.
Qed.

Lemma week_number_decides_week_witness :
  exists w1 w2,
    get_week_info (mkdate 2026 1 1) = Ok w1 /\
    get_week_info (mkdate 2026 1 4) = Ok w2 /\
    (wi_week_num w1 = wi_week_num w2 <-> wi_label w1 = wi_label w2) /\
    (wi_week_num w1 = wi_week_num w2 ->
     wi_start w1 = wi_start w2 /\ wi_end w1 = wi_end w2).
Proof.
  destruct (get_week_info (mkdate 2026 1 1)) as [w1|] eqn:E1; [|discriminate E1].
  destruct (get_week_info (mkdate 2026 1 4)) as [w2|] eqn:E2; [|discriminate E2].
  exists w1, w2. split; [reflexivity|]. split; [reflexivity|].
  apply (week_number_decides_week (mkdate 2026 1 1) (mkdate 2026 1 4));
    (reflexivity || assumption).
Defined.
End WeekFacts.

(** ** The totals of the weekly-detail tab *)

Section TotalsFacts.
Import Py Cal Report Scenario Terms.

Lemma od_upd_absent {K V : Type} `{EqDecision K} (k : K) (f : V -> V)
    (dflt : V) (d : list (K * V)) :
  od_get k d = None -> od_upd k f dflt d = (d ++ [(k, f dflt)])%list.
Proof.
  induction d as [|[k' v] d IH]; cbn [od_get od_upd app]; [reflexivity|].
  destruct (decide (k = k')); [discriminate|]. intros H. now rewrite IH.
Qed.

Lemma od_get_keys_values {K V : Type} `{EqDecision K} (d : list (K * V)) :
  NoDup (od_keys d) ->
  map (fun k => od_get k d) (od_keys d) = map (fun e => Some (snd e)) d.
Proof.
  unfold od_keys. induction d as [|[k v] d IH]; cbn [map fst snd od_get];
    intros Hnd; [reflexivity|].
  apply NoDup_cons in Hnd as [Hnin Hnd].
  destruct (decide (k = k)); [|congruence]. f_equal.
  rewrite <- IH by exact Hnd. apply map_ext_in. intros j Hj.
  destruct (decide (j = k)) as [->|]; [|reflexivity].
  exfalso. apply Hnin, list_elem_of_In, Hj.
Qed.

Lemma map_get_keys {K V B : Type} `{EqDecision K} (g : option V -> B)
    (d : list (K * V)) :
  NoDup (od_keys d) ->
  map (fun k => g (od_get k d)) (od_keys d) = map (fun e => g (Some (snd e))) d.
Proof.
  intros Hnd.
  transitivity (map g (map (fun k => od_get k d) (od_keys d)));
    [symmetry; apply map_map|].
  rewrite od_get_keys_values by exact Hnd. apply map_map.
Qed.

(** The totals after the campaign loop of one week. *)
Lemma campaign_rows_totals (camps : list (string * agg)) (names : list string) :
  forall rows0 t0 rows1 t1,
  foldM (campaign_row_step camps) names (rows0, t0) = Ok (rows1, t1) ->
  Forall (fun n => is_Some (od_get n camps)) names /\
  t1 = agg_add t0
         (agg_sum (map (fun n => unsuppressed (default agg0 (od_get n camps)))
                       names)).
Proof.
  induction names as [|name names IH]; intros rows0 t0 rows1 t1 H;
    cbn [foldM] in H.
  - injection H as <- <-. cbn [map]. rewrite agg_sum_nil, agg_add_0_r.
    split; [constructor | reflexivity].
  - apply bind_ok_inv in H as ([rows' t'] & Hstep & Hrest).
    apply IH in Hrest as [Hall ->].
    unfold campaign_row_step in Hstep. cbn [map]. rewrite agg_sum_cons.
    destruct (od_get name camps) as [stats|] eqn:Hget; [|discriminate].
    split; [constructor; [eauto | exact Hall]|].
    change (unsuppressed (default agg0 (Some stats)))
      with (if suppressed stats then agg0 else stats).
    destruct (suppressed stats).
    + injection Hstep as <- <-. now rewrite agg_add_0_l.
    + apply bind_ok_inv in Hstep as (row & _ & Hst).
      injection Hst as <- <-. now rewrite agg_add_assoc.
Qed.

Lemma week_totals_shown (camps : list (string * agg))
    (rows0 rows1 : list (list string)) (t1 : agg) :
  NoDup (od_keys camps) ->
  week_campaign_rows camps rows0 = Ok (rows1, t1) ->
  t1 = shown_total (od_values camps).
Proof.
  intros Hnd H. unfold week_campaign_rows in H.
  apply campaign_rows_totals in H as [_ ->]. rewrite agg_add_0_l.
  unfold shown_total, od_values.
  rewrite (agg_sum_perm _
             (map (fun n => unsuppressed (default agg0 (od_get n camps)))
                  (od_keys camps))).
  2:{ apply Permutation_map, sorted_perm. }
  f_equal.
  rewrite (map_get_keys (fun o => unsuppressed (default agg0 o)) camps Hnd).
  now rewrite map_map.
Qed.

(** The grand totals after the loop over the weeks. *)
Lemma week_blocks_totals (weeks : list (Z * (string * list (string * agg))))
    (nums : list Z) :
  weeks_ok weeks ->
  forall rows0 g0 rows1 g1,
  foldM (week_step weeks) nums (rows0, g0) = Ok (rows1, g1) ->
  g1 = agg_add g0
         (agg_sum (map (fun n =>
            match od_get n weeks with
            | Some w => shown_total (od_values (snd w))
            | None => agg0
            end) nums)).
Proof.
  intros [_ Hcamps].
  induction nums as [|n nums IH]; intros rows0 g0 rows1 g1 H; cbn [foldM] in H.
  - injection H as <- <-. cbn [map]. now rewrite agg_sum_nil, agg_add_0_r.
  - apply bind_ok_inv in H as ([rows' g'] & Hstep & Hrest).
    apply IH in Hrest as ->. unfold week_step in Hstep.
    cbn [map]. rewrite agg_sum_cons.
    destruct (od_get n weeks) as [week|] eqn:Hweek; [|discriminate].
    apply bind_ok_inv in Hstep as ([crows wt] & Hc & Hstep).
    apply bind_ok_inv in Hstep as (total_row & _ & Hstep).
    injection Hstep as <- <-.
    apply week_totals_shown in Hc as ->.
    + now rewrite agg_add_assoc.
    + apply od_get_Some_In in Hweek. rewrite List.Forall_forall in Hcamps.
      apply (Hcamps _ Hweek).
Qed.

Lemma grand_totals_of_weeks (weeks : list (Z * (string * list (string * agg))))
    (rows0 rows1 : list (list string)) (g1 : agg) :
  weeks_ok weeks ->
  foldM (week_step weeks) (sorted Z.leb (od_keys weeks)) (rows0, agg0)
    = Ok (rows1, g1) ->
  g1 = weeks_total unsuppressed weeks.
Proof.
  intros Hok H. pose proof Hok as [Hnd _].
  apply (week_blocks_totals weeks _ Hok) in H as ->. rewrite agg_add_0_l.
  rewrite (agg_sum_perm _
             (map (fun n => match od_get n weeks with
                            | Some w => shown_total (od_values (snd w))
                            | None => agg0
                            end) (od_keys weeks))).
  2:{ apply Permutation_map, sorted_perm. }
  unfold weeks_total. f_equal.
  rewrite (map_get_keys (fun o => match o with
                                  | Some w => shown_total (od_values (snd w))
                                  | None => agg0
                                  end) weeks Hnd).
  apply map_ext. intros [n [l camps]]. cbn [snd].
  unfold shown_total, od_values. now rewrite map_map.
Qed.

(** Filing a bucket under its week adds its measure to the grouping, when
    the campaign is new in that week. *)
Lemma group_step_total (mu : agg -> agg)
    (weeks : list (Z * (string * list (string * agg))))
    (n : Z) (l c : string) (st : agg) :
  (forall w, od_get n weeks = Some w -> od_get c (snd w) = None) ->
  weeks_total mu (group_step weeks (n, l, c, st)) =
  agg_add (weeks_total mu weeks) (mu st).
Proof.
  intros Hfresh. unfold weeks_total, group_step.
  induction weeks as [|[n' w] weeks IH]; cbn [od_upd map snd fst].
  - unfold od_set. cbn [od_upd map snd].
    now rewrite !agg_sum_cons, !agg_sum_nil, !agg_add_0_r, agg_add_0_l.
  - destruct (decide (n = n')) as [->|Hne]; cbn [map snd]; rewrite !agg_sum_cons.
    + assert (Hc : od_get c (snd w) = None).
      { apply Hfresh. cbn [od_get]. destruct (decide (n' = n')); congruence. }
      unfold od_set. rewrite od_upd_absent by exact Hc.
      rewrite map_app, agg_sum_app. cbn [map snd].
      rewrite agg_sum_cons, agg_sum_nil, agg_add_0_r.
      rewrite <- !agg_add_assoc. f_equal. apply agg_add_comm.
    + rewrite IH; [apply agg_add_assoc|].
      intros w' Hw'. apply Hfresh. cbn [od_get].
      destruct (decide (n = n')); [contradiction | exact Hw'].
Qed.

Lemma group_step_grouped (done : list (Z * string * string))
    (weeks : list (Z * (string * list (string * agg))))
    (n : Z) (l c : string) (st : agg) :
  grouped_from done weeks ->
  grouped_from (done ++ [(n, l, c)]) (group_step weeks (n, l, c, st)).
Proof.
  intros Hg n' w' c' Hget Hin. unfold group_step in Hget.
  destruct (decide (n' = n)) as [->|Hne].
  - rewrite od_get_upd_eq in Hget. injection Hget as <-. cbn [snd] in Hin.
    unfold od_set in Hin. rewrite od_keys_upd in Hin.
    assert (Hcases : In c' (od_keys (snd (default (l, []) (od_get n weeks))))
                     \/ c' = c).
    { destruct (od_get c (snd (default (l, []) (od_get n weeks))));
        [now left|].
      apply in_app_or in Hin as [Hin|[<-|[]]]; auto. }
    destruct Hcases as [Hold| ->].
    + destruct (od_get n weeks) as [w|] eqn:Hw; [|destruct Hold].
      destruct (Hg n w c' Hw Hold) as [l' Hl']. exists l'.
      apply in_or_app. now left.
    + exists l. apply in_or_app. right. now left.
  - rewrite od_get_upd_ne in Hget by exact Hne.
    destruct (Hg n' w' c' Hget Hin) as [l' Hl']. exists l'.
    apply in_or_app. now left.
Qed.

Lemma group_weeks_total (mu : agg -> agg)
    (wk : list (Z * string * string * agg)) :
  forall (weeks : list (Z * (string * list (string * agg))))
         (done : list (Z * string * string)),
  grouped_from done weeks ->
  NoDup (done ++ od_keys wk) ->
  labels_by_number (done ++ od_keys wk) ->
  weeks_total mu (fold_left group_step wk weeks) =
  agg_add (weeks_total mu weeks) (agg_sum (map (fun e => mu (snd e)) wk)).
Proof.
  induction wk as [|[[[n l] c] st] wk IH]; intros weeks done Hg Hnd Hlab;
    cbn [fold_left map snd].
  - now rewrite agg_sum_nil, agg_add_0_r.
  - unfold od_keys in *. cbn [map fst] in Hnd, Hlab.
    rewrite (IH _ (done ++ [(n, l, c)])%list).
    + rewrite group_step_total.
      * now rewrite agg_sum_cons, agg_add_assoc.
      * intros w Hw. destruct (od_get c (snd w)) eqn:Hc; [|reflexivity].
        exfalso.
        assert (Hin : In c (od_keys (snd w))).
        { apply od_get_Some_In in Hc. apply (in_map fst) in Hc. exact Hc. }
        destruct (Hg n w c Hw Hin) as [l' Hl'].
        assert (l' = l) as ->.
        { apply (Hlab n l' l c c).
          - apply in_or_app. now left.
          - apply in_or_app. right. now left. }
        apply NoDup_app in Hnd as (_ & Hdisj & _).
        apply (Hdisj (n, l, c)); [apply list_elem_of_In, Hl'|].
        apply list_elem_of_In. now left.
    + now apply group_step_grouped.
    + now rewrite <- app_assoc.
    + now rewrite <- app_assoc.
Qed.

Lemma weekly_step_keys (name : string)
    (wk wk' : list (Z * string * string * agg)) (d : day_record) :
  weekly_keys_ok wk -> weekly_step name wk d = Ok wk' -> weekly_keys_ok wk'.
Proof.
  intros [Hnd Hlab] H. unfold weekly_step in H.
  destruct (truthy_str (d_date d)); [|injection H as <-; now split].
  apply bind_ok_inv in H as (dd & Hp & H).
  destruct (year dd =? target_year) eqn:Ey; cbn [negb] in H;
    [|injection H as <-; now split].
  apply Z.eqb_eq in Ey. apply bind_ok_inv in H as (w & Hw & H).
  injection H as <-. split; [now apply od_keys_upd_NoDup|].
  rewrite od_keys_upd.
  destruct (od_get (wi_week_num w, wi_label w, name) wk); [exact Hlab|].
  apply Forall_app. split; [exact Hlab|]. constructor; [|constructor].
  cbn [fst snd].
  apply (week_label_of_number dd w (strptime_ymd_valid _ _ Hp) Ey Hw).
Qed.

Lemma weekly_aggregate_keys (dt : data)
    (wk : list (Z * string * string * agg)) :
  weekly_aggregate dt = Ok wk -> weekly_keys_ok wk.
Proof.
  unfold weekly_aggregate. intros H.
  apply (foldM_invariant weekly_keys_ok _ _ _ _) in H; [exact H | |].
  - intros st camp st' _ Hst Hin.
    apply (foldM_invariant weekly_keys_ok _ _ _ _) in Hin; [exact Hin | |exact Hst].
    intros st1 d st2 _. apply weekly_step_keys.
  - split; constructor.
Qed.

(** A suppressed bucket has no sent, replies or opportunities to lose. *)
Lemma unsuppressed_three (a : agg) :
  sent (unsuppressed a) = sent a /\ replies (unsuppressed a) = replies a /\
  opportunities (unsuppressed a) = opportunities a.
Proof.
  unfold unsuppressed, suppressed.
  destruct ((sent a =? 0) && (replies a =? 0) && (opportunities a =? 0)) eqn:E;
    [|repeat split].
  apply andb_prop in E as [E E3]. apply andb_prop in E as [E1 E2].
  cbn [agg0 sent replies opportunities]. lia.
Qed.

Lemma shown_total_three (l : list agg) :
  sent (shown_total l) = sent (agg_sum l) /\
  replies (shown_total l) = replies (agg_sum l) /\
  opportunities (shown_total l) = opportunities (agg_sum l).
Proof.
  unfold shown_total. induction l as [|a l (IH1 & IH2 & IH3)]; [repeat split|].
  cbn [map]. rewrite !agg_sum_cons.
  destruct (unsuppressed_three a) as (H1 & H2 & H3).
  cbn [agg_add sent replies opportunities]. lia.
Qed.

(** X6: on the buckets of a weekly aggregation, the grand totals of the
    weekly-detail tab are the sum of the buckets that are not suppressed;
    hence their sent, replies and opportunities are the sums over all
    buckets, and the GRAND TOTAL row is the last row and renders these
    totals. *)
Theorem grand_totals_ledger (dt : data)
    (wk : list (Z * string * string * agg))
    (rows : list (list string)) (grand_totals : agg) :
  weekly_aggregate dt = Ok wk ->
  campaigns_rows_of wk = Ok (rows, grand_totals) ->
  grand_totals = shown_total (od_values wk) /\
  sent grand_totals = sent (agg_sum (od_values wk)) /\
  replies grand_totals = replies (agg_sum (od_values wk)) /\
  opportunities grand_totals = opportunities (agg_sum (od_values wk)) /\
  exists body grand_row,
    rows = (body ++ [grand_row])%list /\
    stat_row "GRAND TOTAL (YTD)" "" grand_totals = Ok grand_row /\
    nth 2 grand_row "" = fmt_commas (sent (agg_sum (od_values wk))).
Proof.
  intros Hwk Hrows.
  apply weekly_aggregate_keys in Hwk as [Hnd Hlab].
  unfold campaigns_rows_of in Hrows.
  apply bind_ok_inv in Hrows as ([rows1 g1] & Hloop & Hrows).
  apply bind_ok_inv in Hrows as (grand_row & Hgrand & Hrows).
  injection Hrows as <- <-.
  apply grand_totals_of_weeks in Hloop; [|apply group_weeks_ok].
  assert (Hg : g1 = shown_total (od_values wk)).
  { rewrite Hloop. unfold group_weeks.
    rewrite (group_weeks_total unsuppressed wk [] []).
    - change (weeks_total unsuppressed []) with agg0. rewrite agg_add_0_l.
      unfold shown_total, od_values. now rewrite map_map.
    - intros n w c Hget. discriminate Hget.
    - exact Hnd.
    - intros n l l' c c' H1 H2. cbn [app] in H1, H2.
      rewrite List.Forall_forall in Hlab.
      apply Hlab in H1, H2. cbn [fst snd] in H1, H2. congruence. }
  pose proof (shown_total_three (od_values wk)) as Hthree.
  destruct Hthree as (H1 & H2 & H3). clear Hloop. subst g1.
  repeat split; auto.
  exists rows1, grand_row. split; [reflexivity|]. split; [exact Hgrand|].
  unfold stat_row in Hgrand.
  apply bind_ok_inv in Hgrand as (x1 & _ & Hgrand).
  apply bind_ok_inv in Hgrand as (x2 & _ & Hgrand).
  apply bind_ok_inv in Hgrand as (x3 & _ & Hgrand).
  apply bind_ok_inv in Hgrand as (x4 & _ & Hgrand).
  injection Hgrand as <-. cbn [nth]. now rewrite H1.
Qed.

Lemma grand_totals_ledger_witness :
  exists wk rows g,
    weekly_aggregate quiet_leads = Ok wk /\
    campaigns_rows_of wk = Ok (rows, g) /\
    g = shown_total (od_values wk) /\
    sent g = sent (agg_sum (od_values wk)).
Proof.
  destruct (weekly_aggregate quiet_leads) as [wk|] eqn:Hwk; [|discriminate Hwk].
  destruct (campaigns_rows_of wk) as [[rows g]|] eqn:Hrows.
  2:{ vm_compute in Hwk. injection Hwk as <-. vm_compute in Hrows. discriminate Hrows. }
  exists wk, rows, g. split; [reflexivity|]. split; [exact Hrows|].
  destruct (grand_totals_ledger quiet_leads wk rows g Hwk Hrows) as (H1 & H2 & _).
  split; assumption.
Defined.
End TotalsFacts.

(** ** The tables are rectangular *)

Section WidthFacts.
Import Py Cal Report Scenario Terms.

Lemma stat_row_width (a b : string) (stats : agg) (r : list string) :
  stat_row a b stats = Ok r -> length r = 8%nat.
Proof.
  unfold stat_row. intros H.
  apply bind_ok_inv in H as (x1 & _ & H).
  apply bind_ok_inv in H as (x2 & _ & H).
  apply bind_ok_inv in H as (x3 & _ & H).
  apply bind_ok_inv in H as (x4 & _ & H).
  now injection H as <-.
Qed.

Lemma campaign_row_step_width (camps : list (string * agg))
    (st st' : list (list string) * agg) (name : string) :
  Forall (fun r => length r = 8%nat) (fst st) ->
  campaign_row_step camps st name = Ok st' ->
  Forall (fun r => length r = 8%nat) (fst st').
Proof.
  destruct st as [rows t]. unfold campaign_row_step. cbn [fst]. intros Hw H.
  destruct (od_get name camps) as [stats|]; [|discriminate].
  destruct (suppressed stats); [injection H as <-; exact Hw|].
  apply bind_ok_inv in H as (row & Hrow & H). injection H as <-. cbn [fst].
  apply Forall_app. split; [exact Hw|].
  constructor; [|constructor]. eapply stat_row_width, Hrow.
Qed.

Lemma week_step_width (weeks : list (Z * (string * list (string * agg))))
    (st st' : list (list string) * agg) (n : Z) :
  Forall (fun r => length r = 8%nat) (fst st) ->
  week_step weeks st n = Ok st' ->
  Forall (fun r => length r = 8%nat) (fst st').
Proof.
  destruct st as [rows g]. unfold week_step. cbn [fst]. intros Hw H.
  destruct (od_get n weeks) as [week|]; [|discriminate].
  apply bind_ok_inv in H as ([crows wt] & Hc & H).
  apply bind_ok_inv in H as (total_row & Htot & H).
  injection H as <-. cbn [fst].
  unfold week_campaign_rows in Hc.
  apply (foldM_invariant (fun s => Forall (fun r => length r = 8%nat) (fst s))
           _ _ _ _) in Hc.
  - cbn [fst] in Hc. apply Forall_app. split; [exact Hc|].
    constructor; [eapply stat_row_width, Htot|].
    constructor; [reflexivity | constructor].
  - intros s x s' _. apply campaign_row_step_width.
  - cbn [fst]. apply Forall_app. split; [exact Hw|].
    constructor; [reflexivity | constructor].
Qed.

Lemma month_row_width (stats : list (string * agg)) (m : string)
    (r : list string) :
  month_row stats m = Ok r -> length r = 6%nat.
Proof.
  unfold month_row. destruct (od_get m stats); [|discriminate]. intros H.
  apply bind_ok_inv in H as (d & _ & H).
  apply bind_ok_inv in H as (e & _ & H).
  apply bind_ok_inv in H as (es & _ & H).
  now injection H as <-.
Qed.

Lemma mapM_Forall {A B : Type} (f : A -> result B) (P : B -> Prop)
    (l : list A) (rs : list B) :
  (forall x r, f x = Ok r -> P r) -> mapM f l = Ok rs -> Forall P rs.
Proof.
  intros Hf H. apply mapM_Forall2 in H.
  induction H as [|x r l rs Hr _ IH]; constructor; eauto.
Qed.

Lemma year_section_width (y : Z) (title : string) (with_spacer : bool)
    (year_data : list (Z * list (string * agg))) (rows : list (list string)) :
  year_section y title with_spacer year_data = Ok rows ->
  Forall (fun r => length r = 6%nat) rows.
Proof.
  unfold year_section.
  destruct (default [] (od_get y year_data)) as [|e stats] eqn:Hs.
  - intros H. injection H as <-. constructor.
  - intros H. apply bind_ok_inv in H as (mrows & Hrows & H). injection H as <-.
    apply (mapM_Forall _ (fun r => length r = 6%nat)) in Hrows;
      [|intros x r; apply month_row_width].
    repeat (constructor; [reflexivity|]).
    apply Forall_app. split; [exact Hrows|].
    destruct with_spacer; repeat constructor.
Qed.

Lemma agent_row_width (e : string * agent) (r : list string) :
  agent_row e = Ok r -> length r = 5%nat.
Proof.
  unfold agent_row. intros H.
  apply bind_ok_inv in H as (a1 & _ & H).
  apply bind_ok_inv in H as (a2 & _ & H).
  now injection H as <-.
Qed.

(** X7: every table that is built is rectangular: six cells in each row
    of the Master Dashboard, eight in each row of the weekly-detail tab,
    five in each row of the Agents tab. *)
Theorem tables_are_rectangular (dt : data) :
  (forall rows, create_master_dashboard_rows dt = Ok rows ->
                Forall (fun r => length r = 6%nat) rows) /\
  (forall rows, create_campaigns_tab_rows dt = Ok rows ->
                Forall (fun r => length r = 8%nat) rows) /\
  (forall rows, create_agents_tab_rows dt = Ok rows ->
                Forall (fun r => length r = 5%nat) rows /\
                length rows = (length (agent_data_of dt) + 2)%nat).
Proof.
  split; [|split].
  - intros rows H. unfold create_master_dashboard_rows in H.
    apply bind_ok_inv in H as ([yd tot] & _ & H).
    apply bind_ok_inv in H as (s26 & H26 & H).
    apply bind_ok_inv in H as (s25 & H25 & H).
    injection H as <-.
    apply year_section_width in H26, H25.
    repeat (constructor; [reflexivity|]).
    apply Forall_app. split; assumption.
  - intros rows H. unfold create_campaigns_tab_rows in H.
    apply bind_ok_inv in H as (wk & _ & H).
    apply bind_ok_inv in H as ([rows' g] & Hrows & H).
    injection H as <-. unfold campaigns_rows_of in Hrows.
    apply bind_ok_inv in Hrows as ([rows1 g1] & Hloop & Hrows).
    apply bind_ok_inv in Hrows as (grand_row & Hgrand & Hrows).
    injection Hrows as <- <-.
    apply (foldM_invariant (fun s => Forall (fun r => length r = 8%nat) (fst s))
             _ _ _ _) in Hloop.
    + cbn [fst] in Hloop. apply Forall_app. split; [exact Hloop|].
      constructor; [eapply stat_row_width, Hgrand | constructor].
    + intros s x s' _. apply week_step_width.
    + cbn [fst]. constructor; [reflexivity | constructor].
  - intros rows H. unfold create_agents_tab_rows in H.
    apply bind_ok_inv in H as (arows & Hrows & H). injection H as <-.
    split.
    + apply (mapM_Forall _ (fun r => length r = 5%nat)) in Hrows;
        [|intros x r; apply agent_row_width].
      constructor; [reflexivity|].
      apply Forall_app. split; [exact Hrows|]. repeat constructor.
    + apply mapM_Forall2, Forall2_length in Hrows.
      rewrite sorted_length in Hrows.
      cbn [length app]. rewrite length_app. cbn [length]. lia.
Qed.

Lemma tables_are_rectangular_witness :
  Forall (fun r => length r = 8%nat) acme_rows.
Proof.
  apply (proj1 (proj2 (tables_are_rectangular acme))).
  vm_compute. reflexivity.
Defined.
End WidthFacts.

(** ** The Agents tab *)

Section RosterFacts.
Import Py Report Scenario Terms Roster.

Lemma truthy_nonempty (email : string) :
  email <> "" -> truthy_str (Some email) = true.
Proof. destruct email; [congruence | reflexivity]. Qed.

Lemma truthy_some (o : option string) :
  truthy_str o = true -> exists e, o = Some e /\ e <> "".
Proof.
  destruct o as [[|a e]|]; try discriminate. intros _. eexists.
  split; [reflexivity | discriminate].
Qed.

Lemma agent_step_get (email : string) (ad : list (string * agent))
    (s : day_stat) :
  email <> "" ->
  od_get email (agent_step ad s) =
  if stat_for email s then
    Some (mkagent (total_sent (default agent0 (od_get email ad)) + default 0 (s_sent s))
                  (active_days (default agent0 (od_get email ad))
                   + (if 0 <? default 0 (s_sent s) then 1 else 0)))
  else od_get email ad.
Proof.
  intros Hne. unfold agent_step, stat_for.
  destruct (decide (s_email_account s = Some email)) as [He|He].
  - rewrite bool_decide_eq_true_2 by exact He.
    rewrite He, truthy_nonempty by exact Hne. cbn [from_option id].
    rewrite od_get_upd_eq. unfold id.
    match goal with |- context [0 <? ?x] => destruct (0 <? x) end;
      do 2 f_equal; lia.
  - rewrite bool_decide_eq_false_2 by exact He.
    destruct (truthy_str (s_email_account s)) eqn:Ht; [|reflexivity].
    apply truthy_some in Ht as (e & Hs & _). rewrite Hs. cbn [from_option id].
    apply od_get_upd_ne. congruence.
Qed.

Lemma analytics_fold_get (email : string) (l : list day_stat) :
  email <> "" ->
  forall ad,
  od_get email (fold_left agent_step l ad) =
  match od_get email ad with
  | Some a => Some (mkagent (total_sent a + sent_of email l)
                            (active_days a + active_of email l))
  | None => if in_analytics email l
            then Some (mkagent (sent_of email l) (active_of email l))
            else None
  end.
Proof.
  intros Hne. unfold sent_of, active_of, in_analytics, zsum.
  induction l as [|s l IH]; intros ad; cbn [fold_left List.filter existsb].
  - cbn. destruct (od_get email ad) as [[t a]|]; [|reflexivity].
    cbn. do 2 f_equal; lia.
  - rewrite IH, agent_step_get by exact Hne.
    destruct (stat_for email s) eqn:Hs; cbn [andb orb].
    + destruct (0 <? default 0 (s_sent s)).
      all: destruct (od_get email ad) as [[t a]|].
      all: cbn [from_option id total_sent active_days map length fold_right agent0].
      all: f_equal.
      all: f_equal.
      all: lia.
    + reflexivity.
Qed.

Lemma roster_step_get (email : string) (ad : list (string * agent))
    (a : account) :
  email <> "" ->
  od_get email (roster_step ad a) =
  match od_get email ad with
  | Some x => Some x
  | None => if bool_decide (a_email a = Some email) then Some agent0 else None
  end.
Proof.
  intros Hne. unfold roster_step.
  destruct (decide (a_email a = Some email)) as [He|He].
  - rewrite bool_decide_eq_true_2 by exact He.
    rewrite He, truthy_nonempty by exact Hne. cbn [from_option id].
    destruct (od_get email ad) eqn:Hg; [now rewrite Hg|].
    unfold od_set. rewrite od_get_upd_eq. reflexivity.
  - rewrite bool_decide_eq_false_2 by exact He.
    destruct (truthy_str (a_email a)) eqn:Ht;
      [|destruct (od_get email ad); reflexivity].
    apply truthy_some in Ht as (e & Hs & _). rewrite Hs. cbn [from_option id].
    destruct (od_get e ad); [destruct (od_get email ad); reflexivity|].
    unfold od_set. rewrite od_get_upd_ne by congruence.
    destruct (od_get email ad); reflexivity.
Qed.

Lemma roster_fold_get (email : string) (accs : list account) :
  email <> "" ->
  forall ad,
  od_get email (fold_left roster_step accs ad) =
  match od_get email ad with
  | Some x => Some x
  | None => if in_roster email accs then Some agent0 else None
  end.
Proof.
  intros Hne. unfold in_roster.
  induction accs as [|a accs IH]; intros ad; cbn [fold_left existsb].
  - destruct (od_get email ad); reflexivity.
  - rewrite IH, roster_step_get by exact Hne.
    destruct (od_get email ad); [reflexivity|].
    destruct (bool_decide (a_email a = Some email)); reflexivity.
Qed.

Lemma agent_data_keys (dt : data) : keys_ok (agent_data_of dt).
Proof.
  unfold agent_data_of.
  assert (H0 : keys_ok []) by (split; [constructor | intros []]).
  assert (H1 : keys_ok (fold_left agent_step (default [] (account_analytics dt)) [])).
  { revert H0. generalize (@nil (string * agent)).
    induction (default [] (account_analytics dt)) as [|s l IH]; intros ad Hk;
      cbn [fold_left]; [exact Hk|].
    apply IH. unfold agent_step.
    destruct (truthy_str (s_email_account s)) eqn:Ht; [|exact Hk].
    apply truthy_some in Ht as (e & -> & He). cbn [from_option id].
    destruct Hk as [Hnd Hne]. split; [now apply od_keys_upd_NoDup|].
    rewrite od_keys_upd. destruct (od_get e ad); [exact Hne|].
    intros Hin. apply in_app_or in Hin as [Hin|[Hin|[]]]; [tauto | congruence]. }
  revert H1. generalize (fold_left agent_step (default [] (account_analytics dt)) []).
  induction (accounts dt) as [|a l IH]; intros ad Hk; cbn [fold_left]; [exact Hk|].
  apply IH. unfold roster_step.
  destruct (truthy_str (a_email a)) eqn:Ht; [|exact Hk].
  apply truthy_some in Ht as (e & -> & He). cbn [from_option id].
  destruct (od_get e ad) eqn:Hg; [exact Hk|].
  destruct Hk as [Hnd Hne]. unfold od_set. split; [now apply od_keys_upd_NoDup|].
  rewrite od_keys_upd, Hg.
  intros Hin. apply in_app_or in Hin as [Hin|[Hin|[]]]; [tauto | congruence].
Qed.

Lemma agent_data_get (dt : data) (email : string) :
  email <> "" ->
  od_get email (agent_data_of dt) =
  if in_analytics email (analytics dt)
  then Some (mkagent (sent_of email (analytics dt))
                     (active_of email (analytics dt)))
  else if in_roster email (accounts dt) then Some agent0 else None.
Proof.
  intros He. unfold agent_data_of.
  rewrite roster_fold_get, analytics_fold_get by exact He.
  cbn [od_get]. fold (analytics dt).
  destruct (in_analytics email (analytics dt)); reflexivity.
Qed.

(** X8: [agent_data] has one entry for each account that is named by an
    analytics record or listed in the roster, and no other; the entry of an
    account holds the sum of its sent counts and the number of its records
    with a positive count, and an account of the roster without analytics
    record has zero totals. No key is empty and no key occurs twice. *)
Theorem agent_data_ledger (dt : data) :
  NoDup (od_keys (agent_data_of dt)) /\
  od_get "" (agent_data_of dt) = None /\
  forall email, email <> "" ->
    od_get email (agent_data_of dt) =
    if in_analytics email (analytics dt)
    then Some (mkagent (sent_of email (analytics dt))
                       (active_of email (analytics dt)))
    else if in_roster email (accounts dt) then Some agent0 else None.
Proof.
  destruct (agent_data_keys dt) as [Hnd Hne].
  split; [exact Hnd|]. split; [now apply od_get_None_keys|].
  intros email He. now apply agent_data_get.
Qed.

Lemma agent_data_ledger_witness :
  od_get "a@x.com"
    (agent_data_of (mkdata [] [] [mkaccount (Some "a@x.com")]
                           (Some [mkday_stat (Some "b@x.com") (Some 7)])))
  = Some agent0.
Proof.
  rewrite (proj2 (proj2 (agent_data_ledger
             (mkdata [] [] [mkaccount (Some "a@x.com")]
                     (Some [mkday_stat (Some "b@x.com") (Some 7)])))) "a@x.com")
    by discriminate.
  reflexivity.
Defined.

Lemma zsum_perm (l1 l2 : list Z) : Permutation l1 l2 -> zsum l1 = zsum l2.
Proof.
  unfold zsum.
  induction 1 as [|x l1 l2 _ IH|x y l|l1 l2 l3 _ IH1 _ IH2];
    cbn [fold_right]; lia.
Qed.

Lemma filter_length_perm {A : Type} (f : A -> bool) (l1 l2 : list A) :
  Permutation l1 l2 ->
  length (List.filter f l1) = length (List.filter f l2).
Proof.
  induction 1 as [|x l1 l2 _ IH|x y l|l1 l2 l3 _ IH1 _ IH2];
    cbn [List.filter]; try lia.
  - destruct (f x); cbn [length]; lia.
  - destruct (f x), (f y); reflexivity.
Qed.

Lemma fold_left_total (l : list (string * agent)) (t0 : Z) :
  fold_left (fun t e => t + total_sent (snd e)) l t0 =
  t0 + zsum (map (fun e => total_sent (snd e)) l).
Proof.
  unfold zsum. revert t0. induction l as [|e l IH]; intros t0;
    cbn [fold_left map fold_right]; [lia|]. rewrite IH. lia.
Qed.

Lemma fold_left_active (l : list (string * agent)) (n0 : Z) :
  fold_left (fun n e => if 0 <? total_sent (snd e) then n + 1 else n) l n0 =
  n0 + active_agents l.
Proof.
  unfold active_agents. revert n0. induction l as [|e l IH]; intros n0;
    cbn [fold_left List.filter]; [cbn; lia|]. rewrite IH.
  destruct (0 <? total_sent (snd e)); cbn [length]; lia.
Qed.

(** An update that adds [x] to the total of one agent adds [x] to the sum
    of the totals. *)
Lemma zsum_upd (k : string) (f : agent -> agent) (x : Z)
    (ad : list (string * agent)) :
  (forall a, total_sent (f a) = total_sent a + x) ->
  zsum (map (fun e => total_sent (snd e)) (od_upd k f agent0 ad)) =
  zsum (map (fun e => total_sent (snd e)) ad) + x.
Proof.
  intros Hf. unfold zsum.
  induction ad as [|[k' v] ad IH]; cbn [od_upd map snd fold_right].
  - rewrite Hf. cbn. lia.
  - destruct (decide (k = k')); cbn [map snd fold_right]; [rewrite Hf|]; lia.
Qed.

Lemma agent_data_total (dt : data) :
  zsum (map (fun e => total_sent (snd e)) (agent_data_of dt)) =
  sent_by_accounts (analytics dt).
Proof.
  unfold agent_data_of, sent_by_accounts, analytics.
  assert (Hroster : forall accs ad,
    zsum (map (fun e => total_sent (snd e)) (fold_left roster_step accs ad)) =
    zsum (map (fun e => total_sent (snd e)) ad)).
  { induction accs as [|a accs IH]; intros ad; cbn [fold_left]; [reflexivity|].
    rewrite IH. unfold roster_step.
    destruct (truthy_str (a_email a)); [|reflexivity].
    destruct (od_get (default "" (a_email a)) ad) eqn:E; [reflexivity|].
    unfold od_set. rewrite (od_upd_absent _ _ _ _ E), map_app.
    unfold zsum. rewrite fold_right_app. cbn [map fold_right snd agent0 total_sent].
    reflexivity. }
  rewrite Hroster.
  assert (Hstats : forall l ad,
    zsum (map (fun e => total_sent (snd e)) (fold_left agent_step l ad)) =
    zsum (map (fun e => total_sent (snd e)) ad) +
    zsum (map (fun s => default 0 (s_sent s))
              (List.filter (fun s => truthy_str (s_email_account s)) l))).
  { induction l as [|s l IH]; intros ad; cbn [fold_left List.filter].
    - cbn. lia.
    - rewrite IH. unfold agent_step.
      destruct (truthy_str (s_email_account s)); [|lia].
      rewrite (zsum_upd _ _ (default 0 (s_sent s))) by reflexivity.
      unfold zsum. cbn [map fold_right]. lia. }
  rewrite Hstats. cbn. lia.
Qed.

(** X9: the last row of the Agents tab counts the agents of [agent_data],
    adds up the sent counts of every analytics record that names an
    account, and counts the agents with a positive total. *)
Theorem agents_total_row (dt : data) (rows : list (list string)) :
  create_agents_tab_rows dt = Ok rows ->
  List.last rows [] =
    ["TOTAL (" +:+ dec (Z.of_nat (length (agent_data_of dt))) +:+ " agents)";
     fmt_commas (sent_by_accounts (analytics dt)); "-"; "-";
     dec (active_agents (agent_data_of dt)) +:+ " Active"].
Proof.
  unfold create_agents_tab_rows. intros H.
  apply bind_ok_inv in H as (arows & _ & H). injection H as <-.
  rewrite app_comm_cons, List.last_last.
  rewrite fold_left_total, fold_left_active, !Z.add_0_l.
  rewrite (zsum_perm _ (map (fun e => total_sent (snd e)) (agent_data_of dt)))
    by (apply Permutation_map, sorted_perm).
  rewrite agent_data_total.
  unfold active_agents.
  rewrite (filter_length_perm _ _ (agent_data_of dt)) by apply sorted_perm.
  reflexivity.
Qed.

Lemma agents_total_row_witness :
  List.last
    [["Agent Email"; "Total Emails Sent"; "Active Days"; "Avg/Day"; "Status"];
     ["a@x.com"; "0"; "0"; "0"; "Inactive"];
     ["TOTAL (1 agents)"; "0"; "-"; "-"; "0 Active"]] []
  = ["TOTAL (1 agents)"; "0"; "-"; "-"; "0 Active"].
Proof.
  rewrite (agents_total_row
             (mkdata [] [] [mkaccount (Some "a@x.com")] (Some []))) by reflexivity.
  reflexivity.
Defined.

Lemma od_get_In_NoDup {K V : Type} `{EqDecision K} (k : K) (v : V)
    (d : list (K * V)) :
  NoDup (od_keys d) -> In (k, v) d -> od_get k d = Some v.
Proof.
  unfold od_keys. induction d as [|[k' v'] d IH]; cbn [map fst od_get In];
    intros Hnd Hin; [destruct Hin|].
  apply NoDup_cons in Hnd as [Hnin Hnd].
  destruct (decide (k = k')) as [->|Hne].
  - destruct Hin as [Heq|Hin]; [congruence|].
    exfalso. apply Hnin, list_elem_of_In. apply (in_map fst) in Hin. exact Hin.
  - destruct Hin as [Heq|Hin]; [congruence | now apply IH].
Qed.

Lemma sent_of_active_of (email : string) (l : list day_stat) :
  Forall (fun s => 0 <= default 0 (s_sent s)) l ->
  0 <= sent_of email l /\ 0 <= active_of email l /\
  (0 < sent_of email l <-> 0 < active_of email l).
Proof.
  unfold sent_of, active_of, zsum.
  induction 1 as [|s l Hs _ (IH1 & IH2 & IH3)]; cbn [List.filter];
    [cbn; lia|].
  destruct (stat_for email s); cbn [andb]; [|auto].
  destruct (0 <? default 0 (s_sent s)) eqn:E; cbn [map fold_right length]; lia.
Qed.

(** X10: when no analytics record has a negative sent count, every agent
    has non-negative totals, and has e-mails sent exactly when it has an
    active day: the status is Active exactly for the agents with an active
    day, and the zero of Avg/Day stands only for agents that sent nothing. *)
Theorem active_iff_sent (dt : data) (email : string) (a : agent) :
  Forall (fun s => 0 <= default 0 (s_sent s)) (analytics dt) ->
  In (email, a) (agent_data_of dt) ->
  0 <= total_sent a /\ 0 <= active_days a /\
  (0 < total_sent a <-> 0 < active_days a) /\
  (agent_status a = "Active" <-> 0 < active_days a) /\
  (active_days a = 0 -> total_sent a = 0).
Proof.
  intros Hpos Hin.
  destruct (agent_data_keys dt) as [Hnd Hempty].
  pose proof (od_get_In_NoDup email a _ Hnd Hin) as Ha.
  assert (Hne : email <> "").
  { intros ->. apply Hempty. apply (in_map fst) in Hin. exact Hin. }
  rewrite (agent_data_get dt email Hne) in Ha.
  destruct (sent_of_active_of email (analytics dt) Hpos) as (H1 & H2 & H3).
  assert (Hcore : 0 <= total_sent a /\ 0 <= active_days a /\
                  (0 < total_sent a <-> 0 < active_days a)).
  { destruct (in_analytics email (analytics dt)).
    - injection Ha as <-. cbn [total_sent active_days]. auto.
    - destruct (in_roster email (accounts dt)); [|discriminate].
      injection Ha as <-. cbn. lia. }
  destruct Hcore as (C1 & C2 & C3). repeat split; try assumption; try tauto.
  - unfold agent_status. destruct (0 <? total_sent a) eqn:E; [lia | discriminate].
  - unfold agent_status. destruct (0 <? total_sent a) eqn:E; [reflexivity | lia].
  - lia.
Qed.

Lemma active_iff_sent_witness :
  0 <= 7 /\ 0 <= 1 /\ (0 < 7 <-> 0 < 1) /\
  (agent_status (mkagent 7 1) = "Active" <-> 0 < 1) /\ (1 = 0 -> 7 = 0).
Proof.
  apply (active_iff_sent
           (mkdata [] [] [] (Some [mkday_stat (Some "b@x.com") (Some 7)]))
           "b@x.com" (mkagent 7 1)).
  - repeat constructor. cbn. lia.
  - left. reflexivity.
Defined.
End RosterFacts.

(** ** The e-mail digest *)

Section DigestFacts.
Import Py Cal Report Scenario Terms DigestTerms.

Lemma digest_step_ledger (ws we : date) (g : digest) (d : day_record) :
  match digest_date d with
  | Ok _ =>
      exists g', digest_step ws we g d = Ok g' /\
        (all_time_sent g' = all_time_sent g + sent (day_agg d) /\
         all_time_replies g' = all_time_replies g + replies (day_agg d) /\
         all_time_opps g' = all_time_opps g + opportunities (day_agg d)) /\
        (week_sent g' = week_sent g +
           sent (if in_week ws we d then day_agg d else agg0) /\
         week_replies g' = week_replies g +
           replies (if in_week ws we d then day_agg d else agg0) /\
         week_opps g' = week_opps g +
           opportunities (if in_week ws we d then day_agg d else agg0))
  | Raise e => digest_step ws we g d = Raise e
  end.
Proof.
  unfold digest_step, in_week, digest_date.
  destruct (d_date d) as [s|]; [|reflexivity].
  destruct (strptime_ymd s) as [dd|e]; cbn [bind]; [|reflexivity].
  destruct (date_leb ws dd && date_leb dd we); eexists; (split; [reflexivity|]);
    cbn [sent replies opportunities agg0 week_sent week_replies
         week_opps all_time_sent all_time_replies all_time_opps];
    repeat split; lia.
Qed.

Lemma total_of_cons (d : day_record) (l : list day_record) :
  total_of (d :: l) = agg_add (day_agg d) (total_of l).
Proof. unfold total_of. cbn [map]. apply agg_sum_cons. Qed.

Lemma total_of_filter_cons (P : day_record -> bool) (d : day_record)
    (l : list day_record) :
  total_of (List.filter P (d :: l)) =
  agg_add (if P d then day_agg d else agg0) (total_of (List.filter P l)).
Proof.
  cbn [List.filter]. destruct (P d);
    [apply total_of_cons | now rewrite agg_add_0_l].
Qed.

(** The digest loop over a stream of records. *)
Lemma digest_loop_ledger (ws we : date) (l : list day_record) (g : digest) :
  if forallb (fun d => is_ok (digest_date d)) l then
    exists g', foldM (digest_step ws we) l g = Ok g' /\
      (all_time_sent g' = all_time_sent g + sent (total_of l) /\
       all_time_replies g' = all_time_replies g + replies (total_of l) /\
       all_time_opps g' = all_time_opps g + opportunities (total_of l)) /\
      (week_sent g' = week_sent g +
         sent (total_of (List.filter (in_week ws we) l)) /\
       week_replies g' = week_replies g +
         replies (total_of (List.filter (in_week ws we) l)) /\
       week_opps g' = week_opps g +
         opportunities (total_of (List.filter (in_week ws we) l)))
  else is_ok (foldM (digest_step ws we) l g) = false.
Proof.
  revert g. induction l as [|d l IH]; intros g.
  - cbn [forallb foldM List.filter]. exists g. split; [reflexivity|].
    unfold total_of. cbn [map]. rewrite agg_sum_nil.
    cbn [agg0 sent replies opportunities]. repeat split; lia.
  - rewrite total_of_cons, total_of_filter_cons. cbn [forallb foldM].
    pose proof (digest_step_ledger ws we g d) as Hd.
    destruct (digest_date d) as [dd|e] eqn:Ed; cbn [is_ok andb].
    + destruct Hd as (g1 & -> & (A1 & A2 & A3) & (W1 & W2 & W3)). cbn [bind].
      specialize (IH g1).
      destruct (forallb (fun d => is_ok (digest_date d)) l); [|exact IH].
      destruct IH as (g' & Hg & (B1 & B2 & B3) & (V1 & V2 & V3)). exists g'.
      split; [exact Hg|].
      cbn [agg_add sent replies opportunities]. repeat split; lia.
    + rewrite Hd. reflexivity.
Qed.



Lemma total_of_app (l1 l2 : list day_record) :
  total_of (l1 ++ l2) = agg_add (total_of l1) (total_of l2).
Proof. unfold total_of. rewrite map_app. apply agg_sum_app. Qed.

(** Reading the analytics campaign by campaign or entry by entry gives the
    same sums when each id names one campaign. *)
Lemma total_by_campaign (ca : list (option string * list day_record)) :
  forall cs : list campaign,
  NoDup (map c_id cs) -> NoDup (od_keys ca) ->
  (forall k, In k (od_keys ca) -> In k (map c_id cs)) ->
  total_of (flat_map (fun c => default [] (od_get (c_id c) ca)) cs) =
  total_of (flat_map snd ca).
Proof.
  induction ca as [|[k v] ca IH]; intros cs Hcs Hca Hsub.
  - cbn [flat_map od_get]. induction cs as [|c cs IHc]; [reflexivity|].
    cbn [flat_map default from_option app]. apply IHc.
    + now apply NoDup_cons in Hcs.
    + intros k [].
  - unfold od_keys in *. cbn [map fst flat_map snd] in *.
    apply NoDup_cons in Hca as [Hk Hca].
    destruct (proj1 (in_map_iff c_id cs k) (Hsub k (or_introl eq_refl)))
      as (c & Hc & Hin).
    apply in_split in Hin as (cs1 & cs2 & ->).
    rewrite map_app in Hcs. cbn [map] in Hcs. rewrite Hc in Hcs.
    apply NoDup_app in Hcs as (H1 & H12 & H2).
    apply NoDup_cons in H2 as [Hk2 H2].
    assert (Hk1 : ~ In k (map c_id cs1)).
    { intros Hin. apply list_elem_of_In in Hin. apply (H12 _ Hin). left. }
    assert (Hk2' : ~ In k (map c_id cs2))
      by (intros Hin; apply Hk2, list_elem_of_In, Hin).
    assert (Hext : forall l, ~ In k (map c_id l) ->
              flat_map (fun c => default [] (od_get (c_id c) ((k, v) :: ca))) l =
              flat_map (fun c => default [] (od_get (c_id c) ca)) l).
    { induction l as [|c' l IHl]; intros Hl; [reflexivity|].
      cbn [flat_map map od_get] in *.
      destruct (decide (c_id c' = k)) as [E|E]; [exfalso; apply Hl; now left|].
      f_equal. apply IHl. intros Hin. apply Hl. now right. }
    rewrite flat_map_app. cbn [flat_map].
    rewrite (Hext cs1 Hk1), (Hext cs2 Hk2'). cbn [od_get]. rewrite Hc.
    destruct (decide (k = k)) as [_|]; [|congruence].
    cbn [default from_option id].
    rewrite !total_of_app.
    rewrite <- (IH (cs1 ++ cs2)%list).
    + rewrite flat_map_app, total_of_app.
      rewrite !agg_add_assoc. f_equal. apply agg_add_comm.
    + rewrite map_app. apply NoDup_app. split; [exact H1|]. split; [|exact H2].
      intros x Hx1 Hx2. apply (H12 x Hx1). now right.
    + exact Hca.
    + intros k' Hk'.
      assert (Hne : k' <> k).
      { intros ->. apply Hk, list_elem_of_In, Hk'. }
      specialize (Hsub k' (or_intror Hk')).
      rewrite map_app in Hsub |- *. cbn [map] in Hsub.
      apply in_app_iff in Hsub. apply in_app_iff.
      destruct Hsub as [?|[?|?]]; [now left | congruence | now right].
Qed.

Lemma records_in_analytics (dt : data) (d : day_record) :
  In d (records dt) -> In d (analytics_records dt).
Proof.
  unfold records, analytics_records, daily_stats. intros H.
  apply in_flat_map in H as (c & _ & H).
  destruct (od_get (c_id c) (campaign_analytics dt)) as [v|] eqn:E;
    [|destruct H].
  apply od_get_Some_In in E. apply in_flat_map. exists (c_id c, v). now split.
Qed.

Lemma digest_date_counted (d : day_record) (dd : date) :
  digest_date d = Ok dd ->
  date_readable d = true /\ counted (fun _ => true) d = day_agg d.
Proof.
  unfold digest_date, date_readable, counted, record_date.
  destruct (d_date d) as [s|]; [|discriminate]. intros H.
  rewrite (strptime_ymd_truthy _ _ H). cbn [default from_option id].
  rewrite H. now split.
Qed.

(** X12: when each id names one campaign, a digest that could be computed
    shows the all-time figures of the Master Dashboard: the monthly
    aggregation succeeds on the same data with the same sent, replies and
    opportunities. *)
Theorem digest_matches_dashboard (today : date) (dt : data) (g : digest) :
  ids_match dt ->
  digest_metrics today dt = Ok g ->
  exists year_data all_time_totals,
    master_aggregate dt = Ok (year_data, all_time_totals) /\
    sent all_time_totals = all_time_sent g /\
    replies all_time_totals = all_time_replies g /\
    opportunities all_time_totals = all_time_opps g.
Proof.
  intros (Hcs & Hca & Hsub) Hg. unfold digest_metrics in Hg.
  apply bind_ok_inv in Hg as (ws & _ & Hg).
  apply bind_ok_inv in Hg as (we & _ & Hg).
  rewrite (foldM_flat_map (digest_step ws we) snd) in Hg.
  fold (analytics_records dt) in Hg.
  pose proof (digest_loop_ledger ws we (analytics_records dt) digest0) as Hd.
  destruct (forallb (fun d => is_ok (digest_date d)) (analytics_records dt))
    eqn:Hall; [|rewrite Hg in Hd; discriminate Hd].
  destruct Hd as (g' & Hg' & (A1 & A2 & A3) & _).
  rewrite Hg in Hg'. injection Hg' as <-.
  assert (Hrec : forall d, In d (records dt) ->
            date_readable d = true /\ counted (fun _ => true) d = day_agg d).
  { intros d Hin. apply records_in_analytics in Hin.
    rewrite forallb_forall in Hall. specialize (Hall d Hin).
    destruct (digest_date d) as [dd|] eqn:E; [|discriminate].
    apply (digest_date_counted d dd E). }
  unfold master_aggregate. rewrite foldM_flat_map. fold (records dt).
  pose proof (master_loop_ledger (records dt) ([], agg0)) as Hm.
  assert (Hread : forallb date_readable (records dt) = true).
  { apply forallb_forall. intros d Hin. apply (Hrec d Hin). }
  rewrite Hread in Hm. destruct Hm as ([yd tot] & -> & Ht & _).
  exists yd, tot. split; [reflexivity|].
  cbn [snd] in Ht. rewrite agg_add_0_l in Ht.
  assert (Hsum : tot = total_of (analytics_records dt)).
  { rewrite Ht. unfold sum_where.
    rewrite (map_ext_in _ day_agg) by (intros d Hin; apply (Hrec d Hin)).
    apply (total_by_campaign (campaign_analytics dt) (campaigns dt));
      assumption. }
  rewrite <- Hsum in A1, A2, A3.
  cbn [digest0 all_time_sent all_time_replies all_time_opps] in *.
  repeat split; lia.
Qed.

Lemma digest_matches_dashboard_witness :
  exists year_data all_time_totals,
    master_aggregate acme = Ok (year_data, all_time_totals) /\
    sent all_time_totals = 150 /\ replies all_time_totals = 5 /\
    opportunities all_time_totals = 1.
Proof.
  apply (digest_matches_dashboard (mkdate 2026 1 7) acme
           (mkdigest 100 5 1 150 5 1)).
  - repeat split; [apply NoDup_singleton | apply NoDup_singleton |].
    intros k Hk. exact Hk.
  - reflexivity.
Defined.
End DigestFacts.

(** ** The placement counters *)

Section PlacementFacts.
Import Py Provider Scenario Placement.

Lemma count_where_cons (P : recipient -> bool) (r : recipient)
    (rs : list recipient) :
  count_where P (r :: rs) = (if P r then 1 else 0) + count_where P rs.
Proof.
  unfold count_where. cbn [List.filter].
  destruct (P r); cbn [length]; lia.
Qed.

(** One turn of the loop over the recipients, seen from the bucket [p]. *)
Lemma count_recipient_placement (p : provider) (st : list (provider * counts))
    (r : recipient) :
  stats_ok st ->
  inbox (default counts0 (od_get p (count_recipient st r))) =
    inbox (default counts0 (od_get p st)) +
    (if scored p says_inbox r then 1 else 0) /\
  spam (default counts0 (od_get p (count_recipient st r))) =
    spam (default counts0 (od_get p st)) +
    (if scored p says_spam_only r then 1 else 0) /\
  other (default counts0 (od_get p (count_recipient st r))) =
    other (default counts0 (od_get p st)) +
    (if scored p says_neither r then 1 else 0) /\
  total (default counts0 (od_get p (count_recipient st r))) =
    total (default counts0 (od_get p st)) +
    (if scored p (fun _ => true) r then 1 else 0) +
    (if pending p r then 1 else 0).
Proof.
  intros [Hk _].
  assert (Hget : forall q, exists c, od_get q st = Some c).
  { intros q. destruct (od_get q st) eqn:E; [eauto|].
    apply od_get_None_keys in E. rewrite Hk in E.
    exfalso. apply E, all_providers. }
  destruct r as [a|e pl|]; cbn [count_recipient scored pending].
  - destruct (decide (categorize_email_provider a = p)) as [<-|Hne].
    + rewrite od_get_upd_eq, bool_decide_eq_true_2 by reflexivity.
      destruct (Hget (categorize_email_provider a)) as [c ->].
      cbn [from_option id bump_total inbox spam other total].
      repeat split; lia.
    + rewrite od_get_upd_ne by congruence.
      rewrite bool_decide_eq_false_2 by congruence. repeat split; lia.
  - destruct (decide (categorize_email_provider (default "" e) = p))
      as [<-|Hne].
    + rewrite od_get_upd_eq, bool_decide_eq_true_2 by reflexivity.
      destruct (Hget (categorize_email_provider (default "" e))) as [c ->].
      cbn [from_option id andb]. unfold bump_placement, says_inbox,
        says_spam_only, says_neither.
      destruct (contains "inbox" _); [|destruct (contains "spam" _)];
        cbn [inbox spam other total negb andb]; repeat split; lia.
    + rewrite od_get_upd_ne by congruence.
      rewrite bool_decide_eq_false_2 by congruence. cbn [andb].
      repeat split; lia.
  - repeat split; lia.
Qed.

Lemma fold_count_placement (p : provider) (rs : list recipient)
    (st : list (provider * counts)) :
  stats_ok st ->
  inbox (default counts0 (od_get p (fold_left count_recipient rs st))) =
    inbox (default counts0 (od_get p st)) + count_where (scored p says_inbox) rs /\
  spam (default counts0 (od_get p (fold_left count_recipient rs st))) =
    spam (default counts0 (od_get p st)) +
    count_where (scored p says_spam_only) rs /\
  other (default counts0 (od_get p (fold_left count_recipient rs st))) =
    other (default counts0 (od_get p st)) +
    count_where (scored p says_neither) rs /\
  total (default counts0 (od_get p (fold_left count_recipient rs st))) =
    total (default counts0 (od_get p st)) +
    count_where (scored p (fun _ => true)) rs + count_where (pending p) rs.
Proof.
  revert st. induction rs as [|r rs IH]; intros st Hst; cbn [fold_left].
  - unfold count_where. cbn. repeat split; lia.
  - destruct (IH _ (count_recipient_ok st r Hst)) as (I1 & I2 & I3 & I4).
    destruct (count_recipient_placement p st r Hst) as (S1 & S2 & S3 & S4).
    rewrite !count_where_cons. repeat split; lia.
Qed.

(** A recipient is counted in one bucket, a scored one in one folder. *)
Lemma one_bucket (r : recipient) :
  (if is_counted r then 1 else 0) =
  fold_right Z.add 0
    (map (fun p => (if scored p (fun _ => true) r then 1 else 0) +
                   (if pending p r then 1 else 0))
         [Google; Microsoft; Yahoo; Others]).
Proof.
  destruct r as [a|e pl|]; cbn [is_counted scored pending map fold_right andb].
  - destruct (categorize_email_provider a);
      repeat match goal with
        | |- context [bool_decide (?a = ?b)] =>
            first [rewrite (bool_decide_eq_true_2 (a = b)) by reflexivity
                  |rewrite (bool_decide_eq_false_2 (a = b)) by discriminate]
        end; reflexivity.
  - destruct (categorize_email_provider (default "" e));
      repeat match goal with
        | |- context [bool_decide (?a = ?b)] =>
            first [rewrite (bool_decide_eq_true_2 (a = b)) by reflexivity
                  |rewrite (bool_decide_eq_false_2 (a = b)) by discriminate]
        end; reflexivity.
  - reflexivity.
Qed.

Lemma one_folder (p : provider) (r : recipient) :
  (if scored p (fun _ => true) r then 1 else 0) =
  (if scored p says_inbox r then 1 else 0) +
  (if scored p says_spam_only r then 1 else 0) +
  (if scored p says_neither r then 1 else 0).
Proof.
  destruct r as [a|e pl|]; cbn [scored]; [reflexivity| |reflexivity].
  unfold says_inbox, says_spam_only, says_neither.
  destruct (bool_decide _); cbn [andb]; [|reflexivity].
  destruct (contains "inbox" _), (contains "spam" _); reflexivity.
Qed.

(** X13: the counters of a bucket after the loop over the recipients. The
    inbox counter counts the records of the bucket whose lower-cased
    placement contains ['inbox'], the spam counter those that contain
    ['spam'] and not ['inbox'], the other counter those that contain
    neither, an absent placement being ['other']; the total adds the bare
    addresses of the bucket to the three; and the four totals add up to
    the recipients that are a string or a record. *)
Theorem placement_ledger (rs : list recipient) :
  (forall p,
     inbox (bucket p rs) = count_where (scored p says_inbox) rs /\
     spam (bucket p rs) = count_where (scored p says_spam_only) rs /\
     other (bucket p rs) = count_where (scored p says_neither) rs /\
     total (bucket p rs) =
       inbox (bucket p rs) + spam (bucket p rs) + other (bucket p rs)
       + count_where (pending p) rs) /\
  total (bucket Google rs) + total (bucket Microsoft rs)
  + total (bucket Yahoo rs) + total (bucket Others rs)
  = count_where is_counted rs.
Proof.
  assert (H0 : stats_ok provider_stats0).
  { split; [reflexivity|]. repeat constructor; simpl; lia. }
  assert (Hfold : forall p, count_where (scored p (fun _ => true)) rs =
            count_where (scored p says_inbox) rs +
            count_where (scored p says_spam_only) rs +
            count_where (scored p says_neither) rs).
  { intros p. induction rs as [|r rs IH]; [reflexivity|].
    rewrite !count_where_cons, IH, (one_folder p r). lia. }
  assert (Hb : forall p,
     inbox (bucket p rs) = count_where (scored p says_inbox) rs /\
     spam (bucket p rs) = count_where (scored p says_spam_only) rs /\
     other (bucket p rs) = count_where (scored p says_neither) rs /\
     total (bucket p rs) =
       count_where (scored p (fun _ => true)) rs + count_where (pending p) rs).
  { intros p. unfold bucket, provider_stats_of.
    destruct (fold_count_placement p rs provider_stats0 H0) as (I1 & I2 & I3 & I4).
    rewrite I1, I2, I3, I4. destruct p; cbn; repeat split; lia. }
  split.
  - intros p. destruct (Hb p) as (I1 & I2 & I3 & I4).
    rewrite I1, I2, I3, I4, (Hfold p). repeat split; lia.
  - destruct (Hb Google) as (_ & _ & _ & ->).
    destruct (Hb Microsoft) as (_ & _ & _ & ->).
    destruct (Hb Yahoo) as (_ & _ & _ & ->).
    destruct (Hb Others) as (_ & _ & _ & ->).
    clear. induction rs as [|r rs IH]; [reflexivity|].
    rewrite !count_where_cons. rewrite (one_bucket r).
    cbn [map fold_right]. lia.
Qed.
End PlacementFacts.

(** ** What the categorizer reads *)

Section DomainFacts.
Import Py Provider.









End DomainFacts.

(** ** The rows that the formatting loops style *)

Section StylingFacts.
Import Py Cal Report Scenario Terms Styling.

Lemma labels_plain_2026_holds : labels_plain_2026 = true.
Proof. vm_compute. reflexivity. Qed.

Lemma weekly_step_plain (name : string)
    (wk wk' : list (Z * string * string * agg)) (d : day_record) :
  Forall (fun k => label_plain (snd (fst k)) = true) (od_keys wk) ->
  weekly_step name wk d = Ok wk' ->
  Forall (fun k => label_plain (snd (fst k)) = true) (od_keys wk').
Proof.
  intros Hlab H. unfold weekly_step in H.
  destruct (truthy_str (d_date d)); [|now injection H as <-].
  apply bind_ok_inv in H as (dd & Hp & H).
  destruct (year dd =? target_year) eqn:Ey; cbn [negb] in H;
    [|now injection H as <-].
  apply Z.eqb_eq in Ey. apply bind_ok_inv in H as (w & Hw & H).
  injection H as <-. rewrite od_keys_upd.
  destruct (od_get (wi_week_num w, wi_label w, name) wk); [exact Hlab|].
  apply Forall_app. split; [exact Hlab|]. constructor; [|constructor].
  cbn [fst snd].
  destruct (week_label_of_number dd w (strptime_ymd_valid _ _ Hp) Ey Hw)
    as (Hn & -> & _).
  pose proof labels_plain_2026_holds as Hall. unfold labels_plain_2026 in Hall.
  apply (forallb_seqZ _ 1 53 (wi_week_num w)) in Hall; [exact Hall | lia].
Qed.

Lemma weekly_aggregate_plain (dt : data)
    (wk : list (Z * string * string * agg)) :
  weekly_aggregate dt = Ok wk ->
  Forall (fun k => label_plain (snd (fst k)) = true) (od_keys wk).
Proof.
  unfold weekly_aggregate. intros H.
  apply (foldM_invariant
           (fun wk => Forall (fun k => label_plain (snd (fst k)) = true)
                             (od_keys wk)) _ _ _ _) in H; [exact H | |].
  - intros st camp st' _ Hst Hin.
    apply (foldM_invariant
             (fun wk => Forall (fun k => label_plain (snd (fst k)) = true)
                               (od_keys wk)) _ _ _ _) in Hin;
      [exact Hin | |exact Hst].
    intros st1 d st2 _. apply weekly_step_plain.
  - constructor.
Qed.

(** The label of a week of the grouping is the label of one of the keys. *)
Lemma group_weeks_plain (wk : list (Z * string * string * agg)) :
  Forall (fun k => label_plain (snd (fst k)) = true) (od_keys wk) ->
  Forall (fun e => label_plain (fst (snd e)) = true) (group_weeks wk).
Proof.
  unfold group_weeks.
  assert (H0 : Forall (fun e : Z * (string * list (string * agg)) =>
                         label_plain (fst (snd e)) = true) []) by constructor.
  revert H0. generalize (@nil (Z * (string * list (string * agg)))).
  induction wk as [|[[[n lbl] name] st] wk IH]; intros weeks Hw Hk;
    cbn [fold_left]; [exact Hw|].
  unfold od_keys in Hk. cbn [map fst] in Hk.
  apply Forall_cons in Hk as [Hl Hk]. cbn [fst snd] in Hl.
  apply IH; [|exact Hk]. unfold group_step.
  apply (od_upd_Forall (fun w => label_plain (fst w) = true)).
  - intros w Hwd. exact Hwd.
  - exact Hl.
  - exact Hw.
Qed.

Lemma campaigns_rows_width (wk : list (Z * string * string * agg))
    (rows : list (list string)) (g : agg) :
  campaigns_rows_of wk = Ok (rows, g) ->
  Forall (fun r => length r = 8%nat) rows.
Proof.
  unfold campaigns_rows_of. intros Hrows.
  apply bind_ok_inv in Hrows as ([rows1 g1] & Hloop & Hrows).
  apply bind_ok_inv in Hrows as (grand_row & Hgrand & Hrows).
  injection Hrows as <- <-.
  apply (foldM_invariant (fun s => Forall (fun r => length r = 8%nat) (fst s))
           _ _ _ _) in Hloop.
  - cbn [fst] in Hloop. apply Forall_app. split; [exact Hloop|].
    constructor; [eapply stat_row_width, Hgrand | constructor].
  - intros s x s' _. apply week_step_width.
  - cbn [fst]. constructor; [reflexivity | constructor].
Qed.

(** The loop appends the styled rows of what it reads. *)
Lemma style_loop_indexed (rows : list (list string))
    (styles : list (option row_style)) :
  Forall2 (fun row st => campaigns_row_style row = Some st) rows styles ->
  forall i requests,
    style_loop i rows requests = Some (requests ++ indexed i styles)%list.
Proof.
  induction 1 as [|row st rows styles Hrow _ IH]; intros i requests;
    cbn [style_loop indexed].
  - now rewrite app_nil_r.
  - rewrite Hrow. destruct st as [s|]; rewrite IH; [|reflexivity].
    now rewrite <- app_assoc.
Qed.

Lemma data_row_style (r : list string) :
  length r = 8%nat -> hd "" r = "" -> campaigns_row_style r = Some None.
Proof.
  destruct r as [|a r]; [discriminate|]. cbn [hd]. intros _ ->. reflexivity.
Qed.

Lemma block_styled (weeks : list (Z * (string * list (string * agg))))
    (v : week_view) :
  Forall (fun e => label_plain (fst (snd e)) = true) weeks ->
  view_of weeks v ->
  Forall (fun r => length r = 8%nat) (render_week v) ->
  Forall2 (fun row st => campaigns_row_style row = Some st)
          (render_week v) (block_styles v).
Proof.
  intros Hplain (week & Hget & Hlabel & _ & Hhd & Htot) Hw.
  unfold render_week, block_styles in *.
  apply Forall_cons in Hw as [_ Hw]. apply Forall_app in Hw as [Hw Hw2].
  apply Forall_cons in Hw2 as [Hwt _].
  constructor.
  - cbn [campaigns_row_style]. rewrite Hlabel.
    apply od_get_Some_In in Hget.
    rewrite List.Forall_forall in Hplain. specialize (Hplain _ Hget).
    cbn [snd] in Hplain. unfold label_plain in Hplain. now rewrite Hplain.
  - apply Forall2_app.
    + clear -Hhd Hw. induction (wv_rows v) as [|r rs IH]; cbn [map];
        [constructor|].
      apply Forall_cons in Hhd as [Hr Hhd]. apply Forall_cons in Hw as [Hl Hw].
      constructor; [now apply data_row_style | now apply IH].
    + constructor; [|constructor; [reflexivity | constructor]].
      destruct (wv_total v) as [|a r]; [discriminate Hwt|].
      cbn [hd] in Htot. subst a. reflexivity.
Qed.

(** X15: the formatting loop of the weekly-detail tab tells the rows apart
    by the text of column A, and on the rows that this program builds it
    tells them apart rightly: the label row of each week gets the header
    style, each WEEKLY TOTAL row the subtotal style, the GRAND TOTAL row
    the grand-total style, campaign rows and spacers none, whatever the
    names of the campaigns; no row makes [row[0]] fail. *)
Theorem campaigns_rows_styled (dt : data) (rows : list (list string)) :
  create_campaigns_tab_rows dt = Ok rows ->
  exists views grand_row,
    rows = (header8 :: flat_map render_week views ++ [grand_row])%list /\
    Forall2 (fun row st => campaigns_row_style row = Some st)
            (tl rows) (tab_styles views) /\
    campaigns_style_requests rows = Some (indexed 1 (tab_styles views)).
Proof.
  intros H. unfold create_campaigns_tab_rows in H.
  apply bind_ok_inv in H as (wk & Hwk & H).
  apply bind_ok_inv in H as ([rows' g] & Hrows & H). injection H as <-.
  pose proof (campaigns_rows_width wk rows' g Hrows) as Hwidth.
  pose proof (group_weeks_plain wk (weekly_aggregate_plain dt wk Hwk)) as Hplain.
  apply campaigns_rows_order in Hrows
    as (views & grand_row & -> & Hg & _ & Hviews & _).
  exists views, grand_row. split; [reflexivity|].
  assert (Hall : Forall2 (fun row st => campaigns_row_style row = Some st)
            (flat_map render_week views ++ [grand_row])%list (tab_styles views)).
  { unfold tab_styles. apply Forall_cons in Hwidth as [_ Hwidth].
    apply Forall_app in Hwidth as [Hwidth Hgw]. apply Forall2_app.
    - clear -Hviews Hwidth Hplain.
      induction views as [|v views IH]; cbn [flat_map]; [constructor|].
      cbn [flat_map] in Hwidth. apply Forall_app in Hwidth as [Hv Hwidth].
      apply Forall_cons in Hviews as [Hview Hviews].
      apply Forall2_app; [|now apply IH].
      now apply (block_styled (group_weeks wk)).
    - constructor; [|constructor].
      apply Forall_cons in Hgw as [Hgw _].
      destruct grand_row as [|a r]; [discriminate Hgw|].
      cbn [hd] in Hg. subst a. reflexivity. }
  split; [exact Hall|].
  unfold campaigns_style_requests. cbn [tl].
  now rewrite (style_loop_indexed _ _ Hall).
Qed.

Lemma campaigns_rows_styled_witness :
  exists views grand_row,
    acme_rows = (header8 :: flat_map render_week views ++ [grand_row])%list /\
    Forall2 (fun row st => campaigns_row_style row = Some st)
            (tl acme_rows) (tab_styles views) /\
    campaigns_style_requests acme_rows = Some (indexed 1 (tab_styles views)).
Proof. apply (campaigns_rows_styled acme). vm_compute. reflexivity. Defined.

Lemma chars_app (s1 s2 : string) :
  list_ascii_of_string (s1 +:+ s2) =
  (list_ascii_of_string s1 ++ list_ascii_of_string s2)%list.
Proof.
  induction s1 as [|a s1 IH]; [reflexivity|].
  change (String a s1 +:+ s2) with (String a (s1 +:+ s2)).
  cbn [list_ascii_of_string app]. now rewrite IH.
Qed.

Lemma numeric_uint (d : Decimal.uint) :
  numeric (NilEmpty.string_of_uint d) = true.
Proof.
  unfold numeric. induction d; cbn [NilEmpty.string_of_uint
    list_ascii_of_string forallb]; try reflexivity; exact IHd.
Qed.

Lemma numeric_dec (z : Z) : numeric (dec z) = true.
Proof.
  unfold dec, NilZero.string_of_int.
  destruct (Z.to_int z) as [d|d]; unfold NilZero.string_of_uint.
  - destruct d; try reflexivity; apply numeric_uint.
  - unfold numeric. cbn [list_ascii_of_string forallb].
    destruct d; try reflexivity; apply numeric_uint.
Qed.

Lemma group3_numeric (l : list ascii) (k : nat) :
  forallb (fun c => (Ascii.eqb c "," || Ascii.eqb c "-"
                     || ((48 <=? N_of_ascii c) && (N_of_ascii c <=? 57))%N)) l
    = true ->
  forallb (fun c => (Ascii.eqb c "," || Ascii.eqb c "-"
                     || ((48 <=? N_of_ascii c) && (N_of_ascii c <=? 57))%N))
          (group3 k l) = true.
Proof.
  revert k. induction l as [|c l IH]; intros k H; [reflexivity|].
  cbn [forallb] in H. apply andb_prop in H as [Hc Hl].
  destruct k as [|k]; cbn [group3 forallb]; rewrite Hc, IH by exact Hl;
    reflexivity.
Qed.

Lemma forallb_rev {A : Type} (f : A -> bool) (l : list A) :
  forallb f l = true -> forallb f (rev l) = true.
Proof.
  rewrite !forallb_forall. intros H x Hx. apply H. now apply in_rev.
Qed.

(** A counter is written with digits, commas and a sign only. *)
Lemma fmt_commas_numeric (z : Z) : numeric (fmt_commas z) = true.
Proof.
  unfold fmt_commas, numeric. rewrite chars_app, forallb_app.
  rewrite list_ascii_of_string_of_list_ascii.
  apply andb_true_intro. split.
  - destruct (z <? 0); reflexivity.
  - apply forallb_rev, group3_numeric, forallb_rev.
    apply (numeric_dec (Z.abs z)).
Qed.

Lemma numeric_not_title (a : string) (rest : list string) :
  numeric a = true -> is_section_title (a :: rest) = Some false.
Proof.
  intros Hn. cbn [is_section_title]. f_equal.
  apply orb_false_intro; apply String.eqb_neq; intros ->; discriminate Hn.
Qed.

Lemma month_row_not_title (r : list string) (m : Z) :
  1 <= m <= 12 -> hd "" r = month_name m -> is_section_title r = Some false.
Proof.
  intros Hm Hr. destruct r as [|a r]; cbn [hd] in Hr.
  - apply month_cases in Hm.
    repeat (destruct Hm as [->|Hm]; [discriminate Hr|]). subst. discriminate Hr.
  - subst a. apply month_cases in Hm.
    repeat (destruct Hm as [->|Hm]; [reflexivity|]). subst. reflexivity.
Qed.

Lemma header_loop_app (l1 l2 : list (list string)) :
  forall i found,
  header_loop i (l1 ++ l2) found =
  match header_loop i l1 found with
  | Some found' => header_loop (i + Z.of_nat (length l1)) l2 found'
  | None => None
  end.
Proof.
  induction l1 as [|r l1 IH]; intros i found; cbn [app header_loop length].
  - now rewrite Z.add_0_r.
  - destruct (is_section_title r) as [[|]|]; [| |reflexivity];
      rewrite IH; replace (i + 1 + Z.of_nat (length l1))
        with (i + Z.of_nat (S (length l1))) by lia; reflexivity.
Qed.

Lemma header_loop_none (l : list (list string)) :
  Forall (fun r => is_section_title r = Some false) l ->
  forall i found, header_loop i l found = Some found.
Proof.
  induction 1 as [|r l Hr _ IH]; intros i found; cbn [header_loop];
    [reflexivity|]. rewrite Hr. apply IH.
Qed.

Lemma month_rows_not_titles (month_rows : list (list string))
    (months : list Z) :
  shows_months month_rows months ->
  Forall (fun r => is_section_title r = Some false) month_rows.
Proof.
  intros [Hmap Hrange]. revert months Hmap Hrange.
  induction month_rows as [|r rs IH]; intros months Hmap Hrange;
    [constructor|].
  destruct months as [|m ms]; [discriminate Hmap|].
  cbn [map] in Hmap. injection Hmap as Hr Hrs.
  apply Forall_cons in Hrange as [Hm Hms].
  constructor; [exact (month_row_not_title r m Hm Hr) | exact (IH ms Hrs Hms)].
Qed.

(** The loop finds a section at its first row and nowhere else. *)
Lemma header_loop_section (title : string) (with_spacer : bool)
    (month_rows : list (list string)) (months : list Z) (i : Z)
    (found : list Z) :
  title = "PERFORMANCE BY MONTH 2026" \/ title = "PERFORMANCE BY MONTH 2025" ->
  shows_months month_rows months ->
  header_loop i (section_layout title with_spacer month_rows) found =
  Some (found ++ section_start i (section_layout title with_spacer month_rows))%list.
Proof.
  intros Ht Hm. pose proof (month_rows_not_titles _ _ Hm) as Hrows.
  unfold section_layout. destruct month_rows as [|r rs].
  - cbn [header_loop section_start]. now rewrite app_nil_r.
  - change ([[title; ""; ""; ""; ""; ""];
             ["Month"; "Emails Sent"; "New Leads"; "Replies"; "Opportunities";
              "Emails/Opp"]]
            ++ (r :: rs) ++ (if with_spacer then [spacer6] else []))%list
      with ([title; ""; ""; ""; ""; ""]
            :: ["Month"; "Emails Sent"; "New Leads"; "Replies"; "Opportunities";
                "Emails/Opp"]
            :: ((r :: rs) ++ (if with_spacer then [spacer6] else []))%list).
    cbn [section_start].
    assert (E : is_section_title [title; ""; ""; ""; ""; ""] = Some true)
      by (destruct Ht as [-> | ->]; reflexivity).
    cbn [header_loop]. rewrite E.
    change (is_section_title ["Month"; "Emails Sent"; "New Leads"; "Replies";
                              "Opportunities"; "Emails/Opp"])
      with (Some false).
    cbv iota. apply header_loop_none.
    apply Forall_app. split; [exact Hrows|].
    destruct with_spacer; repeat constructor.
Qed.

(** X16: the formatting of the Master Dashboard looks for the monthly
    tables by the text of column A, and finds each table that is there at
    its title row, and nothing else: no counter and no month name is taken
    for a title, so the row after each index found is the row of column
    headers of that table. *)
Theorem master_sections_found (dt : data) (rows : list (list string)) :
  create_master_dashboard_rows dt = Ok rows ->
  exists tot rows26 rows25,
    rows = (dashboard_head tot
            ++ section_layout "PERFORMANCE BY MONTH 2026" true rows26
            ++ section_layout "PERFORMANCE BY MONTH 2025" false rows25)%list /\
    master_header_requests rows =
    Some (section_start 5
            (section_layout "PERFORMANCE BY MONTH 2026" true rows26)
          ++ section_start
               (5 + Z.of_nat (length
                  (section_layout "PERFORMANCE BY MONTH 2026" true rows26)))
               (section_layout "PERFORMANCE BY MONTH 2025" false rows25))%list.
Proof.
  intros H. unfold create_master_dashboard_rows in H.
  apply bind_ok_inv in H as ([yd tot] & Hagg & H).
  apply bind_ok_inv in H as (s26 & H26 & H).
  apply bind_ok_inv in H as (s25 & H25 & H).
  injection H as <-.
  pose proof (master_aggregate_months dt yd tot Hagg) as Hok.
  apply year_section_order in H26 as (m26 & r26 & -> & Hm26 & _);
    [|now left|exact Hok].
  apply year_section_order in H25 as (m25 & r25 & -> & Hm25 & _);
    [|now right|exact Hok].
  exists tot, r26, r25. split; [reflexivity|].
  unfold master_header_requests.
  change (header_loop 0
            (dashboard_head tot
             ++ section_layout "PERFORMANCE BY MONTH 2026" true r26
             ++ section_layout "PERFORMANCE BY MONTH 2025" false r25)%list [] =
          Some (section_start 5
                  (section_layout "PERFORMANCE BY MONTH 2026" true r26)
                ++ section_start
                     (5 + Z.of_nat (length
                        (section_layout "PERFORMANCE BY MONTH 2026" true r26)))
                     (section_layout "PERFORMANCE BY MONTH 2025" false r25))%list).
  rewrite header_loop_app.
  rewrite (header_loop_none (dashboard_head tot)).
  - cbn [length dashboard_head Z.of_nat Pos.of_succ_nat Pos.succ Z.add].
    rewrite header_loop_app.
    rewrite (header_loop_section _ true r26 m26) by (auto).
    rewrite (header_loop_section _ false r25 m25) by (auto).
    reflexivity.
  - unfold dashboard_head.
    repeat (constructor; [reflexivity|]).
    constructor; [apply numeric_not_title, fmt_commas_numeric|].
    repeat constructor.
Qed.

Lemma master_sections_found_witness :
  exists tot rows26 rows25,
    [["MASTER DASHBOARD"; ""; ""; ""; ""; ""];
     ["ALL TIME PERFORMANCE"; ""; ""; ""; ""; ""];
     ["Emails Sent"; "New Leads"; "Replies"; "Opportunities"; ""; ""];
     ["150"; "0"; "5"; "1"; ""; ""];
     [""; ""; ""; ""; ""; ""];
     ["PERFORMANCE BY MONTH 2026"; ""; ""; ""; ""; ""];
     ["Month"; "Emails Sent"; "New Leads"; "Replies"; "Opportunities";
      "Emails/Opp"];
     ["January"; "150"; "0"; "5"; "1"; "150.0"];
     [""; ""; ""; ""; ""; ""]] =
    (dashboard_head tot
     ++ section_layout "PERFORMANCE BY MONTH 2026" true rows26
     ++ section_layout "PERFORMANCE BY MONTH 2025" false rows25)%list /\
    master_header_requests
      [["MASTER DASHBOARD"; ""; ""; ""; ""; ""];
       ["ALL TIME PERFORMANCE"; ""; ""; ""; ""; ""];
       ["Emails Sent"; "New Leads"; "Replies"; "Opportunities"; ""; ""];
       ["150"; "0"; "5"; "1"; ""; ""];
       [""; ""; ""; ""; ""; ""];
       ["PERFORMANCE BY MONTH 2026"; ""; ""; ""; ""; ""];
       ["Month"; "Emails Sent"; "New Leads"; "Replies"; "Opportunities";
        "Emails/Opp"];
       ["January"; "150"; "0"; "5"; "1"; "150.0"];
       [""; ""; ""; ""; ""; ""]] =
    Some (section_start 5
            (section_layout "PERFORMANCE BY MONTH 2026" true rows26)
          ++ section_start
               (5 + Z.of_nat (length
                  (section_layout "PERFORMANCE BY MONTH 2026" true rows26)))
               (section_layout "PERFORMANCE BY MONTH 2025" false rows25))%list.
Proof. apply (master_sections_found acme). vm_compute. reflexivity. Defined.
End StylingFacts.

(** ** Fetching the data *)

Section FetchFacts.
Import Py Cal Report Fetch.
Context {St : Type} (c : client St).

Lemma firstn_100_nil {A : Type} (l : list A) : firstn 100 l = [] -> l = [].
Proof. destruct l; [reflexivity | discriminate]. Qed.

Lemma skipn_add {A : Type} (a b : nat) (l : list A) :
  skipn (a + b) l = skipn b (skipn a l).
Proof.
  revert l. induction a as [|a IH]; intros l; [reflexivity|].
  destruct l as [|x l]; cbn [Nat.add skipn]; [now destruct b | apply IH].
Qed.

(** The loop against a server that pages by [skip]. *)
Lemma campaigns_loop_serves (all : list campaign) :
  serves c all ->
  forall fuel skip acc w,
    0 <= skip ->
    (length (skipn (Z.to_nat skip) all) / 100 < fuel)%nat ->
    campaigns_loop c fuel skip acc w =
    Some (Ok (acc ++ skipn (Z.to_nat skip) all)%list,
          mkworld (cstate w)
            (trace w ++ slice_calls all skip
               (S (length (skipn (Z.to_nat skip) all) / 100)))%list).
Proof.
  intros Hs. induction fuel as [|fuel IH]; intros skip acc w Hskip Hfuel;
    [lia|].
  cbn [campaigns_loop]. rewrite (Hs (cstate w) skip). cbv beta iota zeta.
  set (l := skipn (Z.to_nat skip) all) in *.
  assert (Hitems : items_of (slice all skip) = firstn 100 l) by reflexivity.
  rewrite !Hitems. clear Hitems.
  destruct (firstn 100 l) as [|x pg] eqn:Epg.
  - apply firstn_100_nil in Epg. rewrite Epg. rewrite app_nil_r.
    change (length (@nil campaign) / 100)%nat with 0%nat. reflexivity.
  - rewrite <- Epg.
    destruct (Z.of_nat (length (firstn 100 l)) <? 100) eqn:Elen.
    + apply Z.ltb_lt in Elen. rewrite length_firstn in Elen.
      assert (Hl : (length l < 100)%nat) by lia.
      rewrite firstn_all2 by lia.
      rewrite (Nat.div_small _ _ Hl). reflexivity.
    + apply Z.ltb_ge in Elen. rewrite length_firstn in Elen.
      assert (Hl : (100 <= length l)%nat) by lia.
      assert (Hnext : skipn (Z.to_nat (skip + 100)) all = skipn 100 l).
      { unfold l. rewrite Z2Nat.inj_add by lia. apply skipn_add. }
      assert (Hdiv : (length l / 100 = S (length (skipn 100 l) / 100))%nat).
      { rewrite length_skipn.
        replace (length l) with ((length l - 100) + 1 * 100)%nat at 1 by lia.
        rewrite Nat.div_add by lia. lia. }
      rewrite IH; [|lia|rewrite Hnext; lia].
      rewrite Hnext, Hdiv. cbn [cstate trace].
      rewrite <- !app_assoc, firstn_skipn. cbn [slice_calls app].
      reflexivity.
Qed.

(** X17: against a server that pages its campaigns by [skip], the first
    loop of [fetch_all_data] returns every campaign once and in order,
    after one request more than there are full pages of 100: it asks for
    [skip = 0, 100, 200, ...] and stops at the first page that is short or
    empty. *)
Theorem campaigns_fetched_exhaustively (all : list campaign) (w : world St) :
  serves c all ->
  campaigns_loop c (S (length all / 100)) 0 [] w =
  Some (Ok all,
        mkworld (cstate w)
                (trace w ++ slice_calls all 0 (S (length all / 100)))%list).
Proof.
  intros Hs.
  rewrite (campaigns_loop_serves all Hs (S (length all / 100)) 0 [] w);
    [reflexivity | lia | apply Nat.lt_succ_diag_r].
Qed.

Lemma campaigns_loop_diverges (fuel : nat) :
  always_full c ->
  forall skip acc w, campaigns_loop c fuel skip acc w = None.
Proof.
  intros Hfull. induction fuel as [|fuel IH]; intros skip acc w; [reflexivity|].
  cbn [campaigns_loop].
  destruct (Hfull (cstate w) skip) as (resp & st' & -> & Hlen).
  destruct (items_of resp) as [|x l] eqn:E; [cbn in Hlen; lia|].
  destruct (Z.of_nat (length (x :: l)) <? 100) eqn:El; [lia|].
  apply IH.
Qed.

Lemma accounts_loop_diverges (fuel : nat) :
  always_more c ->
  forall cursor acc w, accounts_loop c fuel cursor acc w = None.
Proof.
  intros Hmore. induction fuel as [|fuel IH]; intros cursor acc w;
    [reflexivity|].
  cbn [accounts_loop].
  destruct (Hmore (cstate w) (if truthy_str cursor then cursor else None))
    as (resp & st' & s & -> & Hitems & Hcur).
  destruct (items_of resp) as [|x l] eqn:E; [congruence|].
  rewrite Hcur. apply IH.
Qed.

(** X18: the two [while True] loops of [fetch_all_data] have no ceiling.
    The first asks for the next page as long as a page holds 100 items or
    more, the second as long as a page holds items and a cursor; a server
    that never sends a short page, or never drops the cursor, keeps them
    running, whatever the number of pages already read. *)
Theorem fetch_loops_have_no_ceiling (fuel : nat) :
  (always_full c ->
   forall skip acc w, campaigns_loop c fuel skip acc w = None) /\
  (always_more c ->
   forall cursor acc w, accounts_loop c fuel cursor acc w = None).
Proof.
  split; [apply campaigns_loop_diverges | apply accounts_loop_diverges].
Qed.

(** The second loop of [fetch_all_data]. *)
Lemma analytics_loop_keys (start_str end_str : string) (camps : list campaign) :
  forall ca w ca' w',
  analytics_loop c start_str end_str camps ca w = (Ok ca', w') ->
  NoDup (od_keys ca) -> Forall (fun e => snd e <> []) ca ->
  NoDup (od_keys ca') /\
  (forall k, In k (od_keys ca') -> In k (od_keys ca) \/ In k (map c_id camps)) /\
  Forall (fun e => snd e <> []) ca' /\
  omap daily_id (trace w') = (omap daily_id (trace w) ++ map c_id camps)%list.
Proof.
  induction camps as [|camp rest IH]; intros ca w ca' w' H Hnd Hne;
    cbn [analytics_loop] in H.
  - injection H as <- <-. cbn [map]. rewrite app_nil_r. auto.
  - destruct (get_campaign_daily c (cstate w) (c_id camp) start_str end_str)
      as [r st'] eqn:Er.
    assert (Htr : forall ca1,
      analytics_loop c start_str end_str rest ca1
        (mkworld st' (trace w ++ [CampaignDaily (c_id camp) start_str end_str r]))
        = (Ok ca', w') ->
      NoDup (od_keys ca1) -> Forall (fun e => snd e <> []) ca1 ->
      (forall k, In k (od_keys ca1) -> In k (od_keys ca) \/ k = c_id camp) ->
      NoDup (od_keys ca') /\
      (forall k, In k (od_keys ca') ->
                 In k (od_keys ca) \/ In k (map c_id (camp :: rest))) /\
      Forall (fun e => snd e <> []) ca' /\
      omap daily_id (trace w') =
        (omap daily_id (trace w) ++ map c_id (camp :: rest))%list).
    { intros ca1 H1 Hnd1 Hne1 Hsub.
      destruct (IH _ _ _ _ H1 Hnd1 Hne1) as (A & B & C & D).
      split; [exact A|]. split; [|split; [exact C|]].
      - intros k Hk. destruct (B k Hk) as [Hk1|Hk1].
        + destruct (Hsub k Hk1) as [? | ->]; [now left|]. right. now left.
        + right. now right.
      - rewrite D. cbn [trace]. rewrite omap_app. cbn [omap daily_id map].
        now rewrite <- app_assoc. }
    destruct r as [resp|e]; [|discriminate H].
    destruct resp as [items cur|elements|];
      try (apply (Htr ca H Hnd Hne); intros k Hk; now left).
    destruct elements as [|d l];
      [apply (Htr ca H Hnd Hne); intros k Hk; now left|].
    apply (Htr _ H).
    + unfold od_set. now apply od_keys_upd_NoDup.
    + unfold od_set.
      apply (od_upd_Forall (fun v : list day_record => v <> []));
        [discriminate.. | exact Hne].
    + intros k Hk. unfold od_set in Hk. rewrite od_keys_upd in Hk.
      destruct (od_get (c_id camp) ca); [now left|].
      apply in_app_or in Hk as [Hk|[<-|[]]]; [now left | now right].
Qed.

Lemma campaigns_loop_trace (fuel : nat) :
  forall skip acc w res w',
  campaigns_loop c fuel skip acc w = Some (res, w') ->
  omap daily_id (trace w') = omap daily_id (trace w).
Proof.
  induction fuel as [|fuel IH]; intros skip acc w res w' H; [discriminate|].
  cbn [campaigns_loop] in H.
  destruct (get_campaigns c (cstate w) skip) as [r st'].
  assert (Hone : omap daily_id (trace w ++ [CampaignsPage skip r])%list =
                 omap daily_id (trace w)).
  { rewrite omap_app. cbn [omap daily_id]. apply app_nil_r. }
  destruct r as [resp|e]; [|injection H as <- <-; exact Hone].
  destruct (items_of resp) as [|x l]; [injection H as <- <-; exact Hone|].
  destruct (Z.of_nat (length (x :: l)) <? 100);
    [injection H as <- <-; exact Hone|].
  apply IH in H. cbn [trace] in H. now rewrite H.
Qed.

Lemma accounts_outcome_cons (acc : list account) (cur : option string)
    (resp : reply account) (k : call) (calls : list call) :
  accounts_outcome acc (AccountsPage cur (Ok resp) :: k :: calls) =
  accounts_outcome (acc ++ items_of resp) (k :: calls).
Proof.
  unfold accounts_outcome. rewrite last_cons_cons.
  cbn [map concat account_items]. rewrite <- !app_assoc. reflexivity.
Qed.

(** X19: the account pages of [fetch_all_data]. Whenever the loop returns,
    it made at least one request; each request carried the cursor of the
    page before, the first one none; every page but the last held items
    and a cursor, and the last raised, held no item, or held no cursor, as
    a bare array does; the result is the error of the last page or the
    items of all pages in order, after those gathered before. *)
Theorem accounts_loop_spec (fuel : nat) :
  forall cursor acc w res w',
  accounts_loop c fuel cursor acc w = Some (res, w') ->
  exists calls,
    trace w' = (trace w ++ calls)%list /\
    cursor_run (if truthy_str cursor then cursor else None) calls /\
    res = accounts_outcome acc calls.
Proof.
  induction fuel as [|fuel IH]; intros cursor acc w res w' H; [discriminate|].
  cbn [accounts_loop] in H.
  set (cur := if truthy_str cursor then cursor else None) in *.
  destruct (get_accounts c (cstate w) cur) as [r st'].
  assert (Hstop : page_end r = None ->
            res = accounts_outcome acc [AccountsPage cur r] ->
            trace w' = (trace w ++ [AccountsPage cur r])%list ->
            exists calls,
              trace w' = (trace w ++ calls)%list /\
              cursor_run cur calls /\ res = accounts_outcome acc calls).
  { intros Hend Hres Htr. exists [AccountsPage cur r].
    split; [exact Htr|]. split; [|exact Hres].
    cbn [cursor_run]. exists r. now split. }
  destruct r as [resp|e].
  2:{ injection H as <- <-. apply Hstop; reflexivity. }
  destruct (items_of resp) as [|x l] eqn:Ei.
  { injection H as <- <-. apply Hstop.
    - cbn [page_end]. now rewrite Ei.
    - unfold accounts_outcome. cbn [last map concat account_items].
      now rewrite Ei, !app_nil_r.
    - reflexivity. }
  destruct (cursor_of resp) as [s|] eqn:Ec.
  2:{ injection H as <- <-. apply Hstop.
      - cbn [page_end]. now rewrite Ei.
      - unfold accounts_outcome. cbn [last map concat account_items].
        now rewrite Ei, !app_nil_r.
      - reflexivity. }
  apply IH in H as (calls & Htr & Hrun & Hres). cbn [trace] in Htr.
  assert (Hs : truthy_str (Some s) = true).
  { unfold cursor_of in Ec. destruct resp as [it [s'|]| |]; try discriminate Ec.
    destruct (truthy_str (Some s')) eqn:E; [|discriminate Ec].
    injection Ec as <-. exact E. }
  rewrite Hs in Hrun.
  exists (AccountsPage cur (Ok resp) :: calls).
  split; [now rewrite Htr, <- app_assoc|]. split.
  - cbn [cursor_run]. exists (Ok resp). split; [reflexivity|].
    destruct calls as [|k calls]; [destruct Hrun|].
    exists s. split; [|exact Hrun]. cbn [page_end]. now rewrite Ei.
  - rewrite Hres. destruct calls as [|k calls]; [destruct Hrun|].
    rewrite <- Ei. symmetry. apply accounts_outcome_cons.
Qed.

Lemma accounts_loop_trace (fuel : nat) :
  forall cursor acc w res w',
  accounts_loop c fuel cursor acc w = Some (res, w') ->
  omap daily_id (trace w') = omap daily_id (trace w).
Proof.
  induction fuel as [|fuel IH]; intros cursor acc w res w' H; [discriminate|].
  cbn [accounts_loop] in H.
  set (cur := if truthy_str cursor then cursor else None) in *.
  destruct (get_accounts c (cstate w) cur) as [r st'].
  assert (Hone : omap daily_id (trace w ++ [AccountsPage cur r])%list =
                 omap daily_id (trace w)).
  { rewrite omap_app. cbn [omap daily_id]. apply app_nil_r. }
  destruct r as [resp|e]; [|injection H as <- <-; exact Hone].
  destruct (items_of resp) as [|x l]; [injection H as <- <-; exact Hone|].
  destruct (cursor_of resp) as [s|]; [|injection H as <- <-; exact Hone].
  apply IH in H. cbn [trace] in H. now rewrite H.
Qed.

(** X20: the data that [fetch_all_data] returns. The analytics are filed
    under ids of the campaigns fetched, no id twice and no list empty; one
    request for daily analytics was made for each campaign, in the order
    of the campaigns, a campaign id that occurs twice being asked for
    twice. *)
Theorem fetched_data_is_keyed (fuel : nat) (today : date) (w : world St)
    (dt : data) (w' : world St) :
  fetch_all_data c fuel today w = Some (Ok dt, w') ->
  NoDup (od_keys (campaign_analytics dt)) /\
  (forall k, In k (od_keys (campaign_analytics dt)) ->
             In k (map c_id (campaigns dt))) /\
  Forall (fun e => snd e <> []) (campaign_analytics dt) /\
  omap daily_id (trace w') =
    (omap daily_id (trace w) ++ map c_id (campaigns dt))%list.
Proof.
  unfold fetch_all_data. intros H.
  destruct (campaigns_loop c fuel 0 [] w) as [[[camps|e] w1]|] eqn:E1;
    try discriminate H.
  destruct (analytics_loop c _ _ camps [] w1) as [[ca|e] w2] eqn:E2;
    try discriminate H.
  destruct (accounts_loop c fuel None [] w2) as [[[accs|e] w3]|] eqn:E3;
    try discriminate H.
  destruct (get_account_daily c (cstate w3) _ _) as [r st'].
  destruct r as [resp|e]; [|discriminate H].
  injection H as <- <-. cbn [campaigns campaign_analytics trace].
  apply campaigns_loop_trace in E1. apply accounts_loop_trace in E3.
  apply analytics_loop_keys in E2 as (A & B & C & D);
    [|constructor|constructor].
  split; [exact A|]. split; [|split; [exact C|]].
  - intros k Hk. destruct (B k Hk) as [[]|?]. assumption.
  - rewrite omap_app. cbn [omap daily_id]. rewrite app_nil_r.
    now rewrite E3, D, E1.
Qed.
End FetchFacts.

Section FetchExamples.
Import Py Cal Report Fetch.

Lemma campaigns_fetched_exhaustively_witness :
  campaigns_loop shop 3 0 [] (mkworld tt []) =
  Some (Ok stock, mkworld tt (slice_calls stock 0 3)).
Proof.
  apply (campaigns_fetched_exhaustively shop stock (mkworld tt [])).
  intros st skip. reflexivity.
Defined.

Lemma fetch_loops_have_no_ceiling_witness :
  campaigns_loop echo 1000 0 [] (mkworld tt []) = None /\
  accounts_loop echo 1000 None [] (mkworld tt []) = None.
Proof.
  destruct (fetch_loops_have_no_ceiling echo 1000) as [Hc Ha]. split.
  - apply Hc. intros st skip. exists (Array (firstn 100 stock)), st.
    split; [reflexivity|]. vm_compute. lia.
  - apply Ha. intros st cursor.
    exists (Object (Some [mkaccount (Some "a@x.com")]) (Some "again")), st,
           "again".
    split; [reflexivity|]. split; [discriminate | reflexivity].
Defined.

Lemma accounts_loop_spec_witness :
  exists calls,
    [AccountsPage None
       (Ok (Object (Some [mkaccount (Some "a@x.com")]) (Some "a@x.com")));
     AccountsPage (Some "a@x.com") (Ok (Array [mkaccount (Some "b@x.com")]))]
    = ([] ++ calls)%list /\
    cursor_run None calls /\
    Ok [mkaccount (Some "a@x.com"); mkaccount (Some "b@x.com")] =
      accounts_outcome [] calls.
Proof.
  apply (accounts_loop_spec depot 5 None [] (mkworld tt []) _ (mkworld tt _)).
  reflexivity.
Defined.

Lemma fetched_data_is_keyed_witness :
  exists dt w',
    fetch_all_data depot 5 (mkdate 2026 1 7) (mkworld tt []) = Some (Ok dt, w') /\
    NoDup (od_keys (campaign_analytics dt)) /\
    (forall k, In k (od_keys (campaign_analytics dt)) ->
               In k (map c_id (campaigns dt))) /\
    Forall (fun e => snd e <> []) (campaign_analytics dt) /\
    omap daily_id (trace w') =
      (omap daily_id [] ++ map c_id (campaigns dt))%list.
Proof.
  destruct (fetch_all_data depot 5 (mkdate 2026 1 7) (mkworld tt []))
    as [[[dt|e] w']|] eqn:E;
    [|vm_compute in E; discriminate E..].
  exists dt, w'. split; [reflexivity|].
  exact (fetched_data_is_keyed depot 5 (mkdate 2026 1 7) (mkworld tt [])
           dt w' E).
Defined.
End FetchExamples.

(** ** The tables are always built *)

Section FiniteFacts.
Import Py.

(** Rounding a mantissa of at most 500 bits with an exponent that is not
    positive does not overflow. *)
Lemma binary_round_aux_finite_500 (sx : bool) (mx ex : Z) (lx : location) :
  0 <= mx -> -1074 <= ex <= 0 -> Zdigits2 mx <= 500 ->
  forall s, binary_round_aux 53 1024 sx mx ex lx <> S754_infinity s.
Proof.
  intros Hm He Hd s. unfold binary_round_aux.
  pose proof (shr_fexp_spec 53 1024 mx ex lx Hm) as [He1 Hm1].
  destruct (shr_fexp 53 1024 mx ex lx) as [mrs1 e1]. simpl in He1, Hm1.
  pose proof (round_nearest_even_bound (shr_m mrs1) (loc_of_shr_record mrs1)) as Hr.
  set (m1 := round_nearest_even (shr_m mrs1) (loc_of_shr_record mrs1)) in *.
  pose proof (shr_fexp_spec 53 1024 m1 e1 loc_Exact ltac:(lia)) as [He2 Hm2].
  destruct (shr_fexp 53 1024 m1 e1 loc_Exact) as [mrs2 e2]. simpl in He2, Hm2.
  assert (Hd1 : Zdigits2 m1 <= Zdigits2 mx + 1).
  { transitivity (Zdigits2 (shr_m mrs1 + 1)); [apply Zdigits2_mono; lia|].
    transitivity (Zdigits2 (shr_m mrs1) + 1); [apply Zdigits2_succ; lia|].
    pose proof (Zdigits2_mono (shr_m mrs1) mx ltac:(lia)). lia. }
  assert (Hd0 : 0 <= Zdigits2 mx) by (destruct mx; simpl; lia).
  assert (Hd2 : 0 <= Zdigits2 m1) by (destruct m1; simpl; lia).
  unfold fexp, emin in He1, He2.
  destruct (shr_m mrs2); try discriminate.
  destruct (e2 <=? 1024 - 53) eqn:El; [discriminate|]. lia.
Qed.

Lemma Zdigits2_pos (p : positive) : 1 <= Zdigits2 (Z.pos p).
Proof. rewrite Zdigits2_log2 by lia. pose proof (Z.log2_nonneg (Z.pos p)). lia. Qed.

(** The quotient of two integers below [2^53] is a finite float. *)
Lemma f64div_finite_53 (sx sy : bool) (n d : positive) :
  Z.pos n < 2 ^ 53 -> Z.pos d < 2 ^ 53 ->
  forall s, SFdiv 53 1024 (S754_finite sx n 0) (S754_finite sy d 0)
            <> S754_infinity s.
Proof.
  intros Hn Hd s. unfold SFdiv, SFdiv_core_binary.
  pose proof (Zdigits2_bound (Z.pos n) 53 ltac:(lia) ltac:(lia)) as Hdn.
  pose proof (Zdigits2_bound (Z.pos d) 53 ltac:(lia) ltac:(lia)) as Hdd.
  pose proof (Zdigits2_pos n) as Hn1. pose proof (Zdigits2_pos d) as Hd1.
  set (e' := Z.min (fexp 53 1024 (Zdigits2 (Z.pos n) + 0 - (Zdigits2 (Z.pos d) + 0))) (0 - 0)).
  assert (He' : -107 <= e' <= 0) by (unfold e', fexp, emin; lia).
  set (m' := match 0 - 0 - e' with
             | Z0 => Z.pos n | Zpos _ => Z.shiftl (Z.pos n) (0 - 0 - e') | Zneg _ => 0 end).
  assert (Hm' : 0 <= m' <= Z.pos n * 2 ^ (- e')).
  { unfold m'. destruct (0 - 0 - e') as [|p|p] eqn:E; try lia.
    - replace (- e') with 0 by lia. simpl. lia.
    - rewrite Z.shiftl_mul_pow2 by lia. replace (- e') with (Z.pos p) by lia.
      lia. }
  pose proof (Z.div_eucl_eq m' (Z.pos d) ltac:(lia)) as Hdiv.
  pose proof (Z.mod_pos_bound m' (Z.pos d) ltac:(lia)) as Hmod.
  unfold Z.modulo in Hmod.
  destruct (Z.div_eucl m' (Z.pos d)) as [q r].
  assert (Hpow : 0 < 2 ^ (- e')) by (apply Z.pow_pos_nonneg; lia).
  assert (Hq : 0 <= q <= 2 ^ 160).
  { assert (Hq1 : 0 <= q <= m') by nia.
    assert (Hm2 : m' <= 2 ^ 53 * 2 ^ 107).
    { transitivity (Z.pos n * 2 ^ (- e')); [lia|].
      transitivity (2 ^ 53 * 2 ^ (- e')); [nia|].
      apply Z.mul_le_mono_nonneg_l; [lia|].
      apply Z.pow_le_mono_r; lia. }
    rewrite <- Z.pow_add_r in Hm2 by lia. change (53 + 107) with 160 in Hm2.
    lia. }
  apply binary_round_aux_finite_500; [lia | lia |].
  pose proof (Zdigits2_bound q 160 ltac:(lia) Hq). lia.
Qed.

(** A division of modest integers cannot fail. *)
Lemma truediv_ok (a b : Z) :
  0 <= a < 2 ^ 53 -> 0 < b < 2 ^ 53 -> exists q, truediv a b = Ok q.
Proof.
  intros Ha Hb. unfold truediv.
  destruct b as [|d|d]; try lia. destruct a as [|m|m]; try lia; [eauto|].
  pose proof (f64div_finite_53 false false m d ltac:(lia) ltac:(lia)) as Hfin.
  change (f64div _ _)
    with (SFdiv 53 1024 (S754_finite false m 0) (S754_finite false d 0)).
  destruct (SFdiv 53 1024 (S754_finite false m 0) (S754_finite false d 0))
    eqn:E; try (eexists; reflexivity).
  exfalso. eapply Hfin. reflexivity.
Qed.
End FiniteFacts.

Section RowFacts.
Import Py Cal Report Scenario Terms Roster Bounds.

Lemma pct_ok (n d : Z) :
  0 <= n < limit -> 0 <= d < limit ->
  exists x, pct n d = Ok x /\ (x = NInt 0 \/ exists f, x = NFloat f).
Proof.
  intros Hn Hd. unfold pct. destruct (0 <? d) eqn:E.
  - destruct (truediv_ok n d Hn) as [q ->]; [unfold limit in Hd; lia|].
    cbn [bind]. eauto.
  - eauto.
Qed.

Lemma fmt1_ok (x : num) :
  x = NInt 0 \/ (exists f, x = NFloat f) -> exists s, fmt1 x = Ok s.
Proof. intros [-> | [f ->]]; cbn; eauto. Qed.

Lemma fmt0_ok (x : num) :
  x = NInt 0 \/ (exists f, x = NFloat f) -> exists s, fmt0 x = Ok s.
Proof. intros [-> | [f ->]]; cbn; eauto. Qed.

(** A row with the two percentages. *)
Lemma stat_row_ok (a b : string) (stats : agg) :
  nonneg stats -> below stats -> exists r, stat_row a b stats = Ok r.
Proof.
  intros (Hs & Hr & Ho) (Bs & Br & Bo). unfold stat_row.
  destruct (pct_ok (replies stats) (sent stats)) as (x1 & -> & H1); [lia..|].
  destruct (pct_ok (opportunities stats) (sent stats)) as (x2 & -> & H2);
    [lia..|].
  cbn [bind].
  destruct (fmt1_ok x1 H1) as [s1 ->]. destruct (fmt1_ok x2 H2) as [s2 ->].
  cbn [bind]. eauto.
Qed.

(** A row of a month. *)
Lemma month_row_ok (y m : Z) (stats_y : list (string * agg)) (stats : agg) :
  y = 2026 \/ y = 2025 -> 1 <= m <= 12 ->
  od_get (month_key y m) stats_y = Some stats ->
  nonneg stats -> below stats ->
  exists r, month_row stats_y (month_key y m) = Ok r.
Proof.
  intros Hy Hm Hget (Hs & Hr & Ho) (Bs & Br & Bo). unfold month_row.
  rewrite Hget, (strptime_month_key y m Hy Hm). cbn [bind].
  unfold emails_per_opp. destruct (0 <? opportunities stats) eqn:E.
  - destruct (truediv_ok (sent stats) (opportunities stats)) as [q ->];
      [unfold limit in *; lia..|].
    cbn [bind fmt1]. eauto.
  - cbn [bind]. destruct (fmt1_ok (NInt 0)) as [s ->]; [now left|].
    cbn [bind]. eauto.
Qed.

(** A row of an agent. *)
Lemma agent_row_ok (e : string * agent) :
  0 <= total_sent (snd e) < limit ->
  0 <= active_days (snd e) <= total_sent (snd e) ->
  exists r, agent_row e = Ok r.
Proof.
  intros Ht Ha. unfold agent_row, avg_per_day.
  destruct (0 <? active_days (snd e)) eqn:E.
  - destruct (truediv_ok (total_sent (snd e)) (active_days (snd e)))
      as [q ->]; [unfold limit in *; lia..|].
    cbn [bind fmt0]. eauto.
  - cbn [bind]. destruct (fmt0_ok (NInt 0)) as [s ->]; [now left|].
    cbn [bind]. eauto.
Qed.

(** A loop whose every turn succeeds, succeeds. *)
Lemma foldM_ok {A S : Type} (body : S -> A -> result S) (l : list A) :
  (forall x, In x l -> forall s, exists s', body s x = Ok s') ->
  forall s, exists s', foldM body l s = Ok s'.
Proof.
  induction l as [|x l IH]; intros Hall s; cbn [foldM]; [eauto|].
  destruct (Hall x (or_introl eq_refl) s) as [s1 ->]. cbn [bind].
  apply IH. intros y Hy. apply Hall. now right.
Qed.

Lemma mapM_ok {A B : Type} (f : A -> result B) (l : list A) :
  (forall x, In x l -> exists r, f x = Ok r) -> exists rs, mapM f l = Ok rs.
Proof.
  induction l as [|x l IH]; intros Hall; cbn [mapM]; [eauto|].
  destruct (Hall x (or_introl eq_refl)) as [r ->]. cbn [bind].
  destruct IH as [rs ->]; [intros y Hy; apply Hall; now right|].
  cbn [bind]. eauto.
Qed.

(** *** Sums of counters that are not negative *)

Lemma nonneg_add (a b : agg) : nonneg a -> nonneg b -> nonneg (agg_add a b).
Proof.
  intros (A1 & A2 & A3) (B1 & B2 & B3). unfold nonneg.
  cbn [agg_add sent replies opportunities]. lia.
Qed.

Lemma nonneg_sum (l : list agg) : Forall nonneg l -> nonneg (agg_sum l).
Proof.
  induction 1 as [|a l Ha _ IH]; [rewrite agg_sum_nil; repeat split; cbn; lia|].
  rewrite agg_sum_cons. now apply nonneg_add.
Qed.

Lemma le3_refl (a : agg) : le3 a a.
Proof. unfold le3. lia. Qed.

Lemma le3_trans (a b c : agg) : le3 a b -> le3 b c -> le3 a c.
Proof. unfold le3. lia. Qed.

Lemma le3_add_r (a b : agg) : nonneg b -> le3 a (agg_add a b).
Proof.
  intros (B1 & B2 & B3). unfold le3.
  cbn [agg_add sent replies opportunities]. lia.
Qed.

Lemma le3_add_l (a b : agg) : nonneg a -> le3 b (agg_add a b).
Proof.
  intros (B1 & B2 & B3). unfold le3.
  cbn [agg_add sent replies opportunities]. lia.
Qed.

Lemma le3_add (a b c d : agg) :
  le3 a c -> le3 b d -> le3 (agg_add a b) (agg_add c d).
Proof.
  intros (A1 & A2 & A3) (B1 & B2 & B3). unfold le3.
  cbn [agg_add sent replies opportunities]. lia.
Qed.

(** A term of a sum of counters that are not negative is below the sum. *)
Lemma le3_in_sum (l : list agg) (a : agg) :
  Forall nonneg l -> In a l -> le3 a (agg_sum l).
Proof.
  induction 1 as [|b l Hb Hl IH]; intros Hin; [destruct Hin|].
  rewrite agg_sum_cons. destruct Hin as [-> | Hin].
  - apply le3_add_r, nonneg_sum, Hl.
  - eapply le3_trans; [apply IH, Hin | apply le3_add_l, Hb].
Qed.

Lemma below_le3 (a b : agg) : le3 a b -> below b -> below a.
Proof. unfold le3, below. lia. Qed.

Lemma nonneg_unsuppressed (a : agg) :
  nonneg a -> nonneg (unsuppressed a) /\ le3 (unsuppressed a) a.
Proof.
  intros Ha. unfold unsuppressed. destruct (suppressed a).
  - split; [repeat split; cbn; lia|]. destruct Ha as (? & ? & ?).
    unfold le3. cbn. lia.
  - split; [exact Ha | apply le3_refl].
Qed.

Lemma shown_total_within (l : list agg) :
  Forall nonneg l ->
  nonneg (shown_total l) /\ le3 (shown_total l) (agg_sum l).
Proof.
  unfold shown_total. induction 1 as [|a l Ha _ [IH1 IH2]]; cbn [map].
  - rewrite agg_sum_nil. split; [repeat split; cbn; lia | apply le3_refl].
  - rewrite !agg_sum_cons. destruct (nonneg_unsuppressed a Ha) as [U1 U2].
    split; [now apply nonneg_add | now apply le3_add].
Qed.
End RowFacts.

Section SafetyFacts.
Import Py Cal Report Scenario Terms Roster Bounds.

Lemma nonneg_add_day (d : day_record) (a : agg) :
  nonneg (day_agg d) -> nonneg a -> nonneg (add_day d a).
Proof. intros Hd Ha. unfold add_day. now apply nonneg_add. Qed.

Lemma nonneg_agg0 : nonneg agg0.
Proof. repeat split; cbn; lia. Qed.

Lemma sum_where_within (P : date -> bool) (l : list day_record) :
  Forall (fun d => nonneg (day_agg d)) l ->
  nonneg (sum_where P l) /\ le3 (sum_where P l) (agg_sum (map day_agg l)).
Proof.
  unfold sum_where. induction 1 as [|d l Hd _ [IH1 IH2]]; cbn [map].
  - rewrite agg_sum_nil. split; [apply nonneg_agg0 | apply le3_refl].
  - rewrite !agg_sum_cons.
    assert (Hc : nonneg (counted P d) /\ le3 (counted P d) (day_agg d)).
    { unfold counted. destruct (record_date d) as [[dd|]|];
        try (split; [apply nonneg_agg0|]; destruct Hd as (? & ? & ?);
             unfold le3; cbn [agg0 sent replies opportunities]; lia).
      destruct (P dd); [split; [exact Hd | apply le3_refl]|].
      split; [apply nonneg_agg0|]. destruct Hd as (? & ? & ?).
      unfold le3. cbn [agg0 sent replies opportunities]. lia. }
    destruct Hc as [C1 C2].
    split; [now apply nonneg_add | now apply le3_add].
Qed.

(** *** The Master Dashboard *)

Lemma master_step_nonneg (st st' : list (Z * list (string * agg)) * agg)
    (d : day_record) :
  nonneg (day_agg d) ->
  Forall (fun e => Forall (fun b => nonneg (snd b)) (snd e)) (fst st) ->
  master_step st d = Ok st' ->
  Forall (fun e => Forall (fun b => nonneg (snd b)) (snd e)) (fst st').
Proof.
  destruct st as [yd tot]. cbn [fst]. intros Hd Hinv H. unfold master_step in H.
  destruct (truthy_str (d_date d)); [|now injection H as <-].
  apply bind_ok_inv in H as (dd & _ & H). injection H as <-. cbn [fst].
  apply (od_upd_Forall (fun v : list (string * agg) =>
                          Forall (fun b => nonneg (snd b)) v)).
  - intros v Hv. apply (od_upd_Forall nonneg); [|  |exact Hv].
    + intros a Ha. now apply nonneg_add_day.
    + apply nonneg_add_day; [exact Hd | apply nonneg_agg0].
  - apply (od_upd_Forall nonneg); [| |constructor].
    + intros a Ha. now apply nonneg_add_day.
    + apply nonneg_add_day; [exact Hd | apply nonneg_agg0].
  - exact Hinv.
Qed.

(** The section of a year is built when its buckets are modest. *)
Lemma year_section_ok (y : Z) (title : string) (with_spacer : bool)
    (year_data : list (Z * list (string * agg))) :
  y = 2026 \/ y = 2025 -> months_ok year_data ->
  (forall stats k b, od_get y year_data = Some stats -> In (k, b) stats ->
                     nonneg b /\ below b) ->
  exists rows, year_section y title with_spacer year_data = Ok rows.
Proof.
  intros Hy Hok Hb. unfold year_section.
  destruct (od_get y year_data) as [stats|] eqn:Hget;
    cbn [default from_option id]; [|eauto].
  destruct (Hok y stats Hget) as [Hnd Hkeys].
  destruct (mapM_ok (month_row stats) (sorted_months stats)) as [rows Hrows].
  { intros k Hk. unfold sorted_months in Hk. apply sorted_In in Hk.
    rewrite List.Forall_forall in Hkeys.
    destruct (Hkeys k Hk) as (m & Hm & ->).
    destruct (od_get (month_key y m) stats) as [b|] eqn:Eb.
    - apply od_get_Some_In in Eb as Hin.
      destruct (Hb stats _ b eq_refl Hin) as [B1 B2].
      apply (month_row_ok y m stats b Hy Hm Eb B1 B2).
    - apply od_get_None_keys in Eb. contradiction. }
  destruct stats as [|e0 stats0]; [eauto|]. rewrite Hrows. cbn [bind]. eauto.
Qed.

Lemma master_rows_ok (dt : data) :
  forallb date_readable (records dt) = true ->
  Forall (fun d => nonneg (day_agg d)) (records dt) ->
  below (visited_total dt) ->
  exists rows, create_master_dashboard_rows dt = Ok rows.
Proof.
  intros Hread Hnn Hbelow. unfold create_master_dashboard_rows.
  destruct (master_aggregate dt) as [[yd tot]|e] eqn:Hagg.
  2:{ unfold master_aggregate in Hagg. rewrite foldM_flat_map in Hagg.
      fold (records dt) in Hagg.
      pose proof (master_loop_ledger (records dt) ([], agg0)) as Hm.
      rewrite Hread in Hm. destruct Hm as (st' & Hst & _). congruence. }
  cbn [bind].
  pose proof (master_aggregate_months dt yd tot Hagg) as Hok.
  assert (Hinv : Forall (fun e => Forall (fun b => nonneg (snd b)) (snd e)) yd).
  { unfold master_aggregate in Hagg. rewrite foldM_flat_map in Hagg.
    fold (records dt) in Hagg.
    apply (foldM_invariant
             (fun st => Forall (fun e => Forall (fun b => nonneg (snd b)) (snd e))
                               (fst st)) master_step _ _ _) in Hagg;
      [exact Hagg | |constructor].
    intros st d st' Hin Hst Hstep. rewrite List.Forall_forall in Hnn.
    apply (master_step_nonneg st st' d (Hnn d Hin) Hst Hstep). }
  assert (Htot : all_years_total yd = sum_where (fun _ => true) (records dt)).
  { unfold master_aggregate in Hagg. rewrite foldM_flat_map in Hagg.
    fold (records dt) in Hagg.
    pose proof (master_loop_ledger (records dt) ([], agg0)) as Hm.
    rewrite Hread in Hm. destruct Hm as (st' & Hst & _ & Ha & _).
    rewrite Hagg in Hst. injection Hst as <-. cbn [fst] in Ha.
    change (all_years_total []) with agg0 in Ha.
    now rewrite agg_add_0_l in Ha. }
  assert (Hbuckets : forall y stats k b,
            od_get y yd = Some stats -> In (k, b) stats ->
            nonneg b /\ below b).
  { intros y stats k b Hget Hin. apply od_get_Some_In in Hget.
    rewrite List.Forall_forall in Hinv. pose proof (Hinv _ Hget) as Hs.
    cbn [snd] in Hs. rewrite List.Forall_forall in Hs.
    pose proof (Hs _ Hin) as Hbn. cbn [snd] in Hbn. split; [exact Hbn|].
    apply (below_le3 _ (visited_total dt)); [|exact Hbelow].
    apply (le3_trans _ (agg_sum (od_values stats))).
    { apply le3_in_sum.
      - unfold od_values. apply List.Forall_forall. intros a Ha.
        apply in_map_iff in Ha as (e & <- & He). apply (Hs _ He).
      - unfold od_values. apply (in_map snd) in Hin. exact Hin. }
    apply (le3_trans _ (all_years_total yd)).
    { unfold all_years_total. apply le3_in_sum.
      - apply List.Forall_forall. intros a Ha.
        apply in_map_iff in Ha as (e & <- & He). apply nonneg_sum.
        unfold od_values. apply List.Forall_forall. intros a' Ha'.
        apply in_map_iff in Ha' as (e' & <- & He').
        pose proof (Hinv _ He) as Hs'. rewrite List.Forall_forall in Hs'.
        apply (Hs' _ He').
      - apply (in_map (fun e => agg_sum (od_values (snd e)))) in Hget.
        exact Hget. }
    rewrite Htot. apply (sum_where_within _ _ Hnn). }
  destruct (year_section_ok 2026 "PERFORMANCE BY MONTH 2026" true yd)
    as [s26 ->]; [now left | exact Hok | apply Hbuckets |].
  cbn [bind].
  destruct (year_section_ok 2025 "PERFORMANCE BY MONTH 2025" false yd)
    as [s25 ->]; [now right | exact Hok | apply Hbuckets |].
  cbn [bind]. eauto.
Qed.

(** *** The weekly-detail tab *)

Lemma weekly_step_nonneg (name : string)
    (wk wk' : list (Z * string * string * agg)) (d : day_record) :
  nonneg (day_agg d) ->
  Forall (fun e => nonneg (snd e)) wk ->
  weekly_step name wk d = Ok wk' ->
  Forall (fun e => nonneg (snd e)) wk'.
Proof.
  intros Hd Hinv H. unfold weekly_step in H.
  destruct (truthy_str (d_date d)); [|now injection H as <-].
  apply bind_ok_inv in H as (dd & _ & H).
  destruct (negb (year dd =? target_year)); [now injection H as <-|].
  apply bind_ok_inv in H as (w & _ & H). injection H as <-.
  apply (od_upd_Forall nonneg); [| |exact Hinv].
  - intros a Ha. now apply nonneg_add_day.
  - apply nonneg_add_day; [exact Hd | apply nonneg_agg0].
Qed.

Lemma weekly_aggregate_nonneg (dt : data)
    (wk : list (Z * string * string * agg)) :
  Forall (fun d => nonneg (day_agg d)) (records dt) ->
  weekly_aggregate dt = Ok wk ->
  Forall (fun e => nonneg (snd e)) wk.
Proof.
  intros Hnn H. unfold weekly_aggregate in H.
  apply (foldM_invariant (fun wk => Forall (fun e => nonneg (snd e)) wk)
           _ _ _ _) in H; [exact H | |constructor].
  intros st camp st' Hcamp Hst Hin.
  apply (foldM_invariant (fun wk => Forall (fun e => nonneg (snd e)) wk)
           _ _ _ _) in Hin; [exact Hin | |exact Hst].
  intros st1 d st2 Hd. apply weekly_step_nonneg.
  rewrite List.Forall_forall in Hnn. apply Hnn.
  unfold records. apply in_flat_map. exists camp. now split.
Qed.

(** The buckets filed under the weeks are the buckets of the aggregation. *)
Lemma group_weeks_Forall (P : agg -> Prop)
    (wk : list (Z * string * string * agg)) :
  Forall (fun e => P (snd e)) wk ->
  Forall (fun e => Forall (fun c => P (snd c)) (snd (snd e))) (group_weeks wk).
Proof.
  unfold group_weeks.
  assert (H0 : Forall (fun e : Z * (string * list (string * agg)) =>
                         Forall (fun c => P (snd c)) (snd (snd e))) [])
    by constructor.
  revert H0. generalize (@nil (Z * (string * list (string * agg)))).
  induction wk as [|[[[n lbl] name] st] wk IH]; intros weeks Hw Hk;
    cbn [fold_left]; [exact Hw|].
  apply Forall_cons in Hk as [Hst Hk]. cbn [snd] in Hst.
  apply IH; [|exact Hk]. unfold group_step.
  apply (od_upd_Forall (fun w : string * list (string * agg) =>
                          Forall (fun c => P (snd c)) (snd w))).
  - intros w Hwd. cbn [snd]. unfold od_set.
    apply (od_upd_Forall P); [intros; exact Hst | exact Hst | exact Hwd].
  - cbn [snd]. unfold od_set.
    apply (od_upd_Forall P); [intros; exact Hst | exact Hst | constructor].
  - exact Hw.
Qed.

Lemma campaigns_rows_ok (dt : data) (wk : list (Z * string * string * agg)) :
  weekly_aggregate dt = Ok wk ->
  Forall (fun e => nonneg (snd e)) wk ->
  below (agg_sum (od_values wk)) ->
  exists rows g, campaigns_rows_of wk = Ok (rows, g).
Proof.
  intros Hwk Hnn Hbelow.
  pose proof (weekly_aggregate_keys dt wk Hwk) as [Hnd Hlab].
  set (Tw := agg_sum (od_values wk)) in *.
  set (P := fun b : agg => nonneg b /\ le3 b Tw).
  assert (HP : Forall (fun e => P (snd e)) wk).
  { apply List.Forall_forall. intros e He. rewrite List.Forall_forall in Hnn.
    split; [apply (Hnn e He)|]. unfold Tw. apply le3_in_sum.
    - unfold od_values. apply List.Forall_forall. intros a Ha.
      apply in_map_iff in Ha as (e' & <- & He'). apply (Hnn e' He').
    - unfold od_values. now apply in_map. }
  pose proof (group_weeks_Forall P wk HP) as Hweeks.
  pose proof (group_weeks_ok wk) as Hok. pose proof Hok as [Hwnd Hcnd].
  assert (Hfull : weeks_total (fun a => a) (group_weeks wk) = Tw).
  { unfold group_weeks. rewrite (group_weeks_total (fun a => a) wk [] []).
    - change (weeks_total (fun a => a) []) with agg0. rewrite agg_add_0_l.
      reflexivity.
    - intros n w c Hget. discriminate Hget.
    - exact Hnd.
    - intros n l l' c c' H1 H2. cbn [app] in H1, H2.
      rewrite List.Forall_forall in Hlab.
      apply Hlab in H1, H2. cbn [fst snd] in H1, H2. congruence. }
  assert (Hweek : forall n week, od_get n (group_weeks wk) = Some week ->
            Forall (fun c => P (snd c)) (snd week) /\
            NoDup (od_keys (snd week)) /\
            nonneg (shown_total (od_values (snd week))) /\
            below (shown_total (od_values (snd week)))).
  { intros n week Hget. apply od_get_Some_In in Hget.
    rewrite List.Forall_forall in Hweeks, Hcnd.
    pose proof (Hweeks _ Hget) as Hc. cbn [snd] in Hc.
    pose proof (Hcnd _ Hget) as Hn. cbn [snd] in Hn.
    assert (Hvals : Forall nonneg (od_values (snd week))).
    { unfold od_values. apply List.Forall_forall. intros a Ha.
      apply in_map_iff in Ha as (e' & <- & He').
      rewrite List.Forall_forall in Hc. apply (Hc e' He'). }
    destruct (shown_total_within _ Hvals) as [S1 S2].
    split; [exact Hc|]. split; [exact Hn|]. split; [exact S1|].
    apply (below_le3 _ Tw); [|exact Hbelow].
    apply (le3_trans _ _ _ S2). rewrite <- Hfull. unfold weeks_total.
    apply le3_in_sum.
    - apply List.Forall_forall. intros a Ha.
      apply in_map_iff in Ha as (e' & <- & He'). apply nonneg_sum.
      apply List.Forall_forall. intros a' Ha'.
      apply in_map_iff in Ha' as (c & <- & Hc').
      pose proof (Hweeks _ He') as Hc2. rewrite List.Forall_forall in Hc2.
      apply (Hc2 c Hc').
    - apply (in_map (fun e => agg_sum (map (fun c => snd c) (snd (snd e)))))
        in Hget. exact Hget. }
  unfold campaigns_rows_of.
  destruct (foldM_ok (week_step (group_weeks wk))
              (sorted Z.leb (od_keys (group_weeks wk)))) with (s := ([header8], agg0))
    as [[rows1 g1] Hloop].
  { intros n Hn [rows0 g0]. apply sorted_In in Hn. unfold week_step.
    destruct (od_get n (group_weeks wk)) as [week|] eqn:Hget.
    2:{ apply od_get_None_keys in Hget. contradiction. }
    destruct (Hweek n week Hget) as (Hc & Hcn & S1 & S2).
    destruct (foldM_ok (campaign_row_step (snd week))
                (sorted String.leb (od_keys (snd week))))
      with (s := ((rows0 ++ [[fst week; ""; ""; ""; ""; ""; ""; ""]])%list, agg0))
      as [[crows wt] Hcrows].
    { intros name Hname [r0 t0]. apply sorted_In in Hname.
      unfold campaign_row_step.
      destruct (od_get name (snd week)) as [stats|] eqn:Hs.
      2:{ apply od_get_None_keys in Hs. contradiction. }
      destruct (suppressed stats); [eauto|].
      apply od_get_Some_In in Hs. rewrite List.Forall_forall in Hc.
      destruct (Hc _ Hs) as [Q1 Q2]. cbn [snd] in Q1, Q2.
      destruct (stat_row_ok "" name stats Q1 (below_le3 _ _ Q2 Hbelow))
        as [row ->].
      cbn [bind]. eauto. }
    unfold week_campaign_rows. rewrite Hcrows. cbn [bind].
    assert (Hwt : wt = shown_total (od_values (snd week))).
    { apply (week_totals_shown (snd week) _ crows wt Hcn Hcrows). }
    subst wt.
    destruct (stat_row_ok "WEEKLY TOTAL" "" _ S1 S2) as [trow ->].
    cbn [bind]. eauto. }
  rewrite Hloop. cbn [bind].
  assert (Hg : g1 = shown_total (od_values wk)).
  { apply grand_totals_of_weeks in Hloop; [|exact Hok].
    rewrite Hloop. unfold group_weeks.
    rewrite (group_weeks_total unsuppressed wk [] []).
    - change (weeks_total unsuppressed []) with agg0. rewrite agg_add_0_l.
      unfold shown_total, od_values. now rewrite map_map.
    - intros n w c Hget. discriminate Hget.
    - exact Hnd.
    - intros n l l' c c' H1 H2. cbn [app] in H1, H2.
      rewrite List.Forall_forall in Hlab.
      apply Hlab in H1, H2. cbn [fst snd] in H1, H2. congruence. }
  assert (Hvals : Forall nonneg (od_values wk)).
  { unfold od_values. apply List.Forall_forall. intros a Ha.
    apply in_map_iff in Ha as (e' & <- & He').
    rewrite List.Forall_forall in Hnn. apply (Hnn e' He'). }
  destruct (shown_total_within _ Hvals) as [S1 S2]. rewrite <- Hg in S1, S2.
  destruct (stat_row_ok "GRAND TOTAL (YTD)" "" g1 S1
              (below_le3 _ _ S2 Hbelow)) as [grow ->].
  cbn [bind]. eauto.
Qed.

Lemma campaigns_tab_ok (dt : data) :
  forallb date_readable (records dt) = true ->
  Forall (fun d => nonneg (day_agg d)) (records dt) ->
  below (visited_total dt) ->
  exists rows, create_campaigns_tab_rows dt = Ok rows.
Proof.
  intros Hread Hnn Hbelow. unfold create_campaigns_tab_rows.
  pose proof (weekly_outer_ledger dt (campaigns dt) []) as Hw.
  fold (records dt) in Hw. rewrite Hread in Hw.
  destruct Hw as (wk & Hwk & Hsum). fold (weekly_aggregate dt) in Hwk.
  rewrite Hwk. cbn [bind].
  change (agg_sum (od_values [])) with agg0 in Hsum.
  rewrite agg_add_0_l in Hsum.
  destruct (campaigns_rows_ok dt wk Hwk) as (rows & g & ->).
  - apply (weekly_aggregate_nonneg dt wk Hnn Hwk).
  - rewrite Hsum. apply (below_le3 _ (visited_total dt)); [|exact Hbelow].
    apply (sum_where_within _ _ Hnn).
  - cbn [bind]. eauto.
Qed.

(** *** The Agents tab *)

Lemma sent_of_bounds (email : string) (l : list day_stat) :
  Forall (fun s => 0 <= default 0 (s_sent s)) l ->
  0 <= active_of email l <= sent_of email l /\
  sent_of email l <= zsum (map (fun s => default 0 (s_sent s)) l).
Proof.
  unfold sent_of, active_of, zsum.
  induction 1 as [|s l Hs _ (IH1 & IH2)]; cbn [List.filter map fold_right];
    [cbn; lia|].
  destruct (stat_for email s); cbn [andb]; [|lia].
  destruct (0 <? default 0 (s_sent s)) eqn:E; cbn [map fold_right length]; lia.
Qed.

Lemma agents_tab_ok (dt : data) :
  Forall (fun s => 0 <= default 0 (s_sent s)) (analytics dt) ->
  accounts_total dt < limit ->
  exists rows, create_agents_tab_rows dt = Ok rows.
Proof.
  intros Hnn Hlim. unfold create_agents_tab_rows.
  destruct (mapM_ok agent_row (sorted agent_ge (agent_data_of dt)))
    as [rows ->]; [|cbn [bind]; eauto].
  intros [email a] Hin. apply sorted_In in Hin.
  destruct (agent_data_keys dt) as [Hnd Hempty].
  pose proof (od_get_In_NoDup email a _ Hnd Hin) as Ha.
  assert (Hne : email <> "").
  { intros ->. apply Hempty. apply (in_map fst) in Hin. exact Hin. }
  rewrite (agent_data_get dt email Hne) in Ha.
  destruct (sent_of_bounds email (analytics dt) Hnn) as (B1 & B2).
  unfold accounts_total in Hlim.
  assert (Hlim0 : 0 < limit) by (unfold limit; lia).
  apply agent_row_ok; cbn [snd].
  - destruct (in_analytics email (analytics dt)).
    + injection Ha as <-. cbn [total_sent]. lia.
    + destruct (in_roster email (accounts dt)); [|discriminate].
      injection Ha as <-. cbn. lia.
  - destruct (in_analytics email (analytics dt)).
    + injection Ha as <-. cbn [total_sent active_days]. lia.
    + destruct (in_roster email (accounts dt)); [|discriminate].
      injection Ha as <-. cbn. lia.
Qed.

(** X21: the three tables are always built on plausible data. When every
    visited record has an absent, empty or well-formed date, no counter is
    negative and the totals of sent, replies and opportunities stay below
    [2^53], the Master Dashboard and the weekly-detail tab are built: no
    bucket is looked up in vain, no month key fails to parse, no division
    is by zero and no quotient overflows. When no account record has a
    negative sent count and their total stays below [2^53], so is the Agents
    tab. *)
Theorem tabs_never_fail (dt : data) :
  forallb date_readable (records dt) = true ->
  modest dt ->
  is_ok (create_master_dashboard_rows dt) = true /\
  is_ok (create_campaigns_tab_rows dt) = true /\
  is_ok (create_agents_tab_rows dt) = true.
Proof.
  intros Hread (Hnn & Hbelow & Hann & Hacc).
  destruct (master_rows_ok dt Hread Hnn Hbelow) as [r1 ->].
  destruct (campaigns_tab_ok dt Hread Hnn Hbelow) as [r2 ->].
  destruct (agents_tab_ok dt Hann Hacc) as [r3 ->].
  repeat split.
Qed.

Lemma tabs_never_fail_witness :
  is_ok (create_master_dashboard_rows quiet_leads) = true /\
  is_ok (create_campaigns_tab_rows quiet_leads) = true /\
  is_ok (create_agents_tab_rows quiet_leads) = true.
Proof.
  apply (tabs_never_fail quiet_leads); [reflexivity|].
  repeat split; try (repeat constructor; cbn; lia); cbn; unfold limit; lia.
Defined.
End SafetyFacts.

Section DigestSafety.
Import Py Cal Report Scenario Terms DigestTerms Bounds.

Lemma digest_rate_ok (n d : Z) :
  0 <= n < limit -> 0 <= d < limit -> exists s, digest_rate n d = Ok s.
Proof.
  intros Hn Hd. unfold digest_rate. destruct (0 <? d) eqn:E; [|eauto].
  destruct (truediv_ok n d Hn) as [q ->]; [unfold limit in Hd; lia|].
  cbn [bind]. eauto.
Qed.

Lemma total_of_filter_within (P : day_record -> bool) (l : list day_record) :
  Forall (fun d => nonneg (day_agg d)) l ->
  nonneg (total_of (List.filter P l)) /\
  le3 (total_of (List.filter P l)) (total_of l) /\ nonneg (total_of l).
Proof.
  induction 1 as [|d l Hd _ (IH1 & IH2 & IH3)].
  - cbn [List.filter]. unfold total_of. cbn [map]. rewrite agg_sum_nil.
    split; [apply nonneg_agg0|]. split; [apply le3_refl | apply nonneg_agg0].
  - rewrite total_of_filter_cons, total_of_cons.
    split; [|split].
    + apply nonneg_add; [destruct (P d); [exact Hd | apply nonneg_agg0]|exact IH1].
    + apply le3_add; [|exact IH2]. destruct (P d); [apply le3_refl|].
      destruct Hd as (? & ? & ?). unfold le3.
      cbn [agg0 sent replies opportunities]. lia.
    + now apply nonneg_add.
Qed.

(** X22: the digest is always computed on plausible data. When the Monday
    and the Sunday of the current week exist, every record of
    [campaign_analytics] carries a date that parses, no counter is negative
    and the totals stay below [2^53], the six figures and the four rates of
    the digest are computed: no division is by zero and no quotient
    overflows. *)
Theorem digest_never_fails (today week_start week_end : date) (dt : data) :
  add_days today (- weekday today) = Ok week_start ->
  add_days week_start 6 = Ok week_end ->
  forallb (fun d => is_ok (digest_date d)) (analytics_records dt) = true ->
  digest_modest dt ->
  exists g r, digest_metrics today dt = Ok g /\ digest_rates_of g = Ok r.
Proof.
  intros Hs He Hall [Hnn Hbelow]. unfold digest_metrics.
  rewrite Hs. cbn [bind]. rewrite He. cbn [bind].
  rewrite (foldM_flat_map (digest_step week_start week_end) snd).
  fold (analytics_records dt).
  pose proof (digest_loop_ledger week_start week_end (analytics_records dt)
                digest0) as H.
  rewrite Hall in H.
  destruct H as (g & Hg & (A1 & A2 & A3) & (W1 & W2 & W3)).
  exists g. rewrite Hg.
  cbn [digest0 all_time_sent all_time_replies all_time_opps
       week_sent week_replies week_opps] in *.
  destruct (total_of_filter_within (in_week week_start week_end)
              (analytics_records dt) Hnn)
    as ((F1 & F2 & F3) & (L1 & L2 & L3) & (T1 & T2 & T3)).
  destruct Hbelow as (B1 & B2 & B3).
  unfold digest_rates_of.
  destruct (digest_rate_ok (week_replies g) (week_sent g)) as [a ->]; [lia..|].
  destruct (digest_rate_ok (week_opps g) (week_sent g)) as [b ->]; [lia..|].
  destruct (digest_rate_ok (all_time_replies g) (all_time_sent g)) as [c ->];
    [lia..|].
  destruct (digest_rate_ok (all_time_opps g) (all_time_sent g)) as [d ->];
    [lia..|].
  cbn [bind]. eauto.
Qed.

Lemma digest_never_fails_witness :
  exists g r, digest_metrics (mkdate 2026 1 7) acme = Ok g /\
              digest_rates_of g = Ok r.
Proof.
  apply (digest_never_fails (mkdate 2026 1 7) (mkdate 2026 1 5)
           (mkdate 2026 1 11) acme); try reflexivity.
  split; [repeat constructor; cbn; lia|].
  repeat split; cbn; unfold limit; lia.
Defined.
End DigestSafety.
